(** * vctx: the state-extraction layer and the text renderer of [src/index.js]

    A shallow embedding of the two classes of [src/index.js]:
    [VSCodeInspector] (workspace lookup, editor-layout parsing, active-file
    resolution, selection parsing, content slicing) and [LLMFormatter]
    (text rendering), of the command actions and of [handleShorthands],
    followed by the properties proved about them.

    Conventions of the embedding.
    - A value produced by [JSON.parse] is a [json] tree; [undefined] is the
      [None] of [jsval].  JSON numbers are modelled by integers, rendered in
      decimal.
    - A JavaScript string is a [string]; an [ascii] stands for a code unit
      below 256.
    - Code that may throw lives in the [Exc] monad; every [try]/[catch] of the
      source is a [catch] here.
    - Everything the program obtains from its host (the JSON parser, child
      processes, the file system, path resolution, terminal colours) is a
      field of the record [Env]. *)

From Stdlib Require Import ZArith List String Ascii Bool Lia.
From Stdlib Require Import DecimalString DecimalPos DecimalN DecimalZ.
Import ListNotations.
Local Open Scope string_scope.
Local Open Scope Z_scope.

(** ** Exceptions *)

Inductive error : Type :=
| TypeError
| SyntaxError
| Error (message : string).

Inductive Exc (A : Type) : Type :=
| Ret (a : A)
| Throw (e : error).
Arguments Ret {A} a.
Arguments Throw {A} e.

Definition bind {A B : Type} (m : Exc A) (k : A -> Exc B) : Exc B :=
  match m with
  | Ret a => k a
  | Throw e => Throw e
  end.

(** [try { m } catch (err) { h err }] *)
Definition catch {A : Type} (m : Exc A) (h : error -> A) : A :=
  match m with
  | Ret a => a
  | Throw e => h e
  end.

Declare Scope exc_scope.
Delimit Scope exc_scope with exc.
Notation "x <- m ;; k" := (bind m (fun x => k))
  (at level 61, m at next level, right associativity) : exc_scope.
Notation "m ;;; k" := (bind m (fun _ => k))
  (at level 61, right associativity) : exc_scope.
Local Open Scope exc_scope.

(** ** JavaScript values and the operators the program applies to them *)

Module Js.

(** A value of [JSON.parse].  The fields of an object are its own
    properties in the order [Object.entries] enumerates them, each key
    once. *)
#[warnings="-register-all"]
Inductive json : Type :=
| JNull
| JBool (b : bool)
| JNum (n : Z)
| JStr (s : string)
| JArr (items : list json)
| JObj (fields : list (string * json)).

(** [None] is [undefined]. *)
Definition jsval : Type := option json.

(** ToBoolean. *)
Definition truthy (v : jsval) : bool :=
  match v with
  | None => false
  | Some JNull => false
  | Some (JBool b) => b
  | Some (JNum n) => negb (n =? 0)
  | Some (JStr s) => negb (s =? "")%string
  | Some (JArr _) => true
  | Some (JObj _) => true
  end.

(** [a || b] *)
Definition or_else (a b : jsval) : jsval := if truthy a then a else b.

(** [a === b] for two values taken from different places of parsed JSON:
    primitives compare by value, arrays and objects are distinct objects. *)
Definition strict_eq (a b : jsval) : bool :=
  match a, b with
  | None, None => true
  | Some JNull, Some JNull => true
  | Some (JBool x), Some (JBool y) => Bool.eqb x y
  | Some (JNum x), Some (JNum y) => x =? y
  | Some (JStr x), Some (JStr y) => (x =? y)%string
  | _, _ => false
  end.

Definition assoc {A : Type} (k : string) : list (string * A) -> option A :=
  fix go (fs : list (string * A)) : option A :=
    match fs with
    | [] => None
    | (k', v) :: rest => if (k' =? k)%string then Some v else go rest
    end.

(** [v.k] for [v] neither [null] nor [undefined], and [k] one of the data
    keys the program reads (none of them names an inherited property of
    arrays, strings, numbers or booleans, so only objects answer). *)
Definition prop (k : string) (v : json) : jsval :=
  match v with
  | JObj fields => assoc k fields
  | _ => None
  end.

(** [x.k]: a TypeError on [null] and [undefined]. *)
Definition dot (x : jsval) (k : string) : Exc jsval :=
  match x with
  | None | Some JNull => Throw TypeError
  | Some v => Ret (prop k v)
  end.

(** [x?.k] *)
Definition qdot (x : jsval) (k : string) : jsval :=
  match x with
  | None | Some JNull => None
  | Some v => prop k v
  end.

(** Decimal rendering of an integer, as [String(n)] gives it for an integer
    that JavaScript holds exactly (magnitude below 2^53); from 1e21 on the
    source prints an exponent instead, so what depends on the rendering is
    stated for numbers within that bound. *)
Definition string_of_Z (n : Z) : string := NilZero.string_of_int (Z.to_int n).

Definition string_of_nat (n : nat) : string := string_of_Z (Z.of_nat n).

Definition join (sep : string) : list string -> string :=
  fix go (l : list string) : string :=
    match l with
    | [] => ""
    | [x] => x
    | x :: rest => x ++ sep ++ go rest
    end.

(** [String(v)], which is also what a template literal inserts; an object is
    rendered as one without a [toString] of its own. *)
Fixpoint to_string (v : json) : string :=
  match v with
  | JNull => "null"
  | JBool true => "true"
  | JBool false => "false"
  | JNum n => string_of_Z n
  | JStr s => s
  | JArr items =>
      join "," (map (fun x => match x with
                              | JNull => ""
                              | _ => to_string x
                              end) items)
  | JObj _ => "[object Object]"
  end.

Definition template (v : jsval) : string :=
  match v with
  | None => "undefined"
  | Some j => to_string j
  end.

(** ToNumber; [None] is NaN.  [StringToNumber] is the host's conversion of a
    string. *)
Definition to_number (StringToNumber : string -> option Z) (v : json)
  : option Z :=
  match v with
  | JNull => Some 0
  | JBool b => Some (if b then 1 else 0)
  | JNum n => Some n
  | JStr s => StringToNumber s
  | JArr _ | JObj _ => StringToNumber (to_string v)
  end.

(** [i <= v] for a number [i]. *)
Definition num_le (StringToNumber : string -> option Z) (i : Z) (v : json)
  : bool :=
  match to_number StringToNumber v with
  | Some n => i <=? n
  | None => false
  end.

(** White space and line terminators among the code units below 256. *)
Definition is_space (c : ascii) : bool :=
  let n := nat_of_ascii c in
  ((9 <=? n) && (n <=? 13) || (n =? 32) || (n =? 160))%nat.

Fixpoint trim_start (s : string) : string :=
  match s with
  | EmptyString => EmptyString
  | String c rest => if is_space c then trim_start rest else s
  end.

Fixpoint trim_end (s : string) : string :=
  match s with
  | EmptyString => EmptyString
  | String c rest =>
      match trim_end rest with
      | EmptyString => if is_space c then EmptyString else String c EmptyString
      | t => String c t
      end
  end.

(** [s.trim()] *)
Definition trim (s : string) : string := trim_end (trim_start s).

Definition newline : string := String (ascii_of_nat 10) EmptyString.

Definition dquote : string := String (ascii_of_nat 34) EmptyString.

(** [s.split(sep)] for a separator of one character. *)
Fixpoint split (sep : ascii) (s : string) : list string :=
  match s with
  | EmptyString => [EmptyString]
  | String c rest =>
      if (c =? sep)%char then EmptyString :: split sep rest
      else match split sep rest with
           | [] => [String c EmptyString]
           | l :: ls => String c l :: ls
           end
  end.

(** [s.split('\n')] *)
Definition split_lines (s : string) : list string := split (ascii_of_nat 10) s.

(** [s.toLowerCase()] on code units below 256. *)
Definition lower (c : ascii) : ascii :=
  let n := nat_of_ascii c in
  if ((65 <=? n) && (n <=? 90)
      || (192 <=? n) && (n <=? 222) && negb (n =? 215))%nat
  then ascii_of_nat (n + 32)
  else c.

Fixpoint toLowerCase (s : string) : string :=
  match s with
  | EmptyString => EmptyString
  | String c rest => String (lower c) (toLowerCase rest)
  end.

(** [s.startsWith(p)] *)
Definition startsWith (s p : string) : bool := String.prefix p s.

(** The one-character strings of a string. *)
Fixpoint chars (s : string) : list json :=
  match s with
  | EmptyString => []
  | String c rest => JStr (String c EmptyString) :: chars rest
  end.

(** What [for (const x of v)] iterates over: arrays and strings are
    iterable, every other JSON value raises a TypeError. *)
Definition iterate (v : json) : Exc (list json) :=
  match v with
  | JArr items => Ret items
  | JStr s => Ret (chars s)
  | _ => Throw TypeError
  end.

(** The index a property key denotes in an array-like of length [len]: the
    [i < len] whose decimal rendering is the key. *)
Definition array_index (key : string) (len : nat) : option nat :=
  find (fun i => (string_of_nat i =? key)%string) (seq 0 len).

(** [v[key]] for [v] neither [null] nor [undefined]: an element of an array,
    a character of a string, an own property of an object.  Inherited
    properties ([length], methods) are answered [undefined]: the program
    only ever tests the result for the data keys of [prop], which such a
    property does not have. *)
Definition index_get (v : json) (key : string) : jsval :=
  match v with
  | JArr items =>
      match array_index key (List.length items) with
      | Some i => nth_error items i
      | None => None
      end
  | JStr s =>
      match array_index key (String.length s) with
      | Some i => nth_error (chars s) i
      | None => None
      end
  | JObj fields => assoc key fields
  | _ => None
  end.

(** [x?.[key]] *)
Definition qindex (x : jsval) (key : string) : jsval :=
  match x with
  | None | Some JNull => None
  | Some v => index_get v key
  end.

(** [const [a, b] = entry] *)
Definition destructure2 (entry : json) : Exc (jsval * jsval) :=
  items <- iterate entry;;
  Ret (nth_error items 0, nth_error items 1).

(** The values of [Object.entries(v)], in enumeration order. *)
Definition entry_values (v : jsval) : Exc (list json) :=
  match v with
  | None | Some JNull => Throw TypeError
  | Some (JObj fields) => Ret (map snd fields)
  | Some (JArr items) => Ret items
  | Some (JStr s) => Ret (chars s)
  | Some (JBool _) | Some (JNum _) => Ret []
  end.

Fixpoint drop (n : nat) (s : string) : string :=
  match n, s with
  | O, _ => s
  | S n', String _ rest => drop n' rest
  | S _, EmptyString => EmptyString
  end.

(** [s.replace(pat, rep)] for a string pattern: the first occurrence. *)
Fixpoint replace_first (pat rep s : string) : string :=
  if String.prefix pat s then rep ++ drop (String.length pat) s
  else match s with
       | EmptyString => EmptyString
       | String c rest => String c (replace_first pat rep rest)
       end.

(** ToPrimitive with hint Number: arrays and objects become strings. *)
Definition to_primitive (v : jsval) : jsval :=
  match v with
  | Some (JArr _) | Some (JObj _) => Some (JStr (template v))
  | _ => v
  end.

Definition val_to_number (StringToNumber : string -> option Z) (v : jsval)
  : option Z :=
  match v with
  | None => None
  | Some j => to_number StringToNumber j
  end.

(** [a > b]: two strings compare by code units, anything else as numbers,
    and a NaN makes the comparison false. *)
Definition gt (StringToNumber : string -> option Z) (a b : jsval) : bool :=
  match to_primitive a, to_primitive b with
  | Some (JStr x), Some (JStr y) => String.ltb y x
  | pa, pb =>
      match val_to_number StringToNumber pa,
            val_to_number StringToNumber pb with
      | Some x, Some y => y <? x
      | _, _ => false
      end
  end.

(** [s.substring(a, b)]: both indices are clamped to the string and swapped
    when out of order. *)
Definition substring (s : string) (a b : Z) : string :=
  let len := Z.of_nat (String.length s) in
  let a' := Z.max 0 (Z.min a len) in
  let b' := Z.max 0 (Z.min b len) in
  let from := Z.min a' b' in
  let to := Z.max a' b' in
  String.substring (Z.to_nat from) (Z.to_nat (to - from)) s.

(** [s.substring(a)] *)
Definition substring_from (s : string) (a : Z) : string :=
  substring s a (Z.of_nat (String.length s)).

(** ** The regular expression of [extractSelectedContent] *)

(** [\d] *)
Definition is_digit (c : ascii) : bool :=
  let n := nat_of_ascii c in ((48 <=? n) && (n <=? 57))%nat.

(** The longest run of digits at the head of a string, and the rest. *)
Fixpoint span_digits (s : string) : string * string :=
  match s with
  | EmptyString => (EmptyString, EmptyString)
  | String c rest =>
      if is_digit c
      then let (d, r) := span_digits rest in (String c d, r)
      else (EmptyString, s)
  end.

(** [(\d+)] at the head of a string. *)
Definition digits1 (s : string) : option (string * string) :=
  match span_digits s with
  | (EmptyString, _) => None
  | (d, r) => Some (d, r)
  end.

(** A literal at the head of a string. *)
Definition expect (lit s : string) : option string :=
  if String.prefix lit s then Some (drop (String.length lit) s) else None.

(** The optional group [(?:L(\d+):C)?] followed by the last [(\d+)]: the
    captures 3 and 4 with the group taken. *)
Definition match_end_line (s : string) : option (string * string) :=
  match expect "L" s with
  | Some r1 =>
      match digits1 r1 with
      | Some (d3, r2) =>
          match expect ":C" r2 with
          | Some r3 =>
              match digits1 r3 with
              | Some (d4, _) => Some (d3, d4)
              | None => None
              end
          | None => None
          end
      | None => None
      end
  | None => None
  end.

(** [/L(\d+):C(\d+)-(?:L(\d+):C)?(\d+)/] at the head of a string: the
    captures 1 to 4, capture 3 being [None] when its group is skipped.
    Every [\d+] is followed by a character that is not a digit or by the end
    of the pattern, so giving back digits never produces another match, and
    the group is tried before it is skipped. *)
Definition match_here (s : string)
  : option (string * string * option string * string) :=
  match expect "L" s with
  | Some r1 =>
      match digits1 r1 with
      | Some (d1, r2) =>
          match expect ":C" r2 with
          | Some r3 =>
              match digits1 r3 with
              | Some (d2, r4) =>
                  match expect "-" r4 with
                  | Some r5 =>
                      match match_end_line r5 with
                      | Some (d3, d4) => Some (d1, d2, Some d3, d4)
                      | None =>
                          match digits1 r5 with
                          | Some (d4, _) => Some (d1, d2, None, d4)
                          | None => None
                          end
                      end
                  | None => None
                  end
              | None => None
              end
          | None => None
          end
      | None => None
      end
  | None => None
  end.

(** [range.match(...)]: the leftmost match. *)
Fixpoint match_range (s : string)
  : option (string * string * option string * string) :=
  match match_here s with
  | Some m => Some m
  | None =>
      match s with
      | EmptyString => None
      | String _ rest => match_range rest
      end
  end.

(** [parseInt] of a string of digits: the integer it denotes, which is what
    the source obtains for a value below 2^53 (beyond, it obtains the
    nearest double). *)
Definition parseInt (digits : string) : Z :=
  match NilEmpty.uint_of_string digits with
  | Some u => Z.of_N (N.of_uint u)
  | None => 0
  end.

End Js.
Import Js.

(** ** The host environment *)

Inductive style : Type :=
| gray | yellow | cyan | blue | magenta
| hex (colour : string).

Record Env : Type := {
  (** [JSON.parse] *)
  JSON_parse : string -> Exc json;
  (** ToNumber on a string; [None] is NaN *)
  StringToNumber : string -> option Z;
  (** [child_process.execSync(command, { encoding: 'utf8' })] *)
  execSync : string -> Exc string;
  (** capture 1 of [/cwd\s+DIR\s+[\d,]+\s+\d+\s+\d+\s+(.+)/] on a string,
      [None] when there is no match *)
  match_cwd : string -> option string;
  (** [path.resolve] *)
  path_resolve : string -> string;
  (** [path.join] of two segments *)
  path_join : string -> string -> string;
  (** [fs.existsSync] *)
  existsSync : string -> bool;
  (** [fs.readFileSync(p, 'utf8')] *)
  readFileSync : string -> Exc string;
  (** [fs.readdirSync] *)
  readdirSync : string -> Exc (list string);
  (** the constant [VSCODE_STORAGE], built from [os.homedir()] *)
  VSCODE_STORAGE : string;
  (** [chalk.<style>(text)], at the colour level of the process *)
  chalk : style -> string -> string;
  (** for a name every object literal inherits a property of
      ([constructor], [toString], ...), that property as a template literal
      renders it; [None] for every other name *)
  inherited : string -> option string;
}.

(** ** The data the inspector produces *)

Inductive tab_type : Type := file_tab | terminal_tab.

Record terminal_metadata : Type := {
  meta_pid : jsval;
  meta_title : jsval;
  meta_cwd : jsval;
  meta_id : jsval;
}.

(** An entry of [openFiles].  [metadata] is present on terminals only;
    [selections] is added by [getRawContext], to file tabs only. *)
Record tab : Type := {
  path : json;
  type : tab_type;
  pinned : bool;
  groupId : jsval;
  index : nat;
  metadata : option terminal_metadata;
  selections : option (list string);
}.

Module ContentItem.
Record t : Type := {
  range : string;
  content : string;
  lineCount : Z;
}.
End ContentItem.

(** An entry of [selections]; [content] is added by [getRawContext]. *)
Record selection : Type := {
  file : string;
  ranges : list string;
  content : option (list ContentItem.t);
}.

Record workspace : Type := {
  id : string;
  folder : string;
  stateDbPath : string;
}.

(** The value [getRawContext] returns. *)
Module Context.
Record t : Type := {
  workspace : string * string;  (* [{ id, folder }] *)
  openFiles : list tab;
  pinnedFiles : list tab;
  selections : list selection;
  activeFile : json;
}.
End Context.

(** The [options] of [getRawContext]. *)
Module RawOptions.
Record t : Type := {
  includeContent : bool;
  forceRefresh : option bool;
  allSelections : bool;
}.
End RawOptions.

(** [err.message].  The engine's wording of a TypeError or a SyntaxError is
    not modelled: the two [catch] blocks that print a message receive the
    errors the program creates with [new Error] and those of the host. *)
Definition message (e : error) : string :=
  match e with
  | Error m => m
  | TypeError => "TypeError"
  | SyntaxError => "SyntaxError"
  end.

(** ** Loops *)

(** A loop whose body may throw and otherwise appends to the result array. *)
Definition for_of {A B : Type} (body : A -> Exc (list B))
  : list A -> Exc (list B) :=
  fix go (l : list A) : Exc (list B) :=
    match l with
    | [] => Ret []
    | x :: rest =>
        ys <- body x;;
        zs <- go rest;;
        Ret (ys ++ zs)%list
    end.

(** [l.forEach((x, index) => body)], the indices starting at [start]. *)
Fixpoint forEach_from {A B : Type} (body : A -> nat -> Exc (list B))
  (start : nat) (l : list A) : Exc (list B) :=
  match l with
  | [] => Ret []
  | x :: rest =>
      ys <- body x start;;
      zs <- forEach_from body (S start) rest;;
      Ret (ys ++ zs)%list
  end.

Definition forEach {A B : Type} (body : A -> nat -> Exc (list B))
  (l : list A) : Exc (list B) :=
  forEach_from body 0%nat l.

(** ** class VSCodeInspector *)

Module VSCodeInspector.

Section Inspector.

Variable env : Env.

(** The command line of [queryDatabase]: [sqlite3], then the path and the
    query, each between double quotes. *)
Definition sqlite3_command (dbPath query : string) : string :=
  "sqlite3 " ++ dquote ++ dbPath ++ dquote ++ " " ++ dquote ++ query ++ dquote.

(** [queryDatabase(dbPath, query)]: the trimmed output of the [sqlite3]
    command wrapped as [{ value }], or [null]. *)
Definition queryDatabase (dbPath query : string) : option string :=
  catch
    (result <- execSync env (sqlite3_command dbPath query);;
     Ret (if (trim result =? "")%string then None else Some (trim result)))
    (fun _ => None).

Definition editor_query : string :=
  "SELECT value FROM ItemTable WHERE key = 'memento/workbench.parts.editor'".

Definition fileEditorInput : string :=
  "workbench.editors.files.fileEditorInput".

Definition terminalEditor : string := "workbench.editors.terminal".

(** [sticky !== null && sticky !== undefined && index <= sticky] *)
Definition pinned_flag (sticky : jsval) (index : nat) : bool :=
  negb (strict_eq sticky (Some JNull))
  && negb (strict_eq sticky None)
  && match sticky with
     | Some v => num_le (StringToNumber env) (Z.of_nat index) v
     | None => false
     end.

(** The command line that asks [lsof] for the working directory of a
    process. *)
Definition lsof_command (pid : jsval) : string :=
  "lsof -p " ++ template pid ++ " | grep cwd".

(** The real-time working directory of a terminal's process: the [lsof]
    lookup of [getOpenFiles], with its own [try]/[catch]. *)
Definition realCwd (pid : jsval) : string :=
  if truthy pid then
    catch
      (lsofOutput <- execSync env (lsof_command pid);;
       Ret (match match_cwd env lsofOutput with
            | Some m => trim m
            | None => ""
            end))
      (fun _ => "")
  else "".

(** The body of the inner [try] of the [forEach] callback: what one editor
    with a truthy [value] pushes to [files]. *)
Definition editor_entry (gdata : json) (sticky : jsval) (editor : json)
  (value : jsval) (index : nat) : Exc (list tab) :=
  if strict_eq (prop "id" editor) (Some (JStr fileEditorInput)) then
    editorData <- JSON_parse env (template value);;
    resourceJSON <- dot (Some editorData) "resourceJSON";;
    match qdot resourceJSON "fsPath" with
    | Some filePath =>
        if truthy (Some filePath) then
          Ret [ {| path := filePath;
                   type := file_tab;
                   pinned := pinned_flag sticky index;
                   groupId := prop "id" gdata;
                   index := index;
                   metadata := None;
                   selections := None |} ]
        else Ret []
    | None => Ret []
    end
  else if strict_eq (prop "id" editor) (Some (JStr terminalEditor)) then
    terminalData <- JSON_parse env (template value);;
    pid <- dot (Some terminalData) "pid";;
    let cwd := realCwd pid in
    let cwdDisplay := if (cwd =? "")%string then "" else " @ " ++ cwd in
    Ret [ {| path :=
               JStr ("Terminal: "
                     ++ template (or_else (prop "title" terminalData)
                                          (Some (JStr "Unknown")))
                     ++ " (PID: "
                     ++ template (or_else pid (Some (JStr "N/A")))
                     ++ ")" ++ cwdDisplay);
             type := terminal_tab;
             pinned := pinned_flag sticky index;
             groupId := prop "id" gdata;
             index := index;
             metadata :=
               Some {| meta_pid := pid;
                       meta_title := prop "title" terminalData;
                       meta_cwd := or_else (Some (JStr cwd))
                                     (or_else (prop "cwd" terminalData)
                                              (Some (JStr "")));
                       meta_id := prop "id" terminalData |};
             selections := None |} ]
  else Ret [].

(** The callback of [group.data.editors.forEach((editor, index) => ...)]. *)
Definition editor_callback (gdata : json) (sticky : jsval) (editor : json)
  (index : nat) : Exc (list tab) :=
  value <- dot (Some editor) "value";;
  if truthy value then
    Ret (catch (editor_entry gdata sticky editor value index) (fun _ => []))
  else Ret [].

(** The leaf branch of [processGridData]: [gdata] is [group.data], whose
    [editors] is truthy.  [forEach] exists on arrays only. *)
Definition process_leaf (gdata : json) : Exc (list tab) :=
  let sticky := prop "sticky" gdata in
  match prop "editors" gdata with
  | Some (JArr editors) => forEach (editor_callback gdata sticky) editors
  | _ => Throw TypeError
  end.

(** [f(group.data)] for a [group] that has a [data] property. *)
Definition with_data {A : Type} (f : json -> Exc (list A)) (group : json)
  : Exc (list A) :=
  match group with
  | JObj fields =>
      (fix go (fs : list (string * json)) : Exc (list A) :=
         match fs with
         | [] => Ret []
         | (k, v) :: rest => if (k =? "data")%string then f v else go rest
         end) fields
  | _ => Ret []
  end.

(** The body of [for (const group of data)]. *)
Definition process_group (recur : json -> Exc (list tab)) (group : json)
  : Exc (list tab) :=
  gtype <- dot (Some group) "type";;
  if strict_eq gtype (Some (JStr "leaf"))
     && truthy (qdot (prop "data" group) "editors")
  then with_data process_leaf group
  else if strict_eq gtype (Some (JStr "branch")) && truthy (prop "data" group)
  then with_data recur group
  else Ret [].

(** [processGridData(data)].  Arrays and strings are iterable; iterating a
    string yields one-character strings, which are neither leaves nor
    branches; any other value throws. *)
Fixpoint processGridData (data : json) : Exc (list tab) :=
  match data with
  | JArr groups => for_of (process_group processGridData) groups
  | JStr _ => Ret []
  | _ => Throw TypeError
  end.

(** [editorState['editorpart.state']?.serializedGrid?.root?.data || []] *)
Definition gridData (editorState : json) : Exc jsval :=
  state <- dot (Some editorState) "editorpart.state";;
  Ret (or_else (qdot (qdot (qdot state "serializedGrid") "root") "data")
               (Some (JArr []))).

(** [getOpenFiles] from [JSON.parse] on: the tabs of the stored layout
    document [value]. *)
Definition open_files_of (value : string) : Exc (list tab) :=
  editorState <- JSON_parse env value;;
  grid <- gridData editorState;;
  match grid with
  | Some data => processGridData data
  | None => Ret []
  end.

(** [getOpenFiles(workspace)] *)
Definition getOpenFiles (ws : workspace) : list tab :=
  catch
    (match queryDatabase (stateDbPath ws) editor_query with
     | None => Ret []
     | Some value => open_files_of value
     end)
    (fun _ => []).

(** The result of [return x || null]. *)
Definition or_null (x : jsval) : json :=
  match or_else x (Some JNull) with
  | Some j => j
  | None => JNull
  end.

(** The body of [if (group.type === 'leaf' && group.data?.id === activeGroup)]
    in [getActiveFile], up to its [break]: the value returned, [null] when
    the loop is left without a [return]. *)
Definition active_editor_path (group : json) : Exc json :=
  mru0 <- dot (prop "data" group) "mru";;
  let mru := or_else mru0 (Some (JArr [])) in
  let activeIndex := qindex mru "0" in
  editors <- dot (prop "data" group) "editors";;
  if negb (strict_eq activeIndex None)
     && truthy (qindex editors (template activeIndex))
  then
    match qindex editors (template activeIndex) with
    | Some editor =>
        if strict_eq (prop "id" editor) (Some (JStr fileEditorInput))
           && truthy (prop "value" editor)
        then
          editorData <- JSON_parse env (template (prop "value" editor));;
          resourceJSON <- dot (Some editorData) "resourceJSON";;
          Ret (or_null (qdot resourceJSON "fsPath"))
        else Ret JNull
    | None => Ret JNull
    end
  else Ret JNull.

(** [for (const group of gridData)] of [getActiveFile]. *)
Fixpoint find_active (activeGroup : jsval) (groups : list json) : Exc json :=
  match groups with
  | [] => Ret JNull
  | group :: rest =>
      gtype <- dot (Some group) "type";;
      if strict_eq gtype (Some (JStr "leaf"))
         && strict_eq (qdot (prop "data" group) "id") activeGroup
      then active_editor_path group
      else find_active activeGroup rest
  end.

(** [getActiveFile] from [JSON.parse] on. *)
Definition active_file_of (value : string) : Exc json :=
  editorState <- JSON_parse env value;;
  state <- dot (Some editorState) "editorpart.state";;
  let activeGroup := qdot state "activeGroup" in
  grid <- gridData editorState;;
  match grid with
  | Some data =>
      groups <- iterate data;;
      find_active activeGroup groups
  | None => Ret JNull
  end.

(** [getActiveFile(workspace)]; [JNull] is [null]. *)
Definition getActiveFile (ws : workspace) : json :=
  catch
    (match queryDatabase (stateDbPath ws) editor_query with
     | None => Ret JNull
     | Some value => active_file_of value
     end)
    (fun _ => JNull).

Definition selection_query : string :=
  "SELECT value FROM ItemTable WHERE key = 'memento/workbench.editors.files.textFileEditor'".

(** [isBackward] of [getSelections]. *)
Definition isBackward (start end_ : json) : bool :=
  gt (StringToNumber env) (prop "lineNumber" start) (prop "lineNumber" end_)
  || (strict_eq (prop "lineNumber" start) (prop "lineNumber" end_)
      && gt (StringToNumber env) (prop "column" start) (prop "column" end_)).

(** [(actualStart, actualEnd)] *)
Definition normalize (start end_ : json) : json * json :=
  if isBackward start end_ then (end_, start) else (start, end_).

(** The string pushed to [ranges] for [actualStart] and [actualEnd]. *)
Definition range_string (actualStart actualEnd : json) : string :=
  if strict_eq (prop "lineNumber" actualStart) (prop "lineNumber" actualEnd)
  then "L" ++ template (prop "lineNumber" actualStart)
       ++ ":C" ++ template (prop "column" actualStart)
       ++ "-" ++ template (prop "column" actualEnd)
  else "L" ++ template (prop "lineNumber" actualStart)
       ++ ":C" ++ template (prop "column" actualStart)
       ++ "-L" ++ template (prop "lineNumber" actualEnd)
       ++ ":C" ++ template (prop "column" actualEnd).

(** What one [cursorState] (the first cursor of a view state) pushes to
    [ranges]. *)
Definition cursor_ranges (cursorState : jsval) : list string :=
  if strict_eq (qdot cursorState "inSelectionMode") (Some (JBool true)) then
    match qdot cursorState "selectionStart", qdot cursorState "position" with
    | Some start, Some end_ =>
        if truthy (Some start) && truthy (Some end_)
           && (negb (strict_eq (prop "lineNumber" start)
                               (prop "lineNumber" end_))
               || negb (strict_eq (prop "column" start) (prop "column" end_)))
        then
          let (actualStart, actualEnd) := normalize start end_ in
          [range_string actualStart actualEnd]
        else []
    | _, _ => []
    end
  else [].

(** The body of [for (const [stateKey, state] of Object.entries(states))]. *)
Definition state_ranges (state : json) : Exc (list string) :=
  cursorStates <- dot (Some state) "cursorState";;
  Ret (cursor_ranges (qindex cursorStates "0")).

(** The body of [for (const [filePath, states] of ...)].  [replace] is a
    method of strings only. *)
Definition entry_selections (entry : json) : Exc (list selection) :=
  fs <- destructure2 entry;;
  match fst fs with
  | Some (JStr filePath) =>
      let cleanPath := replace_first "file://" "" filePath in
      states <- entry_values (snd fs);;
      rs <- for_of state_ranges states;;
      if (0 <? Z.of_nat (List.length rs))
      then Ret [ {| file := cleanPath; ranges := rs; content := None |} ]
      else Ret []
  | _ => Throw TypeError
  end.

(** [getSelections] from [JSON.parse] on. *)
Definition selections_of (value : string) : Exc (list selection) :=
  viewState <- JSON_parse env value;;
  states <- dot (Some viewState) "textEditorViewState";;
  match or_else states (Some (JArr [])) with
  | Some entries =>
      es <- iterate entries;;
      for_of entry_selections es
  | None => Ret []
  end.

(** [getSelections(workspace)] *)
Definition getSelections (ws : workspace) : list selection :=
  catch
    (match queryDatabase (stateDbPath ws) selection_query with
     | None => Ret []
     | Some value => selections_of value
     end)
    (fun _ => []).

(** [lines[i]] *)
Definition line_at (lines : list string) (i : Z) : option string :=
  if i <? 0 then None else nth_error lines (Z.to_nat i).

(** The body of the loop of a multi-line selection, for line [i]. *)
Definition multi_line_step (lines : list string)
  (startLine startCol endLine endCol : Z) (i : Z) (selectedText : string)
  : string :=
  match line_at lines i with
  | None | Some EmptyString => selectedText
  | Some line =>
      if i =? startLine then
        selectedText ++ substring_from line startCol ++ newline
      else if i =? endLine then
        selectedText ++ substring line 0 (endCol + 1)
      else selectedText ++ line ++ newline
  end.

(** [for (let i = ...; i <= ...; i++)], with [count] iterations left.  The
    counter is an exact integer; the source's [i++] advances as long as [i]
    is below 2^53, so the loop stands for the source's for line numbers
    below that bound. *)
Fixpoint multi_line_loop (lines : list string)
  (startLine startCol endLine endCol : Z) (count : nat) (i : Z)
  (selectedText : string) : string :=
  match count with
  | O => selectedText
  | S count' =>
      multi_line_loop lines startLine startCol endLine endCol count' (i + 1)
        (multi_line_step lines startLine startCol endLine endCol i
           selectedText)
  end.

(** [selectedText] for the parsed, 0-based bounds of a range. *)
Definition selected_text (lines : list string)
  (startLine startCol endLine endCol : Z) : string :=
  if startLine =? endLine then
    match line_at lines startLine with
    | None | Some EmptyString => ""
    | Some line => substring line startCol (endCol + 1)
    end
  else
    multi_line_loop lines startLine startCol endLine endCol
      (Z.to_nat (Z.max startLine endLine - Z.min startLine endLine + 1))
      (Z.min startLine endLine) "".

(** The body of [for (const range of ranges)]. *)
Definition range_content (lines : list string) (range : string)
  : list ContentItem.t :=
  match match_range range with
  | None => []
  | Some (m1, m2, m3, m4) =>
      let startLine := parseInt m1 - 1 in
      let startCol := parseInt m2 - 1 in
      let endLine := match m3 with
                     | Some d => parseInt d - 1
                     | None => startLine
                     end in
      let endCol := parseInt m4 - 1 in
      let selectedText :=
        selected_text lines startLine startCol endLine endCol in
      if (trim selectedText =? "")%string then []
      else [ {| ContentItem.range := range;
                ContentItem.content := selectedText;
                ContentItem.lineCount := Z.abs (endLine - startLine) + 1 |} ]
  end.

(** [extractSelectedContent(filePath, ranges)]; [None] is [null]. *)
Definition extractSelectedContent (filePath : string) (ranges : list string)
  : option (list ContentItem.t) :=
  catch
    (if negb (existsSync env filePath) then Ret None
     else
       content <- readFileSync env filePath;;
       let lines := split_lines content in
       Ret (Some (flat_map (range_content lines) ranges)))
    (fun _ => None).

(** [findWorkspaceByFile(filePath)], over [this.workspaces]. *)
Definition findWorkspaceByFile (workspaces : list workspace)
  (filePath : string) : option workspace :=
  let normalizedPath := path_resolve env filePath in
  find (fun ws => startsWith normalizedPath (folder ws)) workspaces.

(** The body of [for (const dir of dirs)] in [loadWorkspaces]: what one
    directory pushes to [this.workspaces]. *)
Definition workspace_of_dir (dir : string) : list workspace :=
  let workspacePath := path_join env (VSCODE_STORAGE env) dir in
  let workspaceJsonPath := path_join env workspacePath "workspace.json" in
  let dbPath := path_join env workspacePath "state.vscdb" in
  if existsSync env workspaceJsonPath && existsSync env dbPath then
    catch
      (text <- readFileSync env workspaceJsonPath;;
       workspaceJson <- JSON_parse env text;;
       f <- dot (Some workspaceJson) "folder";;
       match f with
       | None | Some JNull => Ret []
       | Some (JStr uri) =>
           let folder := replace_first "file://" "" uri in
           if (folder =? "")%string then Ret []
           else Ret [ {| id := dir; folder := folder; stateDbPath := dbPath |} ]
       | Some _ => Throw TypeError
       end)
      (fun _ => [])
  else [].

(** [loadWorkspaces()]: the value of [this.workspaces] afterwards. *)
Definition loadWorkspaces : Exc (list workspace) :=
  dirs <- readdirSync env (VSCODE_STORAGE env);;
  Ret (flat_map workspace_of_dir dirs).

(** [init()] *)
Definition init : Exc (list workspace) :=
  if negb (existsSync env (VSCODE_STORAGE env))
  then Throw (Error "VS Code workspace storage not found")
  else loadWorkspaces.

(** [forceStateRefresh()].  Its result is discarded by [getRawContext]; the
    reads that follow see the environment as it is after the refresh. *)
Definition forceStateRefresh : bool :=
  catch
    (execSync env
       ("osascript -e 'tell application " ++ dquote ++ "Finder" ++ dquote
        ++ " to activate' && osascript -e 'tell application " ++ dquote
        ++ "Visual Studio Code" ++ dquote ++ " to activate'");;;
     execSync env "sleep 0.2";;;
     Ret true)
    (fun _ => false).

(** [openFiles.forEach(file => ...)] of [getRawContext]. *)
Definition attach_selections (sels : list selection) (f : tab) : tab :=
  match type f with
  | file_tab =>
      let fileSelections :=
        find (fun s => strict_eq (Some (JStr (file s))) (Some (path f))) sels in
      {| path := path f; type := type f; pinned := pinned f;
         groupId := groupId f; index := index f; metadata := metadata f;
         selections := Some match fileSelections with
                            | Some s => ranges s
                            | None => []
                            end |}
  | terminal_tab => f
  end.

(** [selections.forEach(selection => ...)] of [getRawContext]. *)
Definition attach_content (s : selection) : selection :=
  match extractSelectedContent (file s) (ranges s) with
  | Some c => {| file := file s; ranges := ranges s; content := Some c |}
  | None => s
  end.

(** [getRawContext(filePath, options)], over [this.workspaces]. *)
Definition getRawContext (workspaces : list workspace) (filePath : string)
  (options : RawOptions.t) : Exc Context.t :=
  match findWorkspaceByFile workspaces filePath with
  | None => Throw (Error ("No workspace found for file: " ++ filePath))
  | Some ws =>
      let _ := match RawOptions.forceRefresh options with
               | Some false => false
               | _ => forceStateRefresh
               end in
      let openFiles0 := getOpenFiles ws in
      let selections0 := getSelections ws in
      let activeFile := getActiveFile ws in
      let openFiles := map (attach_selections selections0) openFiles0 in
      let selections :=
        if RawOptions.includeContent options
        then map attach_content selections0
        else selections0 in
      let pinnedFiles := filter pinned openFiles in
      let filteredSelections :=
        if RawOptions.allSelections options then
          filter (fun s =>
                    existsb (fun f => strict_eq (Some (path f))
                                                (Some (JStr (file s))))
                            openFiles)
                 selections
        else if truthy (Some activeFile) then
          filter (fun s => strict_eq (Some (JStr (file s))) (Some activeFile))
                 selections
        else [] in
      Ret {| Context.workspace := (id ws, folder ws);
             Context.openFiles := openFiles;
             Context.pinnedFiles := pinnedFiles;
             Context.selections := filteredSelections;
             Context.activeFile := activeFile |}
  end.

End Inspector.

End VSCodeInspector.

(** ** class LLMFormatter *)

Module FormatOptions.
Record t : Type := {
  includeTerminals : bool;
  includeContent : bool;
  legacyFormat : bool;
  (** [None] when the option is absent *)
  smartMode : option bool;
  includePinnedContent : bool;
}.
End FormatOptions.

Module LLMFormatter.

Section Formatter.

Variable env : Env.

Definition nl : string := newline.

(** [workspace(workspaceInfo)] *)
Definition workspace (workspaceInfo : string * string) : string :=
  chalk env gray "WORKSPACE:" ++ " " ++ snd workspaceInfo ++ nl
  ++ chalk env gray "WORKSPACE_ID:" ++ " " ++ fst workspaceInfo ++ nl.

Definition langMap : list (string * string) :=
  [ ("js", "javascript"); ("jsx", "javascript"); ("ts", "typescript");
    ("tsx", "typescript"); ("py", "python"); ("rb", "ruby"); ("go", "go");
    ("rs", "rust"); ("java", "java"); ("cpp", "cpp"); ("c", "c");
    ("cs", "csharp"); ("php", "php"); ("sh", "bash"); ("yml", "yaml");
    ("yaml", "yaml"); ("json", "json"); ("xml", "xml"); ("html", "html");
    ("css", "css"); ("scss", "scss"); ("md", "markdown") ].

(** [getFileLanguage(filePath)], as a template literal renders it. *)
Definition getFileLanguage (filePath : string) : string :=
  let ext := toLowerCase (last (split "." filePath) "") in
  match assoc ext langMap with
  | Some lang => lang
  | None =>
      match inherited env ext with
      | Some lang => lang
      | None => "text"
      end
  end.

(** The lines of a file's text between code fences, each behind [indent]. *)
Definition fenced (indent lang : string) (lines : list string) : string :=
  indent ++ "```" ++ lang ++ nl
  ++ String.concat "" (map (fun line => indent ++ line ++ nl) lines)
  ++ indent ++ "```" ++ nl.

(** The [try]/[catch] of [fileList] that appends a file's content.
    [fs.existsSync] answers [false] for a path that is not a string. *)
Definition file_content (f : tab) : string :=
  catch
    (match path f with
     | JStr p =>
         if existsSync env p then
           content <- readFileSync env p;;
           Ret (fenced "     " (getFileLanguage p) (split_lines content))
         else Ret ""
     | _ => Ret ""
     end)
    (fun err => "     [Error reading file: " ++ message err ++ "]" ++ nl).

(** [status] of one entry of [fileList]. *)
Definition status (f : tab) : list string :=
  ((if pinned f then [chalk env yellow "[PINNED]"] else [])
   ++ (match type f with
       | terminal_tab => ["[TERMINAL]"]
       | file_tab => []
       end)
   ++ (match selections f with
       | Some (r :: rs) =>
           [chalk env cyan ("[SELECTED:" ++ join "," (r :: rs) ++ "]")]
       | _ => []
       end))%list.

(** What the [forEach] callback of [fileList] appends for [file] at
    [index]. *)
Definition file_entry (options : FormatOptions.t) (f : tab) (index : nat)
  : string :=
  let statusStr := match status f with
                   | [] => ""
                   | st => " " ++ join " " st
                   end in
  "  " ++ string_of_nat (index + 1) ++ ". " ++ to_string (path f)
  ++ statusStr ++ nl
  ++ (if (FormatOptions.includeContent options
          || (FormatOptions.includePinnedContent options && pinned f))
         && match type f with
            | file_tab => true
            | terminal_tab => false
            end
      then file_content f
      else "").

Fixpoint entries_from (options : FormatOptions.t) (start : nat)
  (files : list tab) : string :=
  match files with
  | [] => ""
  | f :: rest =>
      file_entry options f start ++ entries_from options (S start) rest
  end.

(** [fileList(files, title, options)] *)
Definition fileList (files : list tab) (title : string)
  (options : FormatOptions.t) : string :=
  match files with
  | [] => title ++ ": none" ++ nl
  | _ => chalk env gray (title ++ ":") ++ nl ++ entries_from options 0 files
  end.

(** One range of the legacy format, with its content when there is one. *)
Definition legacy_range (sel : selection) (range : string) (i : nat)
  : string :=
  "     " ++ string_of_nat (i + 1) ++ ". " ++ range ++ nl
  ++ match content sel with
     | Some items =>
         match find (fun c => (ContentItem.range c =? range)%string) items with
         | Some contentItem =>
             fenced "        " (getFileLanguage (file sel))
               (split_lines (ContentItem.content contentItem))
         | None => ""
         end
     | None => ""
     end.

Fixpoint legacy_ranges_from (sel : selection) (start : nat)
  (rs : list string) : string :=
  match rs with
  | [] => ""
  | r :: rest => legacy_range sel r start ++ legacy_ranges_from sel (S start) rest
  end.

Definition selected_colour : style := hex "#86efac".

(** What the [forEach] callback of [selections] appends for [sel] at
    [index], [total] being [selections.length]. *)
Definition selection_entry (options : FormatOptions.t) (total : nat)
  (sel : selection) (index : nat) : string :=
  if FormatOptions.legacyFormat options then
    "  " ++ string_of_nat (index + 1) ++ ". " ++ file sel ++ nl
    ++ legacy_ranges_from sel 0 (ranges sel)
  else
    chalk env magenta
      ("The user selected the following lines from " ++ file sel ++ ":")
    ++ nl
    ++ match content sel with
       | Some items =>
           String.concat ""
             (map (fun contentItem =>
                     String.concat ""
                       (map (fun line => chalk env selected_colour (line ++ nl))
                            (split_lines (ContentItem.content contentItem))))
                  items)
       | None =>
           String.concat ""
             (map (fun range => chalk env selected_colour (range ++ nl))
                  (ranges sel))
       end
    ++ (if (Z.of_nat index <? Z.of_nat total - 1) then nl else "").

Fixpoint selection_entries_from (options : FormatOptions.t) (total : nat)
  (start : nat) (sels : list selection) : string :=
  match sels with
  | [] => ""
  | sel :: rest =>
      selection_entry options total sel start
      ++ selection_entries_from options total (S start) rest
  end.

(** [selections(selections, options)] *)
Definition selections (sels : list selection) (options : FormatOptions.t)
  : string :=
  match sels with
  | [] => "SELECTIONS: none" ++ nl
  | _ =>
      let output :=
        selection_entries_from options (List.length sels) 0 sels in
      if FormatOptions.legacyFormat options
      then "SELECTIONS:" ++ nl ++ output
      else output
  end.

Definition not_terminal (f : tab) : bool :=
  match type f with
  | terminal_tab => false
  | file_tab => true
  end.

(** [openFiles] and [pinnedFiles] of [raw]: terminals are filtered out
    unless requested. *)
Definition shown (options : FormatOptions.t) (files : list tab) : list tab :=
  if FormatOptions.includeTerminals options then files
  else filter not_terminal files.

(** [options.smartMode !== false] *)
Definition smart (options : FormatOptions.t) : bool :=
  match FormatOptions.smartMode options with
  | Some false => false
  | _ => true
  end.

(** [{ ...options, includePinnedContent: true }] *)
Definition with_pinned_content (options : FormatOptions.t)
  : FormatOptions.t :=
  {| FormatOptions.includeTerminals := FormatOptions.includeTerminals options;
     FormatOptions.includeContent := FormatOptions.includeContent options;
     FormatOptions.legacyFormat := FormatOptions.legacyFormat options;
     FormatOptions.smartMode := FormatOptions.smartMode options;
     FormatOptions.includePinnedContent := true |}.

(** The parts [raw] appends to its output, in order. *)
Definition open_section (data : Context.t) (options : FormatOptions.t)
  : string :=
  fileList (shown options (Context.openFiles data)) "OPEN_EDITORS"
    (with_pinned_content options)
  ++ nl.

Definition pinned_section (data : Context.t) (options : FormatOptions.t)
  : string :=
  if negb (smart options)
     && (0 <? Z.of_nat (List.length (shown options (Context.pinnedFiles data))))
  then fileList (shown options (Context.pinnedFiles data)) "PINNED_EDITORS"
         options ++ nl
  else "".

Definition selections_section (data : Context.t) (options : FormatOptions.t)
  : string :=
  let selectionsOutput := selections (Context.selections data) options in
  if negb (selectionsOutput =? "")%string
     && negb (selectionsOutput =? "SELECTIONS: none" ++ nl)%string
  then selectionsOutput ++ nl
  else "".

Definition total_open (data : Context.t) (options : FormatOptions.t)
  : string :=
  chalk env gray "TOTAL_OPEN:" ++ " "
  ++ string_of_nat (List.length (shown options (Context.openFiles data)))
  ++ nl.

Definition total_pinned (data : Context.t) (options : FormatOptions.t)
  : string :=
  if (0 <? Z.of_nat (List.length (shown options (Context.pinnedFiles data))))
  then chalk env gray "TOTAL_PINNED:" ++ " "
       ++ string_of_nat
            (List.length (shown options (Context.pinnedFiles data)))
       ++ nl
  else "".

Definition total_selected (data : Context.t) : string :=
  if (0 <? Z.of_nat (List.length (Context.selections data)))
  then chalk env gray "TOTAL_SELECTED:" ++ " "
       ++ string_of_nat (List.length (Context.selections data)) ++ nl
  else "".

(** [raw(data, options)] *)
Definition raw (data : Context.t) (options : FormatOptions.t) : string :=
  chalk env blue "=== VS CODE RAW CONTEXT ===" ++ nl
  ++ workspace (Context.workspace data)
  ++ nl
  ++ open_section data options
  ++ pinned_section data options
  ++ selections_section data options
  ++ total_open data options
  ++ total_pinned data options
  ++ total_selected data
  ++ chalk env blue "=== END RAW CONTEXT ===" ++ nl.

End Formatter.

End LLMFormatter.

(** ** The commands *)

Module Cli.

(** [program.opts()].  [content] is set by [-c] and otherwise absent;
    [smart] and [refresh] are on unless [--no-smart], [--no-refresh]. *)
Record GlobalOpts : Type := {
  json_output : bool;
  content_flag : bool;
  terminals : bool;
  legacy_format : bool;
  all_selections : bool;
  smart_flag : bool;
  refresh : bool;
}.

Inductive command : Type :=
| cmd_raw | cmd_open | cmd_pinned | cmd_selections | cmd_workspace.

(** What a command leaves behind: the text given to [console.log], or the
    line written to standard error and the code given to [process.exit]. *)
Inductive outcome : Type :=
| Printed (stdout : string)
| Exited (stderr : string) (code : Z).

Section Commands.

Variable env : Env.

(** [JSON.stringify(context, null, 2)] *)
Variable JSON_stringify : Context.t -> string.

Definition no_options : FormatOptions.t :=
  {| FormatOptions.includeTerminals := false;
     FormatOptions.includeContent := false;
     FormatOptions.legacyFormat := false;
     FormatOptions.smartMode := None;
     FormatOptions.includePinnedContent := false |}.

Definition content_only (g : GlobalOpts) : FormatOptions.t :=
  {| FormatOptions.includeTerminals := false;
     FormatOptions.includeContent := content_flag g;
     FormatOptions.legacyFormat := false;
     FormatOptions.smartMode := None;
     FormatOptions.includePinnedContent := false |}.

(** The options each action passes to [getRawContext];
    [globalOpts.content !== false] holds whether or not [-c] is given. *)
Definition raw_options (g : GlobalOpts) (c : command) : RawOptions.t :=
  match c with
  | cmd_workspace =>
      {| RawOptions.includeContent := false;
         RawOptions.forceRefresh := None;
         RawOptions.allSelections := false |}
  | _ =>
      {| RawOptions.includeContent := true;
         RawOptions.forceRefresh := Some (refresh g);
         RawOptions.allSelections := all_selections g |}
  end.

(** What each action prints for the context it obtained. *)
Definition render (g : GlobalOpts) (c : command) (context : Context.t)
  : string :=
  match c with
  | cmd_raw =>
      if json_output g then JSON_stringify context
      else LLMFormatter.raw env context
             {| FormatOptions.includeTerminals := terminals g;
                FormatOptions.includeContent := content_flag g;
                FormatOptions.legacyFormat := legacy_format g;
                FormatOptions.smartMode := Some (smart_flag g);
                FormatOptions.includePinnedContent := false |}
  | cmd_open =>
      LLMFormatter.fileList env
        (if terminals g then Context.openFiles context
         else filter LLMFormatter.not_terminal (Context.openFiles context))
        "OPEN_EDITORS" (content_only g)
  | cmd_pinned =>
      LLMFormatter.fileList env
        (if terminals g then Context.pinnedFiles context
         else filter LLMFormatter.not_terminal (Context.pinnedFiles context))
        "PINNED_EDITORS" (content_only g)
  | cmd_selections =>
      LLMFormatter.selections env (Context.selections context)
        {| FormatOptions.includeTerminals := false;
           FormatOptions.includeContent := false;
           FormatOptions.legacyFormat := legacy_format g;
           FormatOptions.smartMode := None;
           FormatOptions.includePinnedContent := false |}
  | cmd_workspace => LLMFormatter.workspace env (Context.workspace context)
  end.

(** The [action] of a command: [try { init; getRawContext; console.log }
    catch (err) { console.error('Error:', err.message); process.exit(1) }]. *)
Definition action (g : GlobalOpts) (c : command) (filePath : string)
  : outcome :=
  match (workspaces <- VSCodeInspector.init env;;
         VSCodeInspector.getRawContext env workspaces filePath
           (raw_options g c)) with
  | Ret context => Printed (render g c context)
  | Throw err => Exited ("Error: " ++ message err) 1
  end.

End Commands.

End Cli.

(** ** A concrete environment

    A host whose parser knows a table of documents, whose child processes
    answer a table of commands, and whose file system is a table of files.
    A text such as [<layout>] stands for the JSON text of the document the
    table gives for it.  Colours are off, paths are already absolute, and no
    string converts to a number (no example compares with a string). *)

Module Demo.

Definition host (docs : list (string * json))
  (commands : list (string * string)) (dirs : list string)
  (files : list (string * string)) : Env :=
  {| JSON_parse := fun text => match assoc text docs with
                               | Some j => Ret j
                               | None => Throw SyntaxError
                               end;
     StringToNumber := fun _ => None;
     execSync := fun command => match assoc command commands with
                                | Some out => Ret out
                                | None => Throw (Error "Command failed")
                                end;
     match_cwd := fun _ => None;
     path_resolve := fun p => p;
     path_join := fun a b => a ++ "/" ++ b;
     existsSync := fun p => match assoc p files with
                            | Some _ => true
                            | None => false
                            end;
     readFileSync := fun p => match assoc p files with
                              | Some text => Ret text
                              | None => Throw (Error "ENOENT")
                              end;
     readdirSync := fun _ => Ret dirs;
     VSCODE_STORAGE := "/storage";
     chalk := fun _ text => text;
     inherited := fun _ => None |}.

Definition repo : workspace :=
  {| id := "w1"; folder := "/repo"; stateDbPath := "/storage/w1/state.vscdb" |}.

(** The serialized value of a file editor for [fsPath]. *)
Definition file_value (fsPath : string) : json :=
  JObj [("resourceJSON", JObj [("fsPath", JStr fsPath)])].

Definition file_editor (value : string) : json :=
  JObj [("id", JStr VSCodeInspector.fileEditorInput); ("value", JStr value)].

Definition terminal_editor (value : string) : json :=
  JObj [("id", JStr VSCodeInspector.terminalEditor); ("value", JStr value)].

Definition leaf (fields : list (string * json)) : json :=
  JObj [("type", JStr "leaf"); ("data", JObj fields)].

Definition branch (groups : list json) : json :=
  JObj [("type", JStr "branch"); ("data", JArr groups)].

Definition layout (activeGroup : json) (groups : list json) : json :=
  JObj [("editorpart.state",
         JObj [("serializedGrid", JObj [("root", JObj [("data", JArr groups)])]);
               ("activeGroup", activeGroup)])].

(** The documents every example shares: the values of three file editors and
    of one terminal editor. *)
Definition editor_docs : list (string * json) :=
  [ ("<README.md>", file_value "/repo/README.md");
    ("<a.js>", file_value "/repo/src/a.js");
    ("<c.js>", file_value "/repo/src/c.js");
    ("<zsh>", JObj [("pid", JNum 4242); ("title", JStr "zsh")]) ].

(** A host whose state store holds [doc] under the editor-layout key. *)
Definition with_layout (doc : json) (files : list (string * string)) : Env :=
  host (("<layout>", doc) :: editor_docs)
       [(VSCodeInspector.sqlite3_command (stateDbPath repo)
          VSCodeInspector.editor_query, "<layout>")]
       ["w1"] files.

End Demo.

(** ** Notions the properties are stated with *)

(** [gdata] is the [data] of a leaf group that [processGridData] reaches in
    [data]. *)
Inductive leaf_in (gdata : json) : json -> Prop :=
| leaf_here (groups : list json) (group : json) :
    In group groups ->
    prop "type" group = Some (JStr "leaf") ->
    prop "data" group = Some gdata ->
    truthy (prop "editors" gdata) = true ->
    leaf_in gdata (JArr groups)
| leaf_below (groups : list json) (group inner : json) :
    In group groups ->
    prop "type" group = Some (JStr "branch") ->
    prop "data" group = Some inner ->
    leaf_in gdata inner ->
    leaf_in gdata (JArr groups).

(** Every tab of [processGridData] comes from a leaf it reaches. *)
Definition tabs_from_leaves (env : Env) (data : json) : Prop :=
  forall ts t,
  VSCodeInspector.processGridData env data = Ret ts ->
  In t ts ->
  exists gdata ys,
    leaf_in gdata data
    /\ VSCodeInspector.process_leaf env gdata = Ret ys /\ In t ys.

(** Induction on a JSON tree, the hypothesis holding for every element of an
    array and every value of an object. *)
Section JsonInduction.

Variable P : json -> Prop.
Hypothesis Hnull : P JNull.
Hypothesis Hbool : forall b, P (JBool b).
Hypothesis Hnum : forall n, P (JNum n).
Hypothesis Hstr : forall s, P (JStr s).
Hypothesis Harr : forall items, Forall P items -> P (JArr items).
Hypothesis Hobj :
  forall fields, Forall (fun kv => P (snd kv)) fields -> P (JObj fields).

Fixpoint json_induction (v : json) : P v :=
  match v with
  | JNull => Hnull
  | JBool b => Hbool b
  | JNum n => Hnum n
  | JStr s => Hstr s
  | JArr items =>
      Harr items
        ((fix all (l : list json) : Forall P l :=
            match l with
            | [] => Forall_nil P
            | x :: rest => Forall_cons x (json_induction x) (all rest)
            end) items)
  | JObj fields =>
      Hobj fields
        ((fix all (l : list (string * json))
            : Forall (fun kv => P (snd kv)) l :=
            match l with
            | [] => Forall_nil _
            | kv :: rest => Forall_cons kv (json_induction (snd kv)) (all rest)
            end) fields)
  end.

End JsonInduction.




(** The text of a range from [(sl, sc)] to [(el, ec)]. *)
Definition range_text (sl sc el ec : Z) : string :=
  if sl =? el
  then "L" ++ string_of_Z sl ++ ":C" ++ string_of_Z sc ++ "-" ++ string_of_Z ec
  else "L" ++ string_of_Z sl ++ ":C" ++ string_of_Z sc
       ++ "-L" ++ string_of_Z el ++ ":C" ++ string_of_Z ec.

(** The first cursor of a view state: [state.cursorState?.[0]]. *)
Definition first_cursor (state : json) : jsval :=
  qindex (prop "cursorState" state) "0".

(** [p] is a textual prefix of [s]. *)
Definition is_prefix (p s : string) : Prop := exists rest, s = p ++ rest.

(** A string that does not continue a run of digits. *)
Definition no_digit_ahead (s : string) : Prop :=
  match s with
  | EmptyString => True
  | String c _ => is_digit c = false
  end.

(** The first [n] characters of a string. *)
Fixpoint take (n : nat) (s : string) : string :=
  match n, s with
  | O, _ => EmptyString
  | S _, EmptyString => EmptyString
  | S n', String c rest => String c (take n' rest)
  end.

(** Line [n] of a file, lines counted from 1. *)
Definition line_no (lines : list string) (n : Z) : string :=
  nth (Z.to_nat (n - 1)) lines EmptyString.

(** The characters of a line from column [sc] to column [ec], both counted
    from 1 and both included. *)
Definition columns (line : string) (sc ec : Z) : string :=
  take (Z.to_nat (ec - sc + 1)) (drop (Z.to_nat (sc - 1)) line).

(** The tail of a line from column [sc] on. *)
Definition tail_from (line : string) (sc : Z) : string :=
  drop (Z.to_nat (sc - 1)) line.

(** The head of a line up to column [ec], included. *)
Definition head_to (line : string) (ec : Z) : string :=
  take (Z.to_nat ec) line.

(** The lines strictly between line [sl] and line [el]. *)
Definition interior_lines (lines : list string) (sl el : Z) : list string :=
  firstn (Z.to_nat (el - sl - 1)) (skipn (Z.to_nat sl) lines).

(** The text a range describes, in the words of the specification: on one
    line the columns from start to end, the end column included; on several
    lines the tail of the start line, every interior line and the head of the
    end line, joined by line breaks. *)
Definition described_text (lines : list string) (sl sc el ec : Z) : string :=
  if sl =? el then columns (line_no lines sl) sc ec
  else join newline
         (tail_from (line_no lines sl) sc
          :: interior_lines lines sl el ++ [head_to (line_no lines el) ec])%list.

(** A range within the lines of a file, its start not after its end. *)
Definition valid_range (lines : list string) (sl sc el ec : Z) : Prop :=
  1 <= sl /\ sl <= el /\ el <= Z.of_nat (List.length lines)
  /\ 1 <= sc /\ 1 <= ec /\ (sl = el -> sc <= ec).

(** No line of the range before its end line is empty. *)
Definition no_empty_line_before_end (lines : list string) (sl el : Z) : Prop :=
  forall n, sl <= n < el -> line_no lines n <> EmptyString.

(** A line followed by a line break. *)
Definition with_break (line : string) : string := line ++ newline.

(** The number of characters of a file before its line [n] (counted from
    1), line breaks included. *)
Definition chars_before (lines : list string) (n : Z) : nat :=
  String.length
    (String.concat "" (map with_break (firstn (Z.to_nat (n - 1)) lines))).

(** The place in a file of column [c] of line [l], both counted from 1, as
    a number of characters from the start of the file. *)
Definition offset (lines : list string) (l c : Z) : nat :=
  (chars_before lines l + Z.to_nat (c - 1))%nat.

(** The columns of a range lie within its start and end lines. *)
Definition columns_within (lines : list string) (sl sc el ec : Z) : Prop :=
  sc - 1 <= Z.of_nat (String.length (line_no lines sl))
  /\ ec <= Z.of_nat (String.length (line_no lines el)).

(** Two hosts colour text alike. *)
Definition same_colours (env1 env2 : Env) : Prop :=
  forall st text, chalk env1 st text = chalk env2 st text.

(** Two hosts answer alike for inherited property names. *)
Definition same_inherited (env1 env2 : Env) : Prop :=
  forall name, inherited env1 name = inherited env2 name.

(** Two hosts hold the same files at the paths of the file tabs of a
    list. *)
Definition same_files (env1 env2 : Env) (files : list tab) : Prop :=
  forall f p,
    In f files -> type f = file_tab -> path f = JStr p ->
    existsSync env1 p = existsSync env2 p
    /\ readFileSync env1 p = readFileSync env2 p.

(** ** Scenarios *)

Module Scenario.
Import Demo.

(** One group, [sticky] 1, [README.md] at index 0 and [a.js] at index 1. *)
Definition boundary_group : list (string * json) :=
  [ ("id", JNum 1); ("sticky", JNum 1); ("mru", JArr [JNum 0; JNum 1]);
    ("editors", JArr [file_editor "<README.md>"; file_editor "<a.js>"]) ].

Definition boundary : Env :=
  with_layout (layout (JNum 1) [leaf boundary_group]) [].

(** The active group, holding [a.js], sits inside a branch of the grid. *)
Definition nested_group : list (string * json) :=
  [ ("id", JNum 7); ("mru", JArr [JNum 0]);
    ("editors", JArr [file_editor "<a.js>"]) ].

Definition nested : Env :=
  with_layout (layout (JNum 7) [branch [leaf nested_group]]) [].

(** The same group at the top of the grid. *)
Definition top_level : Env :=
  with_layout (layout (JNum 7) [leaf nested_group]) [].

(** The store answers with a text that is no JSON document. *)
Definition garbage : Env :=
  Demo.host editor_docs
    [ (VSCodeInspector.sqlite3_command (stateDbPath repo)
         VSCodeInspector.editor_query, "<garbage>");
      (VSCodeInspector.sqlite3_command (stateDbPath repo)
         VSCodeInspector.selection_query, "<garbage>") ]
    ["w1"] [].

(** A group whose first editor has a value that does not parse and whose
    second editor has none. *)
Definition damaged_group : list (string * json) :=
  [ ("id", JNum 1);
    ("editors", JArr [file_editor "<garbage>";
                      JObj [("id", JStr VSCodeInspector.fileEditorInput)];
                      file_editor "<a.js>"]) ].

Definition damaged : Env :=
  with_layout (layout (JNum 1) [leaf damaged_group]) [].

End Scenario.

(** What the boundary scenario compares of a tab. *)
Definition summary (t : tab) : json * nat * bool := (path t, index t, pinned t).

Module Rendered.

Definition readme : tab :=
  {| path := JStr "/repo/README.md"; type := file_tab; pinned := true;
     groupId := Some (JNum 1); index := 0; metadata := None;
     selections := Some [] |}.

(** A snapshot with one open tab, pinned. *)
Definition pinned_readme : Context.t :=
  {| Context.workspace := ("w1", "/repo");
     Context.openFiles := [readme];
     Context.pinnedFiles := [readme];
     Context.selections := [];
     Context.activeFile := JNull |}.

(** A snapshot with nothing open. *)
Definition nothing_open : Context.t :=
  {| Context.workspace := ("w1", "/repo");
     Context.openFiles := [];
     Context.pinnedFiles := [];
     Context.selections := [];
     Context.activeFile := JNull |}.

(** The options of the [raw] command without flags: smart mode on. *)
Definition defaults : FormatOptions.t :=
  {| FormatOptions.includeTerminals := false;
     FormatOptions.includeContent := false;
     FormatOptions.legacyFormat := false;
     FormatOptions.smartMode := Some true;
     FormatOptions.includePinnedContent := false |}.

(** A host whose only file is [README.md], holding [text]. *)
Definition disk (text : string) : Env :=
  Demo.host [] [] [] [("/repo/README.md", text)].

End Rendered.

Module Cursors.

Definition position (line column : Z) : json :=
  JObj [("lineNumber", JNum line); ("column", JNum column)].

(** A cursor state in selection mode, from [anchor] to [head]. *)
Definition selecting (anchor head : json) : json :=
  JObj [("inSelectionMode", JBool true);
        ("selectionStart", anchor); ("position", head)].

(** Dragged backwards from (10,5) to (8,1), and the same span forwards. *)
Definition backward : json := selecting (position 10 5) (position 8 1).
Definition forward : json := selecting (position 8 1) (position 10 5).

(** A view state whose first cursor is [cursor]. *)
Definition view_state (cursor : json) : json :=
  JObj [("cursorState", JArr [cursor])].

Definition host : Env := Demo.host [] [] [] [].

End Cursors.

Module Files.

(** A file of three lines, the second one empty. *)
Definition gap : string := "ab" ++ newline ++ newline ++ "cd".

(** A file of three lines, none empty. *)
Definition dense : string := "ab" ++ newline ++ "cd" ++ newline ++ "ef".

Definition host : Env :=
  Demo.host [] [] [] [("/gap", gap); ("/dense", dense); ("/spaced", "a b")].

End Files.

(** ** The shorthand flags of the command line *)

(** [s.includes(c)] for a character. *)
Fixpoint includes (c : ascii) (s : string) : bool :=
  match s with
  | EmptyString => false
  | String d rest => (d =? c)%char || includes c rest
  end.

Module Shorthand.

Section Arguments.

(** [process.cwd()] *)
Variable cwd : string.

(** The flags [handleShorthands] hands to commander untouched: help and
    version, then the option flags. *)
Definition untouched : list string :=
  [ "--help"; "-h"; "--version"; "-V";
    "-j"; "--json"; "-t"; "--terminals"; "--legacy-format"; "--no-smart";
    "--no-refresh"; "--no-content"; "--no-color" ].

(** One letter of [ropws]. *)
Definition is_command_letter (c : ascii) : bool := includes c "ropws".

(** Letters of [ct] up to the end of the string. *)
Fixpoint all_modifiers (s : string) : bool :=
  match s with
  | EmptyString => true
  | String d rest => includes d "ct" && all_modifiers rest
  end.

(** [firstArg.match] on the shorthand pattern: a dash, one letter of
    [ropws], then letters of [ct] up to the end.  The captures 1 and 2. *)
Definition shorthand_match (firstArg : string) : option (string * string) :=
  match firstArg with
  | String dash (String letter modifiers) =>
      if (dash =? "-")%char && is_command_letter letter
         && all_modifiers modifiers
      then Some (String letter EmptyString, modifiers)
      else None
  | _ => None
  end.

Definition commandMap : list (string * string) :=
  [ ("r", "raw"); ("o", "open"); ("p", "pinned"); ("s", "selections");
    ("w", "workspace") ].

(** [args[3] || process.cwd()], [rest] being the arguments from [args[3]]
    on. *)
Definition path_argument (rest : list string) : string :=
  match rest with
  | [] => cwd
  | a3 :: _ => if (a3 =? "")%string then cwd else a3
  end.

(** [!args[3] || !args[3].startsWith('-')] *)
Definition no_flag_follows (rest : list string) : bool :=
  match rest with
  | [] => true
  | a3 :: _ => (a3 =? "")%string || negb (startsWith a3 "-")
  end.

(** [handleShorthands(args)] *)
Definition handleShorthands (args : list string) : list string :=
  match args with
  | a0 :: a1 :: firstArg :: rest =>
      if (firstArg =? "")%string || negb (startsWith firstArg "-")
         || existsb (String.eqb firstArg) untouched
      then args
      else if (firstArg =? "-c")%string && no_flag_follows rest
      then [a0; a1; "--content"; "raw"; path_argument rest]
      else
        match shorthand_match firstArg with
        | None => args
        | Some (command, modifiers) =>
            let filePath := path_argument rest in
            match assoc command commandMap with
            | None => args
            | Some fullCommand =>
                (a0 :: a1
                 :: (if includes "c" modifiers then ["--content"] else [])
                 ++ (if includes "t" modifiers then ["--terminals"] else [])
                 ++ [fullCommand; filePath]
                 ++ skipn 1 rest)%list
            end
        end
  | _ => args
  end.



End Arguments.

End Shorthand.

(** ** Notions and scenarios of the further properties *)

(** The tabs of a list carry strictly increasing indices. *)
Definition increasing_indices (ts : list tab) : Prop :=
  forall i j t u,
    nth_error ts i = Some t -> nth_error ts j = Some u ->
    (i < j)%nat -> (index t < index u)%nat.

(** What [getOpenFiles] records of a tab, by its kind: a file tab has a
    truthy path and no metadata, a terminal tab a path that starts with
    [Terminal: ] and metadata; neither has selections yet. *)
Definition recorded_tab (t : tab) : Prop :=
  selections t = None
  /\ match type t with
     | file_tab => truthy (Some (path t)) = true /\ metadata t = None
     | terminal_tab =>
         (exists rest, path t = JStr ("Terminal: " ++ rest))
         /\ metadata t <> None
     end.

(** [group.type === 'leaf' && group.data?.id === activeGroup] *)
Definition is_active_leaf (activeGroup : jsval) (group : json) : bool :=
  strict_eq (prop "type" group) (Some (JStr "leaf"))
  && strict_eq (qdot (prop "data" group) "id") activeGroup.

Module Poisoned.
Import Demo.

(** A grid whose second group is [null]. *)
Definition groups : list json := [leaf Scenario.boundary_group; JNull].

Definition host : Env := with_layout (layout (JNum 1) groups) [].

End Poisoned.

Module Selected.
Import Demo.

(** One group: [README.md] pinned, [a.js] most recently used, a terminal. *)
Definition group : list (string * json) :=
  [ ("id", JNum 1); ("sticky", JNum 0); ("mru", JArr [JNum 1; JNum 0]);
    ("editors", JArr [file_editor "<README.md>"; file_editor "<a.js>";
                      terminal_editor "<zsh>"]) ].

(** Selections in [a.js] (dragged backwards) and in [README.md]; a cursor
    without selection in [c.js]. *)
Definition views : json :=
  JObj [("textEditorViewState",
         JArr [ JArr [JStr "file:///repo/src/a.js";
                      JObj [("0", Cursors.view_state
                                    (Cursors.selecting (Cursors.position 2 3)
                                                       (Cursors.position 1 7)))]];
                JArr [JStr "file:///repo/README.md";
                      JObj [("0", Cursors.view_state
                                    (Cursors.selecting (Cursors.position 1 1)
                                                       (Cursors.position 1 6)))]];
                JArr [JStr "file:///repo/src/c.js";
                      JObj [("0", Cursors.view_state
                                    (JObj [("inSelectionMode", JBool false);
                                           ("position", Cursors.position 4 2)]))]]
              ])].

Definition a_js : string := "const a = 1;" ++ newline ++ "const b = 2;".

Definition host : Env :=
  Demo.host
    (("<layout>", layout (JNum 1) [leaf group])
     :: ("<views>", views)
     :: ("<workspace>", JObj [("folder", JStr "file:///repo")])
     :: editor_docs)
    [ (VSCodeInspector.sqlite3_command (stateDbPath repo)
         VSCodeInspector.editor_query, "<layout>");
      (VSCodeInspector.sqlite3_command (stateDbPath repo)
         VSCodeInspector.selection_query, "<views>" ++ newline) ]
    ["w0"; "w1"]
    [ ("/storage", "");
      ("/storage/w0/state.vscdb", "");
      ("/storage/w1/workspace.json", "<workspace>");
      ("/storage/w1/state.vscdb", "");
      ("/repo/src/a.js", a_js);
      ("/repo/README.md", "# vctx") ].

Definition default_options : RawOptions.t :=
  {| RawOptions.includeContent := true;
     RawOptions.forceRefresh := Some false;
     RawOptions.allSelections := false |}.

Definition all_options : RawOptions.t :=
  {| RawOptions.includeContent := true;
     RawOptions.forceRefresh := Some false;
     RawOptions.allSelections := true |}.

End Selected.

(** * Properties *)

(** ** Loops and exceptions *)

Section Loops.

Context {A B : Type}.

Lemma bind_Ret (C D : Type) (m : Exc C) (k : C -> Exc D) (d : D) :
  bind m k = Ret d -> exists c, m = Ret c /\ k c = Ret d.
Proof.
  destruct m as [c|e]; simpl; intros H; [eauto | discriminate].
Qed.

Lemma for_of_In (body : A -> Exc (list B)) (l : list A) (out : list B) :
  for_of body l = Ret out ->
  forall y, In y out <-> exists x ys, In x l /\ body x = Ret ys /\ In y ys.
Proof.
  revert out; induction l as [|a l IH]; simpl; intros out H y.
  - injection H as <-. split; [intros [] | intros (x & ys & [] & _)].
  - apply bind_Ret in H as (ys & Hb & H).
    apply bind_Ret in H as (zs & Hr & H). injection H as <-.
    rewrite in_app_iff, (IH zs Hr y). split.
    + intros [Hy | (x & ys' & Hx & Hbx & Hy)].
      * exists a, ys; auto.
      * exists x, ys'; auto.
    + intros (x & ys' & [<- | Hx] & Hbx & Hy).
      * left. rewrite Hb in Hbx. injection Hbx as ->. exact Hy.
      * right. exists x, ys'; auto.
Qed.

Lemma for_of_body (body : A -> Exc (list B)) (l : list A) (out : list B) :
  for_of body l = Ret out ->
  forall x, In x l -> exists ys, body x = Ret ys /\ incl ys out.
Proof.
  revert out; induction l as [|a l IH]; simpl; intros out H x Hx; [destruct Hx|].
  apply bind_Ret in H as (ys & Hb & H).
  apply bind_Ret in H as (zs & Hr & H). injection H as <-.
  destruct Hx as [<- | Hx].
  - exists ys. split; [exact Hb|]. apply incl_appl, incl_refl.
  - destruct (IH zs Hr x Hx) as (ys' & Hb' & Hincl).
    exists ys'. split; [exact Hb'|]. apply incl_appr, Hincl.
Qed.

Lemma forEach_from_In (body : A -> nat -> Exc (list B)) (l : list A) :
  forall (start : nat) (out : list B),
  forEach_from body start l = Ret out ->
  forall y, In y out <->
    exists i x ys, nth_error l i = Some x
                   /\ body x (start + i)%nat = Ret ys /\ In y ys.
Proof.
  induction l as [|a l IH]; simpl; intros start out H y.
  - injection H as <-. split; [intros [] | intros ([|i] & x & ys & Hn & _); discriminate].
  - apply bind_Ret in H as (ys & Hb & H).
    apply bind_Ret in H as (zs & Hr & H). injection H as <-.
    rewrite in_app_iff, (IH (S start) zs Hr y). split.
    + intros [Hy | (i & x & ys' & Hn & Hbx & Hy)].
      * exists 0%nat, a, ys. rewrite Nat.add_0_r. auto.
      * exists (S i), x, ys'. rewrite Nat.add_succ_r. auto.
    + intros ([|i] & x & ys' & Hn & Hbx & Hy); simpl in Hn.
      * injection Hn as <-. rewrite Nat.add_0_r in Hbx.
        rewrite Hb in Hbx. injection Hbx as ->. auto.
      * right. exists i, x, ys'. rewrite Nat.add_succ_r in Hbx. auto.
Qed.

End Loops.

(** ** Open tabs and their pins *)

Import VSCodeInspector.

Section OpenFiles.

Variable env : Env.

Lemma with_data_prop (C : Type) (f : json -> Exc (list C)) (group : json) :
  with_data f group = match prop "data" group with
                      | Some d => f d
                      | None => Ret []
                      end.
Proof.
  destruct group as [| | | |items|fields]; try reflexivity.
  simpl. induction fields as [|[k v] fields IH]; simpl; [reflexivity|].
  destruct (k =? "data")%string; [reflexivity | exact IH].
Qed.

(** [processGridData], as the source reads. *)
Lemma processGridData_eq (data : json) :
  processGridData env data =
  match data with
  | JArr groups => for_of (process_group env (processGridData env)) groups
  | JStr _ => Ret []
  | _ => Throw TypeError
  end.
Proof. destruct data; reflexivity. Qed.

(** Iterating a string gives one-character strings, none of which is a
    group: the loop of [processGridData] does nothing on them. *)
Lemma processGridData_string (recur : json -> Exc (list tab)) (s : string) :
  for_of (process_group env recur) (chars s) = Ret [].
Proof.
  induction s as [|c s IH]; [reflexivity|]. simpl. now rewrite IH.
Qed.

Lemma pinned_flag_number (n : Z) (i : nat) :
  pinned_flag env (Some (JNum n)) i = (Z.of_nat i <=? n).
Proof. reflexivity. Qed.

Lemma pinned_flag_absent (sticky : jsval) (i : nat) :
  sticky = None \/ sticky = Some JNull -> pinned_flag env sticky i = false.
Proof. intros [-> | ->]; reflexivity. Qed.

(** An editor that pushes nothing, and one that pushes a single tab. *)
Ltac no_tab H Ht := injection H as <-; destruct Ht.
Ltac one_tab H Ht := injection H as <-; destruct Ht as [<- | []].

(** Every tab an editor yields carries the group's identifier, the editor's
    index and the pin flag computed from the group's [sticky]. *)
Lemma editor_entry_tab gdata sticky editor value i ts t :
  editor_entry env gdata sticky editor value i = Ret ts ->
  In t ts ->
  pinned t = pinned_flag env sticky i
  /\ index t = i
  /\ groupId t = prop "id" gdata.
Proof.
  unfold editor_entry. intros H Ht.
  destruct (strict_eq (prop "id" editor) (Some (JStr fileEditorInput))).
  - apply bind_Ret in H as (editorData & _ & H).
    apply bind_Ret in H as (resourceJSON & _ & H).
    destruct (qdot resourceJSON "fsPath") as [filePath|].
    + destruct (truthy (Some filePath)); [one_tab H Ht; auto | no_tab H Ht].
    + no_tab H Ht.
  - destruct (strict_eq (prop "id" editor) (Some (JStr terminalEditor))).
    + apply bind_Ret in H as (terminalData & _ & H).
      apply bind_Ret in H as (pid & _ & H).
      one_tab H Ht. auto.
    + no_tab H Ht.
Qed.

Lemma editor_callback_tab gdata sticky editor i ts t :
  editor_callback env gdata sticky editor i = Ret ts ->
  In t ts ->
  pinned t = pinned_flag env sticky i
  /\ index t = i
  /\ groupId t = prop "id" gdata.
Proof.
  unfold editor_callback. intros H Ht.
  apply bind_Ret in H as (value & _ & H).
  destruct (truthy value); injection H as <-; [|destruct Ht].
  destruct (editor_entry env gdata sticky editor value i) as [ys|e] eqn:E;
    simpl in Ht; [|destruct Ht].
  eapply editor_entry_tab; eauto.
Qed.

(** The tabs of one leaf group. *)
Lemma process_leaf_tab gdata ts t :
  process_leaf env gdata = Ret ts ->
  In t ts ->
  exists editors editor,
    prop "editors" gdata = Some (JArr editors)
    /\ nth_error editors (index t) = Some editor
    /\ groupId t = prop "id" gdata
    /\ pinned t = pinned_flag env (prop "sticky" gdata) (index t).
Proof.
  unfold process_leaf. intros H Ht.
  destruct (prop "editors" gdata) as [[| | | |editors|]|]; try discriminate.
  unfold forEach in H.
  apply (forEach_from_In _ _ _ _ H) in Ht as (i & editor & ys & Hn & Hb & Hy).
  simpl in Hb.
  destruct (editor_callback_tab _ _ _ _ _ _ Hb Hy) as (Hp & Hi & Hg).
  exists editors, editor. rewrite Hi. auto.
Qed.

Lemma qdot_truthy (x : jsval) (k : string) :
  truthy (qdot x k) = true -> exists v, x = Some v /\ qdot x k = prop k v.
Proof.
  destruct x as [[]|]; simpl; try discriminate; eauto.
Qed.

Lemma strict_eq_str (x : jsval) (s : string) :
  strict_eq x (Some (JStr s)) = true -> x = Some (JStr s).
Proof.
  destruct x as [[| | |s'| |]|]; simpl; try discriminate.
  intros H. apply String.eqb_eq in H. congruence.
Qed.

Lemma process_group_tab (recur : json -> Exc (list tab)) group ts t :
  process_group env recur group = Ret ts ->
  In t ts ->
  (exists gdata,
     prop "type" group = Some (JStr "leaf")
     /\ prop "data" group = Some gdata
     /\ truthy (prop "editors" gdata) = true
     /\ process_leaf env gdata = Ret ts)
  \/ (exists inner,
        prop "type" group = Some (JStr "branch")
        /\ prop "data" group = Some inner
        /\ recur inner = Ret ts).
Proof.
  unfold process_group. intros H Ht.
  apply bind_Ret in H as (gtype & Hty & H).
  assert (gtype = prop "type" group) as ->.
  { destruct group; simpl in Hty; try discriminate;
      injection Hty as <-; reflexivity. }
  rewrite !with_data_prop in H.
  destruct (strict_eq (prop "type" group) (Some (JStr "leaf"))
            && truthy (qdot (prop "data" group) "editors")) eqn:Hleaf.
  - apply andb_prop in Hleaf as [Hl Htr].
    apply strict_eq_str in Hl.
    apply qdot_truthy in Htr as Hq. destruct Hq as (gdata & Hd & Hq).
    rewrite Hq in Htr. rewrite Hd in H.
    left. exists gdata. auto.
  - destruct (strict_eq (prop "type" group) (Some (JStr "branch"))
              && truthy (prop "data" group)) eqn:Hbranch.
    + apply andb_prop in Hbranch as [Hb Htr].
      apply strict_eq_str in Hb.
      destruct (prop "data" group) as [inner|]; [|discriminate].
      right. exists inner. auto.
    + no_tab H Ht.
Qed.

Lemma prop_in_fields (k : string) (fields : list (string * json)) (v : json) :
  assoc k fields = Some v -> In (k, v) fields.
Proof.
  induction fields as [|[k' v'] fields IH]; simpl; [discriminate|].
  destruct (k' =? k)%string eqn:E.
  - apply String.eqb_eq in E. intros [= ->]. left. congruence.
  - auto.
Qed.

(** The recursion descends two levels at a time (into the [data] of an
    element), so the induction carries the property of an object's values
    along. *)
Lemma processGridData_tab_values (data : json) :
  tabs_from_leaves env data
  /\ match data with
     | JObj fields => Forall (fun kv => tabs_from_leaves env (snd kv)) fields
     | _ => True
     end.
Proof.
  induction data as [| | | |groups IH|fields IH] using json_induction;
    (split; [intros ts t H Ht; try discriminate | try exact I]).
  - no_tab H Ht.
  - simpl in H.
    apply (for_of_In _ _ _ H) in Ht as (group & ys & Hin & Hb & Hy).
    destruct (process_group_tab _ _ _ _ Hb Hy)
      as [(gdata & Hl & Hd & Htr & Hp) | (inner & Hbr & Hd & Hr)].
    + exists gdata, ys. split; [|auto].
      eapply leaf_here; eauto.
    + rewrite Forall_forall in IH. destruct (IH group Hin) as [_ Hvalues].
      destruct group as [| | | | |gfields]; try discriminate.
      pose proof (prop_in_fields _ _ _ Hd) as Hfield.
      rewrite Forall_forall in Hvalues.
      destruct (Hvalues _ Hfield ys t Hr Hy) as (gdata & zs & Hleaf & Hp & Hz).
      exists gdata, zs. split; [|auto].
      eapply leaf_below; eauto.
  - eapply Forall_impl; [|exact IH]. intros kv [H _]. exact H.
Qed.

Lemma processGridData_tab (data : json) : tabs_from_leaves env data.
Proof. apply processGridData_tab_values. Qed.

Lemma process_group_typed (recur : json -> Exc (list tab)) group ty :
  prop "type" group = Some ty ->
  process_group env recur group =
  if strict_eq (Some ty) (Some (JStr "leaf"))
     && truthy (qdot (prop "data" group) "editors")
  then with_data (process_leaf env) group
  else if strict_eq (Some ty) (Some (JStr "branch"))
          && truthy (prop "data" group)
  then with_data recur group
  else Ret [].
Proof.
  intros H. destruct group; try discriminate.
  unfold process_group, dot, bind. rewrite H. reflexivity.
Qed.

(** Conversely, what a reached leaf yields is part of the result. *)
Lemma leaf_tabs_included (gdata data : json) :
  leaf_in gdata data ->
  forall ts, processGridData env data = Ret ts ->
  exists ys, process_leaf env gdata = Ret ys /\ incl ys ts.
Proof.
  induction 1 as [groups group Hin Hty Hd Htr
                 |groups group inner Hin Hty Hd Hleaf IH];
    intros ts H; simpl in H.
  - destruct (for_of_body _ _ _ H _ Hin) as (ys & Hb & Hincl).
    exists ys. split; [|exact Hincl].
    rewrite <- Hb, (process_group_typed _ _ _ Hty), !with_data_prop, !Hd.
    assert (qdot (Some gdata) "editors" = prop "editors" gdata) as ->.
    { destruct gdata; try reflexivity; discriminate. }
    rewrite Htr. reflexivity.
  - destruct (for_of_body _ _ _ H _ Hin) as (ys & Hb & Hincl).
    assert (processGridData env inner = Ret ys) as Hinner.
    { rewrite <- Hb, (process_group_typed _ _ _ Hty), !with_data_prop, !Hd.
      assert (truthy (Some inner) = true) as ->.
      { destruct Hleaf; reflexivity. }
      reflexivity. }
    destruct (IH ys Hinner) as (zs & Hp & Hzs).
    exists zs. split; [exact Hp|].
    intros x Hx. apply Hincl, Hzs, Hx.
Qed.

End OpenFiles.

Lemma getOpenFiles_tab (env : Env) (ws : workspace) (t : tab) :
  In t (getOpenFiles env ws) ->
  exists value editorState data ts,
    queryDatabase env (stateDbPath ws) editor_query = Some value
    /\ JSON_parse env value = Ret editorState
    /\ gridData editorState = Ret (Some data)
    /\ processGridData env data = Ret ts
    /\ getOpenFiles env ws = ts.
Proof.
  unfold getOpenFiles.
  destruct (queryDatabase env (stateDbPath ws) editor_query) as [value|];
    [|intros []].
  unfold open_files_of.
  destruct (JSON_parse env value) as [editorState|e] eqn:Hparse; [|intros []].
  simpl bind.
  destruct (gridData editorState) as [[data|]|e] eqn:Hgrid; simpl; try intros [].
  destruct (processGridData env data) as [ts|e] eqn:Hts; simpl; [|intros []].
  intros _. exists value, editorState, data, ts. auto.
Qed.

(** C1, as amended: every tab [getOpenFiles] returns is the tab of an editor
    of a leaf group of the stored layout, at the editor's index in that
    group, and when the group records the number [n] as its [sticky] the tab
    is pinned if and only if its index is at most [n]: the index equal to
    [sticky] is pinned. *)
Theorem pinned_iff_index_at_most_sticky (env : Env) (ws : workspace) (t : tab) :
  In t (getOpenFiles env ws) ->
  exists value editorState data gdata editors editor,
    queryDatabase env (stateDbPath ws) editor_query = Some value
    /\ JSON_parse env value = Ret editorState
    /\ gridData editorState = Ret (Some data)
    /\ leaf_in gdata data
    /\ prop "editors" gdata = Some (JArr editors)
    /\ nth_error editors (index t) = Some editor
    /\ groupId t = prop "id" gdata
    /\ forall n : Z,
         prop "sticky" gdata = Some (JNum n) ->
         (pinned t = true <-> Z.of_nat (index t) <= n).
Proof.
  intros Ht.
  destruct (getOpenFiles_tab env ws t Ht)
    as (value & editorState & data & ts & Hq & Hparse & Hgrid & Hts & Heq).
  rewrite Heq in Ht.
  destruct (processGridData_tab env data ts t Hts Ht)
    as (gdata & ys & Hleaf & Hys & Hy).
  destruct (process_leaf_tab env gdata ys t Hys Hy)
    as (editors & editor & Hed & Hnth & Hgid & Hpin).
  exists value, editorState, data, gdata, editors, editor.
  repeat split; auto.
  - intros Hp. rewrite Hpin, H, pinned_flag_number in Hp.
    apply Z.leb_le, Hp.
  - intros Hle. rewrite Hpin, H, pinned_flag_number.
    apply Z.leb_le, Hle.
Qed.

(** C10: in a layout that [processGridData] accepts, a leaf group whose
    [sticky] is absent ([undefined] or [null]) yields tabs that are part of
    the result and none of which is pinned, whatever their index. *)
Theorem absent_sticky_pins_nothing (env : Env) (data gdata : json)
  (tabs : list tab) :
  processGridData env data = Ret tabs ->
  leaf_in gdata data ->
  prop "sticky" gdata = None \/ prop "sticky" gdata = Some JNull ->
  exists ys,
    process_leaf env gdata = Ret ys
    /\ incl ys tabs
    /\ forall t, In t ys -> pinned t = false.
Proof.
  intros Htabs Hleaf Habsent.
  destruct (leaf_tabs_included env gdata data Hleaf tabs Htabs)
    as (ys & Hys & Hincl).
  exists ys. repeat split; auto.
  intros t Ht.
  destruct (process_leaf_tab env gdata ys t Hys Ht)
    as (editors & editor & _ & _ & _ & Hpin).
  rewrite Hpin. apply pinned_flag_absent, Habsent.
Qed.

(** The theorem of C10 at a group that records no [sticky]. *)
Lemma absent_sticky_witness :
  exists ys,
    process_leaf Scenario.top_level (JObj Scenario.nested_group) = Ret ys
    /\ incl ys (getOpenFiles Scenario.top_level Demo.repo)
    /\ forall t, In t ys -> pinned t = false.
Proof.
  apply (absent_sticky_pins_nothing Scenario.top_level
           (JArr [Demo.leaf Scenario.nested_group])
           (JObj Scenario.nested_group)
           (getOpenFiles Scenario.top_level Demo.repo)).
  - reflexivity.
  - apply (leaf_here _ _ (Demo.leaf Scenario.nested_group));
      [left; reflexivity | reflexivity | reflexivity | reflexivity].
  - left. reflexivity.
Defined.

(** C1 as stated (pinned exactly when the index is strictly below the sticky
    value) fails on the boundary scenario: with [sticky] 1, [README.md] at
    index 0 and [a.js] at index 1 are both pinned. *)
Lemma sticky_boundary_is_pinned :
  map summary (getOpenFiles Scenario.boundary Demo.repo)
  = [ (JStr "/repo/README.md", 0%nat, true);
      (JStr "/repo/src/a.js", 1%nat, true) ]
  /\ ~ (forall t, In t (getOpenFiles Scenario.boundary Demo.repo) ->
                  (pinned t = true <-> Z.of_nat (index t) < 1)).
Proof.
  split; [reflexivity|].
  intros H.
  assert (Z.of_nat 1 < 1) as Hlt; [|lia].
  apply (H {| path := JStr "/repo/src/a.js"; type := file_tab; pinned := true;
              groupId := Some (JNum 1); index := 1; metadata := None;
              selections := None |}).
  - vm_compute. auto.
  - reflexivity.
Qed.

(** The theorem of C1 at the tab of [a.js] in the boundary scenario. *)
Lemma pinned_iff_index_at_most_sticky_witness :
  exists value editorState data gdata editors editor,
    queryDatabase Scenario.boundary (stateDbPath Demo.repo) editor_query
      = Some value
    /\ JSON_parse Scenario.boundary value = Ret editorState
    /\ gridData editorState = Ret (Some data)
    /\ leaf_in gdata data
    /\ prop "editors" gdata = Some (JArr editors)
    /\ nth_error editors 1 = Some editor
    /\ Some (JNum 1) = prop "id" gdata
    /\ forall n : Z,
         prop "sticky" gdata = Some (JNum n) -> (true = true <-> 1 <= n).
Proof.
  apply (pinned_iff_index_at_most_sticky Scenario.boundary Demo.repo
           {| path := JStr "/repo/src/a.js"; type := file_tab; pinned := true;
              groupId := Some (JNum 1); index := 1; metadata := None;
              selections := None |}).
  vm_compute. right. left. reflexivity.
Defined.

(** ** The active file *)

(** The loop of [getActiveFile] never looks inside a branch: over top-level
    nodes that are all branches it finds nothing, whatever they hold. *)
Lemma find_active_skips_branches (env : Env) (activeGroup : jsval)
  (groups : list json) :
  (forall group, In group groups -> prop "type" group = Some (JStr "branch")) ->
  find_active env activeGroup groups = Ret JNull.
Proof.
  induction groups as [|group groups IH]; intros Hall; [reflexivity|].
  pose proof (Hall group (or_introl eq_refl)) as Hty.
  cbn [find_active].
  destruct group; try discriminate.
  unfold dot, bind. rewrite Hty. cbn [strict_eq String.eqb andb].
  apply IH. intros g Hg. apply Hall. right. exact Hg.
Qed.

(** C3: [getActiveFile] looks for the active group among the top-level
    groups of the grid only.  When the active group sits inside a branch,
    [getOpenFiles] (which descends into branches) lists its file tab while
    [getActiveFile] answers [null]; for the same group at the top level it
    answers the tab's path. *)
Lemma getActiveFile_misses_nested_group :
  getOpenFiles Scenario.nested Demo.repo
  = [ {| path := JStr "/repo/src/a.js"; type := file_tab; pinned := false;
         groupId := Some (JNum 7); index := 0; metadata := None;
         selections := None |} ]
  /\ getActiveFile Scenario.nested Demo.repo = JNull
  /\ getActiveFile Scenario.top_level Demo.repo = JStr "/repo/src/a.js".
Proof. repeat split; reflexivity. Qed.

(** ** Selections *)

Section Selections.

Variable env : Env.

Lemma gt_numbers (x y : Z) :
  gt (StringToNumber env) (Some (JNum x)) (Some (JNum y)) = (y <? x).
Proof. reflexivity. Qed.


Lemma range_string_numbers (a p : json) (al ac pl pc : Z) :
  prop "lineNumber" a = Some (JNum al) -> prop "column" a = Some (JNum ac) ->
  prop "lineNumber" p = Some (JNum pl) -> prop "column" p = Some (JNum pc) ->
  range_string a p = range_text al ac pl pc.
Proof.
  intros Hal Hac Hpl Hpc. unfold range_string, range_text.
  rewrite Hal, Hac, Hpl, Hpc. reflexivity.
Qed.



End Selections.


(** Anchor (10,5) and position (8,1) give [L8:C1-L10:C5], in either
    direction. *)
Example backward_selection_normalized :
  cursor_ranges Cursors.host (Some Cursors.backward) = ["L8:C1-L10:C5"]
  /\ cursor_ranges Cursors.host (Some Cursors.forward) = ["L8:C1-L10:C5"].
Proof. split; reflexivity. Qed.


Lemma state_ranges_first_cursor (env : Env) (state : json) (rs : list string) :
  state_ranges env state = Ret rs ->
  rs = cursor_ranges env (first_cursor state).
Proof.
  unfold state_ranges, first_cursor.
  destruct state; simpl; try discriminate; intros [= <-]; reflexivity.
Qed.

(** C5: a view state contributes a range only when its first cursor has
    [inSelectionMode] equal to [true] and its anchor and position differ in
    line or in column; a cursor whose anchor and position agree in both
    contributes none. *)
Theorem selection_needs_flag_and_distinct_ends
  (env : Env) (state : json) (rs : list string) :
  state_ranges env state = Ret rs ->
  (rs <> [] ->
   qdot (first_cursor state) "inSelectionMode" = Some (JBool true)
   /\ exists a p,
        qdot (first_cursor state) "selectionStart" = Some a
        /\ qdot (first_cursor state) "position" = Some p
        /\ (strict_eq (prop "lineNumber" a) (prop "lineNumber" p) = false
            \/ strict_eq (prop "column" a) (prop "column" p) = false))
  /\ (forall a p,
        qdot (first_cursor state) "selectionStart" = Some a ->
        qdot (first_cursor state) "position" = Some p ->
        strict_eq (prop "lineNumber" a) (prop "lineNumber" p) = true ->
        strict_eq (prop "column" a) (prop "column" p) = true ->
        rs = []).
Proof.
  intros H. apply state_ranges_first_cursor in H. subst rs.
  set (cs := first_cursor state). unfold cursor_ranges. split.
  - destruct (strict_eq (qdot cs "inSelectionMode") (Some (JBool true)))
      eqn:Hflag; [|intros []; reflexivity].
    destruct (qdot cs "selectionStart") as [a|]; [|intros []; reflexivity].
    destruct (qdot cs "position") as [p|]; [|intros []; reflexivity].
    intros Hne. split.
    + destruct (qdot cs "inSelectionMode") as [[|[]| | | |]|];
        try discriminate; reflexivity.
    + exists a, p. repeat split.
      destruct (strict_eq (prop "lineNumber" a) (prop "lineNumber" p));
        [|auto].
      destruct (strict_eq (prop "column" a) (prop "column" p)); [|auto].
      exfalso. apply Hne. rewrite !andb_false_r. reflexivity.
  - intros a p -> -> -> ->.
    rewrite !andb_false_r.
    destruct (strict_eq (qdot cs "inSelectionMode") (Some (JBool true)));
      reflexivity.
Qed.

(** The theorem of C5 at a view state holding that selection. *)
Lemma selection_needs_flag_witness :
  (["L8:C1-L10:C5"] <> [] ->
   qdot (first_cursor (Cursors.view_state Cursors.backward)) "inSelectionMode"
   = Some (JBool true)
   /\ exists a p,
        qdot (first_cursor (Cursors.view_state Cursors.backward))
          "selectionStart" = Some a
        /\ qdot (first_cursor (Cursors.view_state Cursors.backward)) "position"
           = Some p
        /\ (strict_eq (prop "lineNumber" a) (prop "lineNumber" p) = false
            \/ strict_eq (prop "column" a) (prop "column" p) = false))
  /\ (forall a p,
        qdot (first_cursor (Cursors.view_state Cursors.backward))
          "selectionStart" = Some a ->
        qdot (first_cursor (Cursors.view_state Cursors.backward)) "position"
        = Some p ->
        strict_eq (prop "lineNumber" a) (prop "lineNumber" p) = true ->
        strict_eq (prop "column" a) (prop "column" p) = true ->
        ["L8:C1-L10:C5"] = []).
Proof.
  apply (selection_needs_flag_and_distinct_ends Cursors.host
           (Cursors.view_state Cursors.backward) ["L8:C1-L10:C5"]).
  reflexivity.
Defined.

(** ** The workspace of a file *)

Lemma startsWith_prefix (s p : string) :
  startsWith s p = true <-> is_prefix p s.
Proof.
  unfold startsWith, is_prefix. revert s.
  induction p as [|c p IH]; intros s; simpl.
  - split; [intros _; exists s; reflexivity | intros _; destruct s; reflexivity].
  - destruct s as [|d s]; simpl.
    + split; [discriminate | intros [rest H]; discriminate].
    + destruct (ascii_dec c d) as [->|Hne].
      * rewrite IH. split; intros [rest H]; exists rest.
        -- now rewrite H.
        -- now injection H.
      * split; [discriminate | intros [rest H]; congruence].
Qed.

Lemma find_first {A : Type} (f : A -> bool) (l : list A) (x : A) :
  find f l = Some x <->
  exists before after,
    l = (before ++ x :: after)%list
    /\ f x = true
    /\ forall y, In y before -> f y = false.
Proof.
  induction l as [|a l IH]; simpl.
  - split; [discriminate | intros ([|b before] & after & H & _); discriminate].
  - destruct (f a) eqn:Hfa.
    + split.
      * intros [= ->]. exists [], l. repeat split; [exact Hfa | intros y []].
      * intros ([|b before] & after & H & Hfx & Hnone); injection H as <- H.
        -- reflexivity.
        -- rewrite (Hnone a (or_introl eq_refl)) in Hfa. discriminate.
    + rewrite IH. split.
      * intros (before & after & -> & Hfx & Hnone).
        exists (a :: before), after. repeat split; [exact Hfx|].
        intros y [<- | Hy]; auto.
      * intros ([|b before] & after & H & Hfx & Hnone); injection H as <- H.
        -- congruence.
        -- exists before, after. repeat split; auto.
           intros y Hy. apply Hnone. right. exact Hy.
Qed.

Lemma find_none_iff {A : Type} (f : A -> bool) (l : list A) :
  find f l = None <-> forall x, In x l -> f x = false.
Proof.
  induction l as [|a l IH]; simpl.
  - split; [intros _ x [] | reflexivity].
  - destruct (f a) eqn:Hfa.
    + split; [discriminate|]. intros H. rewrite (H a (or_introl eq_refl)) in Hfa.
      discriminate.
    + rewrite IH. split.
      * intros H x [<- | Hx]; auto.
      * intros H x Hx. apply H. right. exact Hx.
Qed.

(** C6: [findWorkspaceByFile] returns the first workspace, in list order,
    whose folder is a textual prefix of the resolved path (any continuation,
    with or without a separator); it finds none exactly when no folder is
    such a prefix, and then [getRawContext] throws the error
    [No workspace found for file: ...] and the command exits with code 1. *)
Theorem workspace_is_first_textual_prefix_match
  (env : Env) (workspaces : list workspace) (filePath : string) :
  (forall ws,
     findWorkspaceByFile env workspaces filePath = Some ws <->
     exists before after,
       workspaces = (before ++ ws :: after)%list
       /\ is_prefix (folder ws) (path_resolve env filePath)
       /\ forall other, In other before ->
            ~ is_prefix (folder other) (path_resolve env filePath))
  /\ (findWorkspaceByFile env workspaces filePath = None <->
      forall ws, In ws workspaces ->
        ~ is_prefix (folder ws) (path_resolve env filePath))
  /\ (findWorkspaceByFile env workspaces filePath = None ->
      (forall options,
         getRawContext env workspaces filePath options
         = Throw (Error ("No workspace found for file: " ++ filePath)))
      /\ (init env = Ret workspaces ->
          forall stringify g c,
            Cli.action env stringify g c filePath
            = Cli.Exited ("Error: No workspace found for file: " ++ filePath) 1)).
Proof.
  unfold findWorkspaceByFile. repeat split.
  - intros H. apply find_first in H as (before & after & Hl & Hf & Hnone).
    exists before, after. repeat split; auto.
    + apply startsWith_prefix, Hf.
    + intros other Hin Hp. apply startsWith_prefix in Hp.
      rewrite (Hnone other Hin) in Hp. discriminate.
  - intros (before & after & Hl & Hp & Hnone). apply find_first.
    exists before, after. repeat split; auto.
    + apply startsWith_prefix, Hp.
    + intros y Hy. specialize (Hnone y Hy).
      destruct (startsWith (path_resolve env filePath) (folder y)) eqn:E;
        [|reflexivity].
      exfalso. apply Hnone, startsWith_prefix, E.
  - intros H ws Hin Hp. rewrite find_none_iff in H.
    apply startsWith_prefix in Hp. rewrite (H ws Hin) in Hp. discriminate.
  - intros H. apply find_none_iff. intros ws Hin.
    destruct (startsWith (path_resolve env filePath) (folder ws)) eqn:E;
      [|reflexivity].
    exfalso. apply (H ws Hin), startsWith_prefix, E.
  - intros options. unfold getRawContext, findWorkspaceByFile.
    rewrite H. reflexivity.
  - intros Hinit stringify g c. unfold Cli.action.
    rewrite Hinit. simpl bind.
    unfold getRawContext, findWorkspaceByFile. rewrite H. reflexivity.
Qed.

(** A workspace at [/a/b] is found for a file under [/a/bc/]. *)
Example sibling_directory_matches :
  let env := Demo.host [] [] [] [] in
  let ab := {| id := "w"; folder := "/a/b"; stateDbPath := "/db" |} in
  findWorkspaceByFile env [ab] "/a/bc/file.js" = Some ab
  /\ findWorkspaceByFile env [ab] "/a/c/file.js" = None.
Proof. split; reflexivity. Qed.

(** ** Selected content *)

Section Digits.

Lemma span_digits_uint (d : Decimal.uint) (rest : string) :
  no_digit_ahead rest ->
  span_digits (NilEmpty.string_of_uint d ++ rest)
  = (NilEmpty.string_of_uint d, rest).
Proof.
  intros Hrest. induction d; simpl;
    try (rewrite IHd; reflexivity).
  destruct rest as [|c rest]; simpl; [reflexivity|].
  simpl in Hrest. rewrite Hrest. reflexivity.
Qed.

Lemma string_of_Z_nonneg (n : Z) :
  0 <= n ->
  string_of_Z n = NilEmpty.string_of_uint (N.to_uint (Z.to_N n))
  /\ N.to_uint (Z.to_N n) <> Decimal.Nil.
Proof.
  intros Hn. destruct n as [|p|p]; [| |lia]; simpl.
  - split; [reflexivity | discriminate].
  - pose proof (DecimalPos.Unsigned.to_uint_nonnil p) as Hnil.
    split; [|exact Hnil].
    unfold string_of_Z. simpl. unfold NilZero.string_of_uint.
    destruct (Pos.to_uint p); congruence.
Qed.

Lemma uint_string_nonempty (d : Decimal.uint) :
  d <> Decimal.Nil -> NilEmpty.string_of_uint d <> EmptyString.
Proof. destruct d; simpl; congruence. Qed.

(** [(\d+)] reads back the decimal rendering of a number that is not
    negative. *)
Lemma digits1_number (n : Z) (rest : string) :
  0 <= n -> no_digit_ahead rest ->
  digits1 (string_of_Z n ++ rest) = Some (string_of_Z n, rest).
Proof.
  intros Hn Hrest. destruct (string_of_Z_nonneg n Hn) as [-> Hnil].
  unfold digits1. rewrite (span_digits_uint _ _ Hrest).
  pose proof (uint_string_nonempty _ Hnil) as Hne.
  destruct (NilEmpty.string_of_uint (N.to_uint (Z.to_N n)));
    [congruence | reflexivity].
Qed.

Lemma parseInt_number (n : Z) : 0 <= n -> parseInt (string_of_Z n) = n.
Proof.
  intros Hn. destruct (string_of_Z_nonneg n Hn) as [-> _].
  unfold parseInt. rewrite NilEmpty.usu, DecimalN.Unsigned.of_to. lia.
Qed.

Lemma expect_literal (lit rest : string) :
  expect lit (lit ++ rest) = Some rest.
Proof.
  unfold expect.
  assert (String.prefix lit (lit ++ rest) = true) as ->.
  { induction lit as [|c lit IH]; simpl; [destruct rest; reflexivity|].
    destruct (ascii_dec c c); [exact IH | congruence]. }
  f_equal. induction lit as [|c lit IH]; simpl; [reflexivity | exact IH].
Qed.

End Digits.

Section Strings.

Lemma app_empty_r (a : string) : a ++ "" = a.
Proof. induction a as [|x a IH]; simpl; [reflexivity | now rewrite IH]. Qed.

Lemma app_assoc_str (a b c : string) : (a ++ b) ++ c = a ++ (b ++ c).
Proof. induction a as [|x a IH]; simpl; [reflexivity | now rewrite IH]. Qed.

Lemma substring_take_drop (n m : nat) (s : string) :
  String.substring n m s = take m (drop n s).
Proof.
  revert m s. induction n as [|n IH]; intros m s.
  - simpl drop. revert s. induction m as [|m IHm]; intros [|c s]; simpl;
      try reflexivity. now rewrite IHm.
  - destruct s as [|c s]; simpl; [destruct m; reflexivity | apply IH].
Qed.

Lemma length_drop (n : nat) (s : string) :
  String.length (drop n s) = (String.length s - n)%nat.
Proof.
  revert s. induction n as [|n IH]; intros [|c s]; simpl; try reflexivity.
  apply IH.
Qed.

Lemma take_all (n : nat) (s : string) :
  (String.length s <= n)%nat -> take n s = s.
Proof.
  revert s. induction n as [|n IH]; intros [|c s]; simpl; intros H;
    try reflexivity; [lia|]. rewrite IH; [reflexivity | lia].
Qed.

Lemma take_empty (n : nat) : take n "" = "".
Proof. destruct n; reflexivity. Qed.

Lemma drop_all (n : nat) (s : string) :
  (String.length s <= n)%nat -> drop n s = "".
Proof.
  revert s. induction n as [|n IH]; intros [|c s]; simpl; intros H;
    try reflexivity; [lia|]. apply IH. lia.
Qed.

(** [s.substring(a, b)] for indices in order. *)
Lemma substring_ordered (s : string) (a b : Z) :
  0 <= a <= b ->
  substring s a b = take (Z.to_nat (b - a)) (drop (Z.to_nat a) s).
Proof.
  intros Hab. unfold substring. rewrite substring_take_drop.
  set (len := Z.of_nat (String.length s)).
  destruct (Z.le_gt_cases a len) as [Ha|Ha].
  - replace (Z.min (Z.max 0 (Z.min a len)) (Z.max 0 (Z.min b len))) with a by lia.
    destruct (Z.le_gt_cases b len) as [Hb|Hb].
    + replace (Z.max (Z.max 0 (Z.min a len)) (Z.max 0 (Z.min b len))) with b by lia.
      reflexivity.
    + replace (Z.max (Z.max 0 (Z.min a len)) (Z.max 0 (Z.min b len)))
        with len by lia.
      rewrite !take_all; [reflexivity | |]; rewrite length_drop; unfold len in *; lia.
  - replace (Z.min (Z.max 0 (Z.min a len)) (Z.max 0 (Z.min b len)))
      with len by lia.
    replace (Z.max (Z.max 0 (Z.min a len)) (Z.max 0 (Z.min b len)))
      with len by lia.
    rewrite !drop_all by (unfold len in *; lia).
    rewrite !take_empty. reflexivity.
Qed.

Lemma substring_from_drop (s : string) (a : Z) :
  0 <= a -> substring_from s a = drop (Z.to_nat a) s.
Proof.
  intros Ha. unfold substring_from, substring. rewrite substring_take_drop.
  set (len := Z.of_nat (String.length s)).
  destruct (Z.le_gt_cases a len) as [Hle|Hgt].
  - replace (Z.min (Z.max 0 (Z.min a len)) (Z.max 0 (Z.min len len))) with a by lia.
    replace (Z.max (Z.max 0 (Z.min a len)) (Z.max 0 (Z.min len len)))
      with len by lia.
    apply take_all. rewrite length_drop. unfold len. lia.
  - replace (Z.min (Z.max 0 (Z.min a len)) (Z.max 0 (Z.min len len)))
      with len by lia.
    replace (Z.max (Z.max 0 (Z.min a len)) (Z.max 0 (Z.min len len)))
      with len by lia.
    rewrite !drop_all by (unfold len in *; lia). apply take_empty.
Qed.

End Strings.

Create Rewrite HintDb strings.
#[export] Hint Rewrite app_assoc_str app_empty_r : strings.

Section Slicing.

Lemma line_at_valid (lines : list string) (i : Z) :
  0 <= i < Z.of_nat (List.length lines) ->
  line_at lines i = Some (line_no lines (i + 1)).
Proof.
  intros Hi. unfold line_at, line_no.
  destruct (Z.ltb_spec i 0); [lia|].
  replace (i + 1 - 1) with i by lia.
  apply nth_error_nth'. lia.
Qed.

(** The text of a selection on one line. *)
Lemma selected_text_one_line (lines : list string) (sl sc ec : Z) :
  1 <= sl <= Z.of_nat (List.length lines) -> 1 <= sc <= ec ->
  selected_text lines (sl - 1) (sc - 1) (sl - 1) (ec - 1)
  = columns (line_no lines sl) sc ec.
Proof.
  intros Hsl Hc. unfold selected_text. rewrite Z.eqb_refl.
  rewrite line_at_valid by lia. replace (sl - 1 + 1) with sl by lia.
  unfold columns.
  destruct (line_no lines sl) as [|c line] eqn:E.
  - destruct (Z.to_nat (sc - 1)); simpl; now rewrite take_empty.
  - rewrite substring_ordered by lia. f_equal. lia.
Qed.

Lemma skipn_nth (l : list string) (i : nat) :
  (i < List.length l)%nat ->
  skipn i l = nth i l EmptyString :: skipn (S i) l.
Proof.
  revert l. induction i as [|i IH]; intros [|x l] H; simpl in *; try lia.
  - reflexivity.
  - apply IH. lia.
Qed.

Lemma concat_empty_cons (x : string) (xs : list string) :
  String.concat "" (x :: xs) = x ++ String.concat "" xs.
Proof. destruct xs; simpl; [now rewrite app_empty_r | reflexivity]. Qed.

(** The loop of a multi-line selection from an interior line on: every
    line before the end line is appended with a line break, then the head of
    the end line. *)
Lemma multi_line_loop_rest (lines : list string) (s0 sc0 e0 ec0 : Z) :
  forall (count : nat) (i : Z) (acc : string),
  s0 < i <= e0 -> e0 < Z.of_nat (List.length lines) -> 0 <= s0 -> 0 <= ec0 + 1 ->
  i + Z.of_nat count = e0 + 1 ->
  (forall j, i <= j < e0 -> line_no lines (j + 1) <> EmptyString) ->
  multi_line_loop lines s0 sc0 e0 ec0 count i acc
  = acc
    ++ String.concat "" (map with_break
                           (firstn (Z.to_nat (e0 - i)) (skipn (Z.to_nat i) lines)))
    ++ take (Z.to_nat (ec0 + 1)) (line_no lines (e0 + 1)).
Proof.
  induction count as [|count IH]; intros i acc Hi He Hs Hec Hcount Hlines;
    [lia|].
  cbn [multi_line_loop]. unfold multi_line_step.
  rewrite line_at_valid by lia.
  destruct (Z.eqb_spec i s0); [lia|].
  destruct (Z.eqb_spec i e0) as [->|Hne].
  - assert (count = 0%nat) as -> by lia. simpl.
    replace (Z.to_nat (e0 - e0)) with 0%nat by lia. simpl.
    destruct (line_no lines (e0 + 1)) as [|c line] eqn:E.
    + now rewrite take_empty, app_empty_r.
    + rewrite substring_ordered by lia. simpl drop.
      replace (ec0 + 1 - 0) with (ec0 + 1) by lia. reflexivity.
  - pose proof (Hlines i ltac:(lia)) as Hline.
    destruct (line_no lines (i + 1)) as [|c line] eqn:E; [congruence|].
    rewrite IH; try lia.
    + replace (Z.to_nat (e0 - i)) with (S (Z.to_nat (e0 - (i + 1)))) by lia.
      rewrite (skipn_nth lines (Z.to_nat i)) by lia.
      replace (S (Z.to_nat i)) with (Z.to_nat (i + 1)) by lia.
      unfold line_no in E. replace (i + 1 - 1) with i in E by lia.
      rewrite E. cbn [firstn map]. rewrite concat_empty_cons.
      unfold with_break at 2. autorewrite with strings. reflexivity.
    + intros j Hj. apply Hlines. lia.
Qed.

(** Joining by line breaks is ending every piece but the last with one. *)
Lemma join_newline_last (pieces : list string) (last : string) :
  join newline (pieces ++ [last])%list
  = String.concat "" (map with_break pieces) ++ last.
Proof.
  induction pieces as [|x pieces IH]; [reflexivity|].
  cbn [app map]. rewrite concat_empty_cons, app_assoc_str, <- IH.
  unfold with_break.
  destruct (pieces ++ [last])%list eqn:E.
  - destruct pieces; discriminate.
  - cbn [join]. rewrite app_assoc_str. reflexivity.
Qed.

(** The text of a selection over several lines. *)
Lemma selected_text_multi_line (lines : list string) (sl sc el ec : Z) :
  1 <= sl -> sl < el -> el <= Z.of_nat (List.length lines) ->
  1 <= sc -> 1 <= ec ->
  no_empty_line_before_end lines sl el ->
  selected_text lines (sl - 1) (sc - 1) (el - 1) (ec - 1)
  = described_text lines sl sc el ec.
Proof.
  intros Hsl Hlt Hel Hsc Hec Hlines.
  unfold selected_text, described_text.
  destruct (Z.eqb_spec (sl - 1) (el - 1)); [lia|].
  destruct (Z.eqb_spec sl el); [lia|].
  replace (Z.min (sl - 1) (el - 1)) with (sl - 1) by lia.
  replace (Z.max (sl - 1) (el - 1)) with (el - 1) by lia.
  replace (Z.to_nat (el - 1 - (sl - 1) + 1))
    with (S (Z.to_nat (el - sl))) by lia.
  cbn [multi_line_loop]. unfold multi_line_step at 1.
  rewrite line_at_valid by lia. replace (sl - 1 + 1) with sl by lia.
  rewrite Z.eqb_refl.
  pose proof (Hlines sl ltac:(lia)) as Hstart.
  destruct (line_no lines sl) as [|c line] eqn:E; [congruence|].
  rewrite multi_line_loop_rest; try lia.
  - rewrite substring_from_drop by lia.
    change (tail_from (String c line) sc
            :: interior_lines lines sl el ++ [head_to (line_no lines el) ec])%list
      with ((tail_from (String c line) sc :: interior_lines lines sl el)
            ++ [head_to (line_no lines el) ec])%list.
    rewrite join_newline_last. cbn [map]. rewrite concat_empty_cons.
    unfold with_break at 2, tail_from, head_to, interior_lines.
    replace (el - 1 + 1) with el by lia.
    replace (ec - 1 + 1) with ec by lia.
    replace (Z.to_nat (el - 1 - (sl - 1 + 1))) with (Z.to_nat (el - sl - 1)) by lia.
    replace (Z.to_nat (sl - 1 + 1)) with (Z.to_nat sl) by lia.
    replace (Z.to_nat (el - 1 - sl)) with (Z.to_nat (el - sl - 1)) by lia.
    cbn [append]. autorewrite with strings. reflexivity.
  - intros j Hj. apply Hlines. lia.
Qed.

End Slicing.

(** The regular expression of [extractSelectedContent] reads back the ranges
    [getSelections] writes. *)
Lemma match_range_text (sl sc el ec : Z) :
  0 <= sl -> 0 <= sc -> 0 <= el -> 0 <= ec ->
  match_range (range_text sl sc el ec)
  = Some (string_of_Z sl, string_of_Z sc,
          if sl =? el then None else Some (string_of_Z el),
          string_of_Z ec).
Proof.
  intros Hsl Hsc Hel Hec.
  assert (match_here (range_text sl sc el ec)
          = Some (string_of_Z sl, string_of_Z sc,
                  if sl =? el then None else Some (string_of_Z el),
                  string_of_Z ec)) as Hhere.
  { unfold range_text, match_here.
    destruct (sl =? el).
    - rewrite (expect_literal "L").
      rewrite (digits1_number sl _ Hsl) by reflexivity.
      rewrite (expect_literal ":C").
      rewrite (digits1_number sc _ Hsc) by reflexivity.
      rewrite (expect_literal "-").
      assert (match_end_line (string_of_Z ec) = None) as ->.
      { unfold match_end_line, expect.
        destruct (string_of_Z_nonneg ec Hec) as [-> Hnil].
        destruct (N.to_uint (Z.to_N ec)); try congruence; reflexivity. }
      rewrite <- (app_empty_r (string_of_Z ec)) at 1.
      rewrite (digits1_number ec _ Hec) by exact I. reflexivity.
    - rewrite (expect_literal "L").
      rewrite (digits1_number sl _ Hsl) by reflexivity.
      rewrite (expect_literal ":C").
      rewrite (digits1_number sc _ Hsc) by reflexivity.
      change ("-L" ++ string_of_Z el ++ ":C" ++ string_of_Z ec)
        with ("-" ++ "L" ++ string_of_Z el ++ ":C" ++ string_of_Z ec).
      rewrite (expect_literal "-").
      unfold match_end_line.
      rewrite (expect_literal "L").
      rewrite (digits1_number el _ Hel) by reflexivity.
      rewrite (expect_literal ":C").
      rewrite <- (app_empty_r (string_of_Z ec)) at 1.
      rewrite (digits1_number ec _ Hec) by exact I. reflexivity. }
  unfold range_text in *. destruct (sl =? el); simpl in *; rewrite Hhere; reflexivity.
Qed.

Section Substrings.

Lemma length_app_str (a b : string) :
  String.length (a ++ b) = (String.length a + String.length b)%nat.
Proof. induction a as [|c a IH]; simpl; [reflexivity | now rewrite IH]. Qed.

Lemma drop_app_within (n : nat) (a b : string) :
  (n <= String.length a)%nat -> drop n (a ++ b) = drop n a ++ b.
Proof.
  revert a. induction n as [|n IH]; intros [|c a] H; simpl in *;
    try reflexivity; [lia|]. apply IH. lia.
Qed.

Lemma drop_app_length (a b : string) : drop (String.length a) (a ++ b) = b.
Proof. induction a as [|c a IH]; simpl; [reflexivity | exact IH]. Qed.

Lemma drop_add (n m : nat) (s : string) : drop (n + m) s = drop m (drop n s).
Proof.
  revert s. induction n as [|n IH]; intros s; [reflexivity|].
  destruct s as [|c s]; simpl; [destruct m; reflexivity | apply IH].
Qed.

Lemma take_app_within (n : nat) (a b : string) :
  (n <= String.length a)%nat -> take n (a ++ b) = take n a.
Proof.
  revert a. induction n as [|n IH]; intros [|c a] H; simpl in *;
    try reflexivity; [lia|]. rewrite IH; [reflexivity | lia].
Qed.

Lemma take_app_beyond (n : nat) (a b : string) :
  take (String.length a + n) (a ++ b) = a ++ take n b.
Proof. induction a as [|c a IH]; simpl; [reflexivity | now rewrite IH]. Qed.

(** Joining lines by line breaks, the first [k] lines apart. *)
Lemma join_firstn_skipn (lines : list string) (k : nat) :
  (k < List.length lines)%nat ->
  join newline lines
  = String.concat "" (map with_break (firstn k lines))
    ++ join newline (skipn k lines).
Proof.
  revert lines. induction k as [|k IH]; intros lines H; [reflexivity|].
  destruct lines as [|x lines]; simpl in H; [lia|].
  cbn [firstn skipn map]. rewrite concat_empty_cons, app_assoc_str.
  rewrite <- IH by lia. unfold with_break.
  destruct lines as [|y lines]; [simpl in H; lia|].
  cbn [join]. now rewrite app_assoc_str.
Qed.

Lemma join_cons_next (x y : string) (rest : list string) :
  join newline (x :: y :: rest) = x ++ newline ++ join newline (y :: rest).
Proof. reflexivity. Qed.

Lemma join_head (x : string) (rest : list string) :
  exists tail, join newline (x :: rest) = x ++ tail.
Proof.
  destruct rest as [|y rest].
  - exists "". simpl. now rewrite app_empty_r.
  - exists (newline ++ join newline (y :: rest)). reflexivity.
Qed.

Lemma concat_empty_app (l1 l2 : list string) :
  String.concat "" (l1 ++ l2) = String.concat "" l1 ++ String.concat "" l2.
Proof.
  induction l1 as [|x l1 IH]; [reflexivity|].
  cbn [app]. now rewrite !concat_empty_cons, IH, app_assoc_str.
Qed.

Lemma firstn_add (A : Type) (a b : nat) (l : list A) :
  firstn (a + b) l = (firstn a l ++ firstn b (skipn a l))%list.
Proof.
  revert l. induction a as [|a IH]; intros l; [reflexivity|].
  destruct l as [|x l]; simpl; [now rewrite firstn_nil | now rewrite IH].
Qed.

(** What is left of the file from a place within line [l] on. *)
Lemma drop_offset (lines : list string) (l c : Z) :
  1 <= l <= Z.of_nat (List.length lines) -> 1 <= c ->
  c - 1 <= Z.of_nat (String.length (line_no lines l)) ->
  exists tail,
    join newline (skipn (Z.to_nat (l - 1)) lines) = line_no lines l ++ tail
    /\ drop (offset lines l c) (join newline lines)
       = drop (Z.to_nat (c - 1)) (line_no lines l) ++ tail.
Proof.
  intros Hl Hc Hcol. unfold offset, chars_before.
  set (k := Z.to_nat (l - 1)).
  assert (k < List.length lines)%nat as Hk by lia.
  rewrite drop_add, (join_firstn_skipn lines k Hk), drop_app_length.
  rewrite (skipn_nth lines k Hk).
  change (nth k lines "") with (line_no lines l).
  destruct (join_head (line_no lines l) (skipn (S k) lines)) as [tail Htail].
  exists tail. split; [exact Htail|].
  rewrite Htail. apply drop_app_within. lia.
Qed.

Lemma join_split_lines (content : string) :
  join newline (split_lines content) = content.
Proof.
  unfold split_lines. induction content as [|c content IH]; [reflexivity|].
  cbn [split].
  destruct (Ascii.eqb_spec c (ascii_of_nat 10)) as [->|Hc].
  - destruct (split (ascii_of_nat 10) content) as [|l ls] eqn:E.
    + destruct content as [|d content]; [discriminate|]. simpl in E.
      destruct (d =? ascii_of_nat 10)%char;
        [|destruct (split (ascii_of_nat 10) content)]; discriminate.
    + rewrite join_cons_next, IH. reflexivity.
  - destruct (split (ascii_of_nat 10) content) as [|l ls] eqn:E.
    + destruct content as [|d content]; [discriminate|]. simpl in E.
      destruct (d =? ascii_of_nat 10)%char;
        [|destruct (split (ascii_of_nat 10) content)]; discriminate.
    + rewrite <- IH. destruct ls; reflexivity.
Qed.

(** The text a range describes is the part of the file from the place of
    its start to the place of its end, the end character included. *)
Lemma described_text_substring (lines : list string) (sl sc el ec : Z) :
  valid_range lines sl sc el ec ->
  columns_within lines sl sc el ec ->
  described_text lines sl sc el ec
  = String.substring (offset lines sl sc)
      (offset lines el ec + 1 - offset lines sl sc) (join newline lines).
Proof.
  intros (Hsl & Hle & Hel & Hsc & Hec & Hcols) (Hstart & Hend).
  rewrite substring_take_drop.
  destruct (drop_offset lines sl sc ltac:(lia) Hsc Hstart)
    as (tail & Hjoin & ->).
  unfold described_text.
  destruct (Z.eqb_spec sl el) as [<-|Hne].
  - replace (offset lines sl ec + 1 - offset lines sl sc)%nat
      with (Z.to_nat (ec - sc + 1)) by (unfold offset; lia).
    rewrite take_app_within; [reflexivity|].
    rewrite length_drop. lia.
  - set (k := Z.to_nat (sl - 1)) in *.
    set (m := Z.to_nat (el - sl - 1)).
    set (x := line_no lines sl) in *.
    assert (k < List.length lines)%nat as Hk by lia.
    assert (skipn k lines = x :: skipn (Z.to_nat sl) lines) as Hskip.
    { rewrite (skipn_nth lines k Hk). f_equal. f_equal. lia. }
    set (rest := skipn (Z.to_nat sl) lines) in *.
    assert (m < List.length rest)%nat as Hm.
    { unfold rest, m. rewrite length_skipn. lia. }
    assert (nth m rest "" = line_no lines el) as Hy.
    { unfold rest, line_no, m. rewrite nth_skipn. f_equal. lia. }
    assert (tail
            = newline ++ String.concat "" (map with_break (firstn m rest))
              ++ join newline (skipn m rest)) as ->.
    { rewrite Hskip in Hjoin. rewrite <- (join_firstn_skipn rest m Hm).
      destruct rest as [|r rest']; [simpl in Hm; lia|].
      rewrite join_cons_next in Hjoin.
      clear - Hjoin. revert Hjoin. generalize (newline ++ join newline (r :: rest')).
      intros u. revert tail. induction x as [|c x IH]; simpl; intros tail H;
        [now symmetry | injection H as H; auto]. }
    rewrite (skipn_nth rest m Hm), Hy.
    destruct (join_head (line_no lines el) (skipn (S m) rest)) as [t ->].
    assert (interior_lines lines sl el = firstn m rest) as -> by reflexivity.
    change (tail_from x sc :: firstn m rest ++ [head_to (line_no lines el) ec])%list
      with ((tail_from x sc :: firstn m rest)
            ++ [head_to (line_no lines el) ec])%list.
    rewrite join_newline_last. cbn [map]. rewrite concat_empty_cons.
    unfold with_break at 1, tail_from, head_to.
    set (a := drop (Z.to_nat (sc - 1)) x).
    set (mid := String.concat "" (map with_break (firstn m rest))).
    set (y := line_no lines el) in *.
    assert (offset lines el ec + 1 - offset lines sl sc
            = String.length a + (1 + (String.length mid + Z.to_nat ec)))%nat
      as ->.
    { unfold offset, chars_before, a, mid.
      replace (Z.to_nat (el - 1)) with (k + S m)%nat by lia.
      rewrite firstn_add, Hskip. cbn [firstn].
      rewrite map_app, concat_empty_app. cbn [map].
      rewrite concat_empty_cons. unfold with_break at 2.
      rewrite !length_app_str, length_drop. fold k. simpl String.length.
      lia. }
    rewrite !app_assoc_str.
    rewrite take_app_beyond. f_equal.
    unfold newline. cbn [append Nat.add take]. f_equal.
    rewrite take_app_beyond. f_equal.
    symmetry. apply take_app_within. lia.
Qed.

End Substrings.

(** C2, as amended: for a readable file and a valid range none of whose
    lines before the end line is empty, [extractSelectedContent] on the
    range's text returns the text the range describes with the number of
    lines it spans, unless that text is empty or white space only, in which
    case the range is dropped from the result; and when the columns of the
    range lie within its lines, the text it describes is the part of the
    file's content from its start to its end, the end character included. *)
Theorem extractSelectedContent_described_text
  (env : Env) (filePath content : string) (sl sc el ec : Z) :
  existsSync env filePath = true ->
  readFileSync env filePath = Ret content ->
  valid_range (split_lines content) sl sc el ec ->
  no_empty_line_before_end (split_lines content) sl el ->
  extractSelectedContent env filePath [range_text sl sc el ec]
  = Some (if (trim (described_text (split_lines content) sl sc el ec) =? "")%string
          then []
          else [ {| ContentItem.range := range_text sl sc el ec;
                    ContentItem.content :=
                      described_text (split_lines content) sl sc el ec;
                    ContentItem.lineCount := el - sl + 1 |} ])
  /\ (columns_within (split_lines content) sl sc el ec ->
      described_text (split_lines content) sl sc el ec
      = String.substring (offset (split_lines content) sl sc)
          (offset (split_lines content) el ec + 1
           - offset (split_lines content) sl sc)
          content).
Proof.
  intros Hex Hread Hvalid Hlines. split.
  - destruct Hvalid as (Hsl & Hle & Hel & Hsc & Hec & Hcols).
    unfold extractSelectedContent. rewrite Hex, Hread. simpl.
    f_equal. rewrite app_nil_r. unfold range_content.
    rewrite match_range_text by lia.
    rewrite !parseInt_number by lia.
    set (lines := split_lines content) in *.
    assert (selected_text lines (sl - 1) (sc - 1)
              (match (if sl =? el then None else Some (string_of_Z el)) with
               | Some d => parseInt d - 1
               | None => sl - 1
               end) (ec - 1)
            = described_text lines sl sc el ec
            /\ Z.abs (match (if sl =? el then None
                             else Some (string_of_Z el)) with
                      | Some d => parseInt d - 1
                      | None => sl - 1
                      end - (sl - 1)) + 1 = el - sl + 1) as [-> ->].
    { destruct (Z.eqb_spec sl el) as [<-|Hne].
      - split; [|lia].
        rewrite selected_text_one_line by lia.
        unfold described_text. now rewrite Z.eqb_refl.
      - rewrite parseInt_number by lia. split; [|lia].
        apply selected_text_multi_line; try lia. exact Hlines. }
    reflexivity.
  - intros Hwithin.
    rewrite (described_text_substring _ sl sc el ec Hvalid Hwithin).
    now rewrite join_split_lines.
Qed.

(** C2 as stated fails twice.  An empty interior line is skipped without
    its line break: on a file of lines [ab], empty, [cd] the range from
    (1,1) to (3,2) describes four characters and two line breaks, and one
    line break is returned.  A range whose text is white space only is
    dropped: on [a b] the range from (1,2) to (1,2) describes one space, and
    nothing is returned. *)
Lemma extracted_text_differs_from_described :
  valid_range (split_lines Files.gap) 1 1 3 2
  /\ described_text (split_lines Files.gap) 1 1 3 2
     = "ab" ++ newline ++ newline ++ "cd"
  /\ extractSelectedContent Files.host "/gap" [range_text 1 1 3 2]
     = Some [ {| ContentItem.range := "L1:C1-L3:C2";
                 ContentItem.content := "ab" ++ newline ++ "cd";
                 ContentItem.lineCount := 3 |} ]
  /\ valid_range (split_lines "a b") 1 2 1 2
  /\ described_text (split_lines "a b") 1 2 1 2 = " "
  /\ extractSelectedContent Files.host "/spaced" [range_text 1 2 1 2] = Some [].
Proof.
  repeat split; try reflexivity; try (simpl; lia); discriminate.
Qed.

(** The theorem of C2 on a file of three lines, from (1,2) to (3,1). *)
Lemma extractSelectedContent_witness :
  extractSelectedContent Files.host "/dense" [range_text 1 2 3 1]
  = Some [ {| ContentItem.range := "L1:C2-L3:C1";
              ContentItem.content := "b" ++ newline ++ "cd" ++ newline ++ "e";
              ContentItem.lineCount := 3 |} ]
  /\ (columns_within (split_lines Files.dense) 1 2 3 1 ->
      described_text (split_lines Files.dense) 1 2 3 1
      = String.substring 1 6 Files.dense).
Proof.
  apply (extractSelectedContent_described_text Files.host "/dense" Files.dense
           1 2 3 1).
  - reflexivity.
  - reflexivity.
  - repeat split; simpl; lia.
  - intros n Hn. assert (n = 1 \/ n = 2) as [-> | ->] by lia; discriminate.
Defined.

(** ** Failures below the top level *)

(** C7: the extraction operations are total and degrade to the empty
    result.  A failing or empty answer of the state store is no data;
    [getOpenFiles] and [getSelections] return the empty list and
    [getActiveFile] returns [null] when the stored document is missing, does
    not parse or makes their processing throw; [extractSelectedContent]
    returns [null] for a file that is missing or unreadable; a process whose
    working directory cannot be obtained gets the empty working directory. *)
Theorem extraction_degrades_to_empty (env : Env) (ws : workspace) :
  (* the state store: a failing query, or an empty answer for a missing key *)
  (forall query,
     (exists e, execSync env (sqlite3_command (stateDbPath ws) query) = Throw e)
     \/ (exists out, execSync env (sqlite3_command (stateDbPath ws) query)
                     = Ret out
                     /\ trim out = "") ->
     queryDatabase env (stateDbPath ws) query = None)
  (* no stored document *)
  /\ (queryDatabase env (stateDbPath ws) editor_query = None ->
      getOpenFiles env ws = [] /\ getActiveFile env ws = JNull)
  /\ (queryDatabase env (stateDbPath ws) selection_query = None ->
      getSelections env ws = [])
  (* a stored document that does not parse, or anything thrown while it is
     processed *)
  /\ (forall value,
        queryDatabase env (stateDbPath ws) editor_query = Some value ->
        ((exists e, JSON_parse env value = Throw e) ->
         getOpenFiles env ws = [] /\ getActiveFile env ws = JNull)
        /\ ((exists e, open_files_of env value = Throw e) ->
            getOpenFiles env ws = [])
        /\ ((exists e, active_file_of env value = Throw e) ->
            getActiveFile env ws = JNull))
  /\ (forall value,
        queryDatabase env (stateDbPath ws) selection_query = Some value ->
        ((exists e, JSON_parse env value = Throw e) ->
         getSelections env ws = [])
        /\ ((exists e, selections_of env value = Throw e) ->
            getSelections env ws = []))
  (* a file that is missing or cannot be read *)
  /\ (forall filePath ranges,
        existsSync env filePath = false
        \/ (exists e, readFileSync env filePath = Throw e) ->
        extractSelectedContent env filePath ranges = None)
  (* a process whose working directory cannot be resolved *)
  /\ (forall pid,
        (exists e, execSync env (lsof_command pid) = Throw e) ->
        realCwd env pid = "").
Proof.
  split; [|split; [|split; [|split; [|split; [|split]]]]].
  - intros query [[e H] | (out & H & Hout)]; unfold queryDatabase;
      rewrite H; simpl; [reflexivity|]. rewrite Hout. reflexivity.
  - intros H. unfold getOpenFiles, getActiveFile. rewrite H. split; reflexivity.
  - intros H. unfold getSelections. rewrite H. reflexivity.
  - intros value H. unfold getOpenFiles, getActiveFile. rewrite H.
    split; [|split].
    + intros [e He]. unfold open_files_of, active_file_of. rewrite He.
      split; reflexivity.
    + intros [e He]. rewrite He. reflexivity.
    + intros [e He]. rewrite He. reflexivity.
  - intros value H. unfold getSelections. rewrite H. split.
    + intros [e He]. unfold selections_of. rewrite He. reflexivity.
    + intros [e He]. rewrite He. reflexivity.
  - intros filePath ranges [H | [e He]]; unfold extractSelectedContent.
    + rewrite H. reflexivity.
    + destruct (existsSync env filePath); [|reflexivity].
      simpl. rewrite He. reflexivity.
  - intros pid [e He]. unfold realCwd. rewrite He.
    destruct (truthy pid); reflexivity.
Qed.

(** A stored text that is no document gives empty results, and an editor
    whose value is missing or does not parse is skipped alone. *)
Example malformed_input_is_skipped :
  getOpenFiles Scenario.garbage Demo.repo = []
  /\ getActiveFile Scenario.garbage Demo.repo = JNull
  /\ getSelections Scenario.garbage Demo.repo = []
  /\ map summary (getOpenFiles Scenario.damaged Demo.repo)
     = [ (JStr "/repo/src/a.js", 2%nat, false) ].
Proof. repeat split; reflexivity. Qed.

(** ** Text rendering *)

Section Rendering.

Variables env1 env2 : Env.
Hypothesis Hcolours : same_colours env1 env2.
Hypothesis Hinherited : same_inherited env1 env2.

Lemma getFileLanguage_same (p : string) :
  LLMFormatter.getFileLanguage env1 p = LLMFormatter.getFileLanguage env2 p.
Proof. unfold LLMFormatter.getFileLanguage. now rewrite Hinherited. Qed.

Lemma file_content_same (f : tab) :
  same_files env1 env2 [f] -> type f = file_tab ->
  LLMFormatter.file_content env1 f = LLMFormatter.file_content env2 f.
Proof.
  intros Hfiles Hty. unfold LLMFormatter.file_content.
  destruct (path f) as [| | |p| |] eqn:Hp; try reflexivity.
  destruct (Hfiles f p (or_introl eq_refl) Hty Hp) as [-> ->].
  destruct (existsSync env2 p); [|reflexivity].
  destruct (readFileSync env2 p) as [text|e]; [|reflexivity].
  simpl. rewrite getFileLanguage_same. reflexivity.
Qed.

Lemma status_same (f : tab) : LLMFormatter.status env1 f = LLMFormatter.status env2 f.
Proof.
  unfold LLMFormatter.status.
  destruct (pinned f), (type f), (selections f) as [[|r rs]|];
    rewrite ?Hcolours; reflexivity.
Qed.

Lemma file_entry_same (options : FormatOptions.t) (f : tab) (i : nat) :
  same_files env1 env2 [f] ->
  LLMFormatter.file_entry env1 options f i = LLMFormatter.file_entry env2 options f i.
Proof.
  intros Hfiles. unfold LLMFormatter.file_entry. rewrite status_same.
  destruct (type f) eqn:Hty.
  - rewrite (file_content_same f Hfiles Hty). reflexivity.
  - rewrite !andb_false_r. reflexivity.
Qed.

Lemma same_files_cons (f : tab) (files : list tab) :
  same_files env1 env2 (f :: files) ->
  same_files env1 env2 [f] /\ same_files env1 env2 files.
Proof.
  intros H. split; intros g p Hin; apply H.
  - destruct Hin as [<- | []]. left. reflexivity.
  - right. exact Hin.
Qed.

Lemma entries_from_same (options : FormatOptions.t) (files : list tab) :
  same_files env1 env2 files ->
  forall start,
    LLMFormatter.entries_from env1 options start files
    = LLMFormatter.entries_from env2 options start files.
Proof.
  induction files as [|f files IH]; intros Hfiles start; [reflexivity|].
  apply same_files_cons in Hfiles as [Hf Hrest].
  cbn [LLMFormatter.entries_from].
  now rewrite (file_entry_same options f start Hf), (IH Hrest).
Qed.

Lemma fileList_same (files : list tab) (title : string)
  (options : FormatOptions.t) :
  same_files env1 env2 files ->
  LLMFormatter.fileList env1 files title options = LLMFormatter.fileList env2 files title options.
Proof.
  intros Hfiles. unfold LLMFormatter.fileList. destruct files as [|f files]; [reflexivity|].
  now rewrite Hcolours, (entries_from_same options (f :: files) Hfiles).
Qed.

Lemma legacy_ranges_from_same (sel : selection) (rs : list string) :
  forall start,
    LLMFormatter.legacy_ranges_from env1 sel start rs = LLMFormatter.legacy_ranges_from env2 sel start rs.
Proof.
  induction rs as [|r rs IH]; intros start; [reflexivity|].
  cbn [LLMFormatter.legacy_ranges_from].
  rewrite IH. unfold LLMFormatter.legacy_range. now rewrite getFileLanguage_same.
Qed.

Lemma selection_entry_same (options : FormatOptions.t) (total : nat)
  (sel : selection) (i : nat) :
  LLMFormatter.selection_entry env1 options total sel i
  = LLMFormatter.selection_entry env2 options total sel i.
Proof.
  unfold LLMFormatter.selection_entry. rewrite legacy_ranges_from_same, Hcolours.
  destruct (FormatOptions.legacyFormat options); [reflexivity|].
  do 2 f_equal. f_equal.
  destruct (content sel) as [items|]; f_equal.
  - apply map_ext. intros item. f_equal. apply map_ext. intros line.
    apply Hcolours.
  - apply map_ext. intros r. apply Hcolours.
Qed.

Lemma selections_same (sels : list selection) (options : FormatOptions.t) :
  LLMFormatter.selections env1 sels options = LLMFormatter.selections env2 sels options.
Proof.
  unfold LLMFormatter.selections. destruct sels as [|s sels]; [reflexivity|].
  assert (forall total start l,
            LLMFormatter.selection_entries_from env1 options total start l
            = LLMFormatter.selection_entries_from env2 options total start l) as H.
  { intros total start l. revert start.
    induction l as [|x l IH]; intros start; [reflexivity|].
    cbn [LLMFormatter.selection_entries_from].
    now rewrite selection_entry_same, IH. }
  now rewrite H.
Qed.

Lemma same_files_shown (options : FormatOptions.t) (files : list tab) :
  same_files env1 env2 files -> same_files env1 env2 (LLMFormatter.shown options files).
Proof.
  intros H f p Hin. apply H. unfold LLMFormatter.shown in Hin.
  destruct (FormatOptions.includeTerminals options); [exact Hin|].
  apply filter_In in Hin. apply Hin.
Qed.

Lemma raw_same (data : Context.t) (options : FormatOptions.t) :
  same_files env1 env2 (Context.openFiles data) ->
  same_files env1 env2 (Context.pinnedFiles data) ->
  LLMFormatter.raw env1 data options = LLMFormatter.raw env2 data options.
Proof.
  intros Hopen Hpinned. unfold LLMFormatter.raw.
  unfold LLMFormatter.open_section, LLMFormatter.pinned_section,
    LLMFormatter.selections_section, LLMFormatter.total_open,
    LLMFormatter.total_pinned, LLMFormatter.total_selected,
    LLMFormatter.workspace.
  rewrite !Hcolours, selections_same.
  rewrite (fileList_same _ "OPEN_EDITORS" _ (same_files_shown options _ Hopen)).
  rewrite (fileList_same _ "PINNED_EDITORS" _
             (same_files_shown options _ Hpinned)).
  reflexivity.
Qed.

End Rendering.

(** C8 as stated (the text depends on the snapshot and the options only)
    fails: [raw] prints the content of a pinned file as it is on disk when
    the text is rendered, so one snapshot renders differently over two
    disks. *)
Lemma rendering_reads_files_at_render_time :
  split_lines (LLMFormatter.raw (Rendered.disk "first") Rendered.pinned_readme
                 Rendered.defaults)
  = [ "=== VS CODE RAW CONTEXT ==="; "WORKSPACE: /repo"; "WORKSPACE_ID: w1";
      ""; "OPEN_EDITORS:"; "  1. /repo/README.md [PINNED]";
      "     ```markdown"; "     first"; "     ```"; "";
      "TOTAL_OPEN: 1"; "TOTAL_PINNED: 1"; "=== END RAW CONTEXT ==="; "" ]
  /\ split_lines (LLMFormatter.raw (Rendered.disk "second")
                    Rendered.pinned_readme Rendered.defaults)
     = [ "=== VS CODE RAW CONTEXT ==="; "WORKSPACE: /repo"; "WORKSPACE_ID: w1";
         ""; "OPEN_EDITORS:"; "  1. /repo/README.md [PINNED]";
         "     ```markdown"; "     second"; "     ```"; "";
         "TOTAL_OPEN: 1"; "TOTAL_PINNED: 1"; "=== END RAW CONTEXT ==="; "" ]
  /\ (LLMFormatter.raw (Rendered.disk "first") Rendered.pinned_readme
        Rendered.defaults
      =? LLMFormatter.raw (Rendered.disk "second") Rendered.pinned_readme
           Rendered.defaults)%string = false.
Proof. repeat split; reflexivity. Qed.

(** C8, as amended: the rendered text is determined by the snapshot, the
    options, the colour level and the files at the paths of the listed file
    tabs: two hosts that agree on these render [raw], [fileList],
    [selections] and [workspace] alike. *)
Theorem rendering_determined_by_snapshot_options_and_files
  (env1 env2 : Env) (data : Context.t) (options : FormatOptions.t) :
  same_colours env1 env2 ->
  same_inherited env1 env2 ->
  same_files env1 env2 (Context.openFiles data) ->
  same_files env1 env2 (Context.pinnedFiles data) ->
  LLMFormatter.raw env1 data options = LLMFormatter.raw env2 data options
  /\ (forall title,
        LLMFormatter.fileList env1 (Context.openFiles data) title options
        = LLMFormatter.fileList env2 (Context.openFiles data) title options)
  /\ (forall title,
        LLMFormatter.fileList env1 (Context.pinnedFiles data) title options
        = LLMFormatter.fileList env2 (Context.pinnedFiles data) title options)
  /\ LLMFormatter.selections env1 (Context.selections data) options
     = LLMFormatter.selections env2 (Context.selections data) options
  /\ LLMFormatter.workspace env1 (Context.workspace data)
     = LLMFormatter.workspace env2 (Context.workspace data).
Proof.
  intros Hc Hi Hopen Hpinned.
  split; [apply raw_same; assumption|].
  split; [intros title; apply fileList_same; assumption|].
  split; [intros title; apply fileList_same; assumption|].
  split; [apply selections_same; assumption|].
  unfold LLMFormatter.workspace. now rewrite !Hc.
Qed.

(** The theorem of C8 over two disks that differ in a file no tab lists. *)
Lemma rendering_determined_witness :
  LLMFormatter.raw (Rendered.disk "first") Rendered.pinned_readme
    Rendered.defaults
  = LLMFormatter.raw (Demo.host [] [] ["w1"] [("/repo/README.md", "first");
                                              ("/repo/other.txt", "x")])
      Rendered.pinned_readme Rendered.defaults
  /\ (forall title,
        LLMFormatter.fileList (Rendered.disk "first")
          (Context.openFiles Rendered.pinned_readme) title Rendered.defaults
        = LLMFormatter.fileList
            (Demo.host [] [] ["w1"] [("/repo/README.md", "first");
                                     ("/repo/other.txt", "x")])
            (Context.openFiles Rendered.pinned_readme) title Rendered.defaults)
  /\ (forall title,
        LLMFormatter.fileList (Rendered.disk "first")
          (Context.pinnedFiles Rendered.pinned_readme) title Rendered.defaults
        = LLMFormatter.fileList
            (Demo.host [] [] ["w1"] [("/repo/README.md", "first");
                                     ("/repo/other.txt", "x")])
            (Context.pinnedFiles Rendered.pinned_readme) title Rendered.defaults)
  /\ LLMFormatter.selections (Rendered.disk "first")
       (Context.selections Rendered.pinned_readme) Rendered.defaults
     = LLMFormatter.selections
         (Demo.host [] [] ["w1"] [("/repo/README.md", "first");
                                  ("/repo/other.txt", "x")])
         (Context.selections Rendered.pinned_readme) Rendered.defaults
  /\ LLMFormatter.workspace (Rendered.disk "first")
       (Context.workspace Rendered.pinned_readme)
     = LLMFormatter.workspace
         (Demo.host [] [] ["w1"] [("/repo/README.md", "first");
                                  ("/repo/other.txt", "x")])
         (Context.workspace Rendered.pinned_readme).
Proof.
  apply (rendering_determined_by_snapshot_options_and_files
           (Rendered.disk "first")
           (Demo.host [] [] ["w1"] [("/repo/README.md", "first");
                                    ("/repo/other.txt", "x")])
           Rendered.pinned_readme Rendered.defaults).
  - intros st text. reflexivity.
  - intros name. reflexivity.
  - intros f p [<- | []] _ [= <-]. split; reflexivity.
  - intros f p [<- | []] _ [= <-]. split; reflexivity.
Defined.

(** C9 as stated (every count line is left out at zero, the open count
    included) fails: in smart mode, with nothing open, the line
    [TOTAL_OPEN: 0] is printed. *)
Lemma open_count_line_printed_at_zero :
  LLMFormatter.smart Rendered.defaults = true
  /\ LLMFormatter.shown Rendered.defaults
       (Context.openFiles Rendered.nothing_open) = []
  /\ split_lines (LLMFormatter.raw (Rendered.disk "") Rendered.nothing_open
                    Rendered.defaults)
     = [ "=== VS CODE RAW CONTEXT ==="; "WORKSPACE: /repo"; "WORKSPACE_ID: w1";
         ""; "OPEN_EDITORS: none"; ""; "TOTAL_OPEN: 0";
         "=== END RAW CONTEXT ==="; "" ].
Proof. repeat split; reflexivity. Qed.

Lemma join_cons_prefix (sep x : string) (rest : list string) :
  exists tail, join sep (x :: rest) = x ++ tail.
Proof.
  destruct rest as [|y rest]; simpl.
  - exists "". now rewrite app_empty_r.
  - eexists. reflexivity.
Qed.

(** The listing holds the entry of each of its files, at the file's index. *)
Lemma entries_from_nth (env : Env) (options : FormatOptions.t)
  (files : list tab) :
  forall start i f,
    nth_error files i = Some f ->
    exists before after,
      LLMFormatter.entries_from env options start files
      = before ++ LLMFormatter.file_entry env options f (start + i) ++ after.
Proof.
  induction files as [|g files IH]; intros start [|i] f H; try discriminate.
  - injection H as ->. exists "", (LLMFormatter.entries_from env options (S start) files).
    rewrite Nat.add_0_r. reflexivity.
  - destruct (IH (S start) i f H) as (before & after & Heq).
    exists (LLMFormatter.file_entry env options g start ++ before), after.
    cbn [LLMFormatter.entries_from]. rewrite Heq, app_assoc_str.
    now rewrite Nat.add_succ_r.
Qed.

Lemma fileList_nth (env : Env) (options : FormatOptions.t) (title : string)
  (files : list tab) (i : nat) (f : tab) :
  nth_error files i = Some f ->
  exists before after,
    LLMFormatter.fileList env files title options
    = before ++ LLMFormatter.file_entry env options f i ++ after.
Proof.
  intros H. destruct (entries_from_nth env options files 0 i f H)
    as (before & after & Heq).
  unfold LLMFormatter.fileList.
  destruct files as [|g files]; [destruct i; discriminate|].
  rewrite Heq.
  exists (chalk env gray (title ++ ":") ++ newline ++ before), after.
  now rewrite !app_assoc_str.
Qed.

(** C9, as amended: in smart mode [raw] prints no pinned section, every
    pinned tab of the open listing is annotated [[PINNED]] on its own line,
    the count lines of pinned tabs and of selections are left out at zero,
    and the open count line is always printed. *)
Theorem smart_mode_rendering (env : Env) (data : Context.t)
  (options : FormatOptions.t) :
  LLMFormatter.smart options = true ->
  (* no separate pinned section *)
  LLMFormatter.raw env data options
  = chalk env blue "=== VS CODE RAW CONTEXT ===" ++ newline
    ++ LLMFormatter.workspace env (Context.workspace data)
    ++ newline
    ++ LLMFormatter.fileList env
         (LLMFormatter.shown options (Context.openFiles data))
         "OPEN_EDITORS" (LLMFormatter.with_pinned_content options)
    ++ newline
    ++ LLMFormatter.selections_section env data options
    ++ (chalk env gray "TOTAL_OPEN:" ++ " "
        ++ string_of_nat
             (List.length (LLMFormatter.shown options (Context.openFiles data)))
        ++ newline)
    ++ LLMFormatter.total_pinned env data options
    ++ LLMFormatter.total_selected env data
    ++ chalk env blue "=== END RAW CONTEXT ===" ++ newline
  (* a pinned tab is annotated on its own line of the listing *)
  /\ (forall i f,
        nth_error (LLMFormatter.shown options (Context.openFiles data)) i
        = Some f ->
        pinned f = true ->
        exists before rest,
          LLMFormatter.fileList env
            (LLMFormatter.shown options (Context.openFiles data))
            "OPEN_EDITORS" (LLMFormatter.with_pinned_content options)
          = before
            ++ ("  " ++ string_of_nat (i + 1) ++ ". " ++ to_string (path f)
                ++ " " ++ chalk env yellow "[PINNED]")
            ++ rest)
  (* the counts of pinned tabs and of selections are left out at zero *)
  /\ (LLMFormatter.shown options (Context.pinnedFiles data) = [] ->
      LLMFormatter.total_pinned env data options = "")
  /\ (Context.selections data = [] ->
      LLMFormatter.total_selected env data = ""
      /\ LLMFormatter.selections_section env data options = "").
Proof.
  intros Hsmart. split; [|split; [|split]].
  - unfold LLMFormatter.raw, LLMFormatter.open_section,
      LLMFormatter.pinned_section, LLMFormatter.total_open.
    rewrite Hsmart. cbn [negb andb]. cbn [append].
    rewrite !app_assoc_str. reflexivity.
  - intros i f Hnth Hpinned.
    destruct (fileList_nth env (LLMFormatter.with_pinned_content options)
                "OPEN_EDITORS" _ i f Hnth) as (before & after & ->).
    unfold LLMFormatter.file_entry, LLMFormatter.status.
    rewrite Hpinned. cbn [app].
    match goal with
    | |- context [join " " (?x :: ?l)] =>
        destruct (join_cons_prefix " " x l) as [tail ->]
    end.
    eexists before, _. rewrite !app_assoc_str. reflexivity.
  - intros H. unfold LLMFormatter.total_pinned. rewrite H. reflexivity.
  - intros H. unfold LLMFormatter.total_selected,
      LLMFormatter.selections_section. rewrite H.
    split; [reflexivity|].
    unfold LLMFormatter.selections.
    rewrite String.eqb_refl, andb_false_r. reflexivity.
Qed.

(** The theorem of C9 at a snapshot with one pinned tab. *)
Lemma smart_mode_witness :
  split_lines (LLMFormatter.raw (Rendered.disk "first") Rendered.pinned_readme
                 Rendered.defaults)
  = [ "=== VS CODE RAW CONTEXT ==="; "WORKSPACE: /repo"; "WORKSPACE_ID: w1";
      ""; "OPEN_EDITORS:"; "  1. /repo/README.md [PINNED]";
      "     ```markdown"; "     first"; "     ```"; "";
      "TOTAL_OPEN: 1"; "TOTAL_PINNED: 1"; "=== END RAW CONTEXT ==="; "" ].
Proof.
  rewrite (proj1 (smart_mode_rendering (Rendered.disk "first")
                    Rendered.pinned_readme Rendered.defaults eq_refl)).
  reflexivity.
Defined.

(** * Further properties *)

(** ** The grid of editor groups *)

Section Grid.

Context {A B : Type}.

Lemma for_of_app (body : A -> Exc (list B)) (l1 l2 : list A) :
  for_of body (l1 ++ l2)%list
  = (ys <- for_of body l1;; zs <- for_of body l2;; Ret (ys ++ zs)%list).
Proof.
  induction l1 as [|x l1 IH]; simpl.
  - destruct (for_of body l2); reflexivity.
  - destruct (body x) as [ys|e]; simpl; [|reflexivity].
    rewrite IH.
    destruct (for_of body l1) as [zs|e]; simpl; [|reflexivity].
    destruct (for_of body l2) as [ws|e]; simpl; [|reflexivity].
    now rewrite app_assoc.
Qed.

Lemma for_of_throws (body : A -> Exc (list B)) (l : list A) (x : A)
  (e : error) :
  In x l -> body x = Throw e -> exists e', for_of body l = Throw e'.
Proof.
  intros Hin Hx. induction l as [|y l IH]; [destruct Hin|].
  simpl. destruct Hin as [->|Hin].
  - rewrite Hx. now exists e.
  - destruct (body y) as [ys|e1]; simpl; [|now exists e1].
    destruct (IH Hin) as (e' & ->). now exists e'.
Qed.

Lemma forEach_from_throws (body : A -> nat -> Exc (list B)) (l : list A)
  (x : A) (e : error) :
  In x l -> (forall i, body x i = Throw e) ->
  forall start, exists e', forEach_from body start l = Throw e'.
Proof.
  intros Hin Hx. induction l as [|y l IH]; [destruct Hin|].
  intros start. simpl. destruct Hin as [->|Hin].
  - rewrite Hx. now exists e.
  - destruct (body y start) as [ys|e1]; simpl; [|now exists e1].
    destruct (IH Hin (S start)) as (e' & ->). now exists e'.
Qed.

End Grid.

Lemma process_group_branch (env : Env) (recur : json -> Exc (list tab))
  (group inner : json) :
  prop "type" group = Some (JStr "branch") ->
  prop "data" group = Some inner ->
  truthy (Some inner) = true ->
  process_group env recur group = recur inner.
Proof.
  intros Hty Hd Htr.
  rewrite (process_group_typed env recur group _ Hty).
  rewrite !with_data_prop, !Hd, Htr. reflexivity.
Qed.

Lemma process_group_leaf (env : Env) (recur : json -> Exc (list tab))
  (group gdata : json) :
  prop "type" group = Some (JStr "leaf") ->
  prop "data" group = Some gdata ->
  truthy (prop "editors" gdata) = true ->
  process_group env recur group = process_leaf env gdata.
Proof.
  intros Hty Hd Htr.
  rewrite (process_group_typed env recur group _ Hty).
  rewrite !with_data_prop, !Hd.
  replace (qdot (Some gdata) "editors") with (prop "editors" gdata)
    by (destruct gdata; reflexivity).
  rewrite Htr. reflexivity.
Qed.

(** X1.  The nesting of the grid does not show in the list of open tabs: a
    branch group stands for the groups it holds, in their place. *)
Theorem branch_groups_are_flattened (env : Env) (pre post inner : list json)
  (b : json) :
  prop "type" b = Some (JStr "branch") ->
  prop "data" b = Some (JArr inner) ->
  processGridData env (JArr (pre ++ b :: post))
  = processGridData env (JArr (pre ++ inner ++ post)).
Proof.
  intros Hty Hd.
  rewrite !processGridData_eq, !for_of_app.
  destruct (for_of _ pre) as [ys|e]; simpl; [|reflexivity].
  rewrite (process_group_branch env _ b (JArr inner) Hty Hd eq_refl).
  rewrite processGridData_eq.
  destruct (for_of _ inner) as [ws|e]; simpl; [|reflexivity].
  reflexivity.
Qed.

(** X1 at the nested scenario: the leaf inside the branch and the leaf at the
    top give the same tabs. *)
Lemma branch_groups_are_flattened_witness :
  processGridData Scenario.nested
    (JArr ([] ++ Demo.branch [Demo.leaf Scenario.nested_group] :: []))
  = processGridData Scenario.nested
      (JArr ([] ++ [Demo.leaf Scenario.nested_group] ++ [])).
Proof.
  apply (branch_groups_are_flattened Scenario.nested [] []
           [Demo.leaf Scenario.nested_group]
           (Demo.branch [Demo.leaf Scenario.nested_group]));
    reflexivity.
Defined.

Lemma leaf_throw_reaches_grid (env : Env) (gdata data : json) :
  leaf_in gdata data ->
  forall e, process_leaf env gdata = Throw e ->
  exists e', processGridData env data = Throw e'.
Proof.
  induction 1 as [groups group Hin Hty Hd Htr
                 |groups group inner Hin Hty Hd Hleaf IH]; intros e He.
  - rewrite processGridData_eq.
    apply (for_of_throws _ groups group e Hin).
    now rewrite (process_group_leaf env _ group gdata Hty Hd Htr).
  - destruct (IH e He) as (e' & He').
    rewrite processGridData_eq.
    apply (for_of_throws _ groups group e' Hin).
    rewrite (process_group_branch env _ group inner Hty Hd); [exact He'|].
    destruct Hleaf; reflexivity.
Qed.

(** X2.  One unreadable entry costs every tab: a [null] among the groups of
    the grid, or a [null] among the editors of a leaf that is reached, makes
    [getOpenFiles] answer the empty list, whatever the other groups hold. *)
Theorem null_entry_discards_every_tab (env : Env) (ws : workspace)
  (value : string) (editorState : json) (groups : list json) :
  queryDatabase env (stateDbPath ws) editor_query = Some value ->
  JSON_parse env value = Ret editorState ->
  gridData editorState = Ret (Some (JArr groups)) ->
  (In JNull groups
   \/ exists gdata editors,
        leaf_in gdata (JArr groups)
        /\ prop "editors" gdata = Some (JArr editors)
        /\ In JNull editors) ->
  getOpenFiles env ws = [].
Proof.
  intros Hq Hp Hg Hnull.
  assert (exists e, processGridData env (JArr groups) = Throw e) as (e & He).
  { destruct Hnull as [Hin|(gdata & editors & Hleaf & Hed & Hin)].
    - rewrite processGridData_eq.
      apply (for_of_throws _ groups JNull TypeError Hin). reflexivity.
    - destruct (forEach_from_throws
                  (editor_callback env gdata (prop "sticky" gdata))
                  editors JNull TypeError Hin (fun _ => eq_refl) 0%nat)
        as (e' & He').
      apply (leaf_throw_reaches_grid env gdata _ Hleaf e').
      unfold process_leaf. rewrite Hed. exact He'. }
  unfold getOpenFiles, open_files_of.
  rewrite Hq, Hp. cbn [bind]. rewrite Hg. cbn [bind]. rewrite He. reflexivity.
Qed.


(** X2 at a grid whose second group is [null]: the two tabs of the first
    group are lost. *)
Lemma null_entry_discards_every_tab_witness :
  getOpenFiles Poisoned.host Demo.repo = []
  /\ List.length (getOpenFiles Scenario.boundary Demo.repo) = 2%nat.
Proof.
  split; [|reflexivity].
  apply (null_entry_discards_every_tab Poisoned.host Demo.repo "<layout>"
           (Demo.layout (JNum 1) Poisoned.groups) Poisoned.groups);
    [reflexivity | reflexivity | reflexivity |].
  left. right. left. reflexivity.
Defined.

(** ** The tabs of one group *)

Lemma editor_entry_shape (env : Env) (gdata : json) (sticky : jsval)
  (editor : json) (value : jsval) (i : nat) (ts : list tab) :
  editor_entry env gdata sticky editor value i = Ret ts ->
  ts = [] \/ exists t, ts = [t] /\ index t = i /\ recorded_tab t.
Proof.
  unfold editor_entry.
  destruct (strict_eq _ _).
  - destruct (JSON_parse env _) as [d|]; cbn [bind]; [|discriminate].
    destruct (dot (Some d) "resourceJSON") as [r|]; cbn [bind]; [|discriminate].
    destruct (qdot r "fsPath") as [fp|]; [|intros [= <-]; now left].
    destruct (truthy (Some fp)) eqn:Htr; intros [= <-]; [right|now left].
    eexists. split; [reflexivity|]. split; [reflexivity|].
    split; [reflexivity|]. cbn [type path metadata]. now split.
  - destruct (strict_eq _ _); [|intros [= <-]; now left].
    destruct (JSON_parse env _) as [d|]; cbn [bind]; [|discriminate].
    destruct (dot (Some d) "pid") as [pid|]; cbn [bind]; [|discriminate].
    intros [= <-]. right.
    eexists. split; [reflexivity|]. split; [reflexivity|].
    split; [reflexivity|]. cbn [type path metadata].
    split; [eexists; reflexivity | discriminate].
Qed.

Lemma editor_callback_shape (env : Env) (gdata : json) (sticky : jsval)
  (editor : json) (i : nat) (ts : list tab) :
  editor_callback env gdata sticky editor i = Ret ts ->
  ts = [] \/ exists t, ts = [t] /\ index t = i /\ recorded_tab t.
Proof.
  unfold editor_callback.
  destruct (dot (Some editor) "value") as [value|]; cbn [bind]; [|discriminate].
  destruct (truthy value); [|intros [= <-]; now left].
  intros [= <-].
  destruct (editor_entry env gdata sticky editor value i) as [ys|e] eqn:He;
    cbn [catch]; [|now left].
  exact (editor_entry_shape env gdata sticky editor value i ys He).
Qed.

Lemma forEach_from_increasing (env : Env) (gdata : json) (sticky : jsval)
  (editors : list json) :
  forall (start : nat) (ts : list tab),
  forEach_from (editor_callback env gdata sticky) start editors = Ret ts ->
  increasing_indices ts
  /\ forall t, In t ts ->
       (start <= index t < start + List.length editors)%nat.
Proof.
  induction editors as [|x editors IH]; intros start ts.
  - simpl. intros [= <-]. split.
    + intros i j t u Ht. destruct i; discriminate.
    + intros t [].
  - cbn [forEach_from].
    destruct (editor_callback env gdata sticky x start) as [ys|] eqn:Hx;
      cbn [bind]; [|discriminate].
    destruct (forEach_from _ (S start) editors) as [zs|] eqn:Hrest;
      cbn [bind]; [|discriminate].
    intros [= <-].
    destruct (IH (S start) zs Hrest) as (Hinc & Hbound).
    assert (forall t, In t zs ->
              (start <= index t < start + List.length (x :: editors))%nat)
      as Hbound'.
    { intros t Ht. specialize (Hbound t Ht). simpl. lia. }
    destruct (editor_callback_shape env gdata sticky x start ys Hx)
      as [->|(t0 & -> & Hi & _)]; [now split|].
    split.
    + intros i j t u Ht Hu Hij.
      destruct j as [|j]; [lia|]. cbn in Hu.
      apply nth_error_In in Hu as Hin. specialize (Hbound u Hin).
      destruct i as [|i]; cbn in Ht.
      * injection Ht as <-. lia.
      * apply (Hinc i j t u Ht Hu). lia.
    + intros t [<-|Ht]; [simpl; lia | now apply Hbound'].
Qed.

(** X3.  The tabs of a group come in the order of its editors: their
    indices increase strictly and stay below the number of editors, so no
    editor gives two tabs. *)
Theorem leaf_tabs_keep_editor_order (env : Env) (gdata : json)
  (ts : list tab) :
  process_leaf env gdata = Ret ts ->
  exists editors,
    prop "editors" gdata = Some (JArr editors)
    /\ increasing_indices ts
    /\ forall t, In t ts -> (index t < List.length editors)%nat.
Proof.
  unfold process_leaf, forEach.
  destruct (prop "editors" gdata) as [[| | | |editors|]|]; try discriminate.
  intros Hts. exists editors. split; [reflexivity|].
  destruct (forEach_from_increasing env gdata _ editors 0%nat ts Hts)
    as (Hinc & Hbound).
  split; [exact Hinc|]. intros t Ht. specialize (Hbound t Ht). lia.
Qed.

(** X3 at the group of the selection scenario: two files and a terminal. *)
Lemma leaf_tabs_keep_editor_order_witness :
  map index (getOpenFiles Selected.host Demo.repo) = [0; 1; 2]%nat
  /\ exists editors,
       prop "editors" (JObj Selected.group) = Some (JArr editors)
       /\ increasing_indices (getOpenFiles Selected.host Demo.repo)
       /\ forall t, In t (getOpenFiles Selected.host Demo.repo) ->
            (index t < List.length editors)%nat.
Proof.
  split; [reflexivity|].
  apply (leaf_tabs_keep_editor_order Selected.host (JObj Selected.group)
           (getOpenFiles Selected.host Demo.repo)).
  reflexivity.
Defined.

Lemma pinned_flag_downward (env : Env) (sticky : jsval) (i j : nat) :
  (i <= j)%nat ->
  pinned_flag env sticky j = true -> pinned_flag env sticky i = true.
Proof.
  intros Hij. unfold pinned_flag.
  destruct (negb (strict_eq sticky (Some JNull)) && negb (strict_eq sticky None));
    [|discriminate].
  cbn [andb]. destruct sticky as [v|]; [|discriminate].
  unfold num_le. destruct (to_number _ v) as [n|]; [|discriminate].
  intros H. apply Z.leb_le in H. apply Z.leb_le. lia.
Qed.

(** X4.  Within a group the pinned tabs come first: a tab before a pinned tab
    is pinned as well, whatever value the group records as [sticky]. *)
Theorem pinned_tabs_come_first (env : Env) (gdata : json) (ts : list tab)
  (t u : tab) :
  process_leaf env gdata = Ret ts ->
  In t ts -> In u ts ->
  (index t <= index u)%nat ->
  pinned u = true -> pinned t = true.
Proof.
  intros Hts Ht Hu Hle Hpin.
  destruct (process_leaf_tab env gdata ts t Hts Ht) as (_ & _ & _ & _ & _ & ->).
  destruct (process_leaf_tab env gdata ts u Hts Hu)
    as (_ & _ & _ & _ & _ & Hpu).
  rewrite Hpu in Hpin.
  exact (pinned_flag_downward env _ _ _ Hle Hpin).
Qed.

(** X4 at the boundary scenario: [a.js] at index 1 is pinned, hence
    [README.md] at index 0. *)
Lemma pinned_tabs_come_first_witness :
  pinned (nth 0 (getOpenFiles Scenario.boundary Demo.repo) Rendered.readme)
  = true.
Proof.
  apply (pinned_tabs_come_first Scenario.boundary
           (JObj Scenario.boundary_group)
           (getOpenFiles Scenario.boundary Demo.repo)
           (nth 0 (getOpenFiles Scenario.boundary Demo.repo) Rendered.readme)
           (nth 1 (getOpenFiles Scenario.boundary Demo.repo) Rendered.readme)).
  - reflexivity.
  - left. reflexivity.
  - right. left. reflexivity.
  - vm_compute. lia.
  - reflexivity.
Defined.

Lemma process_leaf_recorded (env : Env) (gdata : json) (ts : list tab)
  (t : tab) :
  process_leaf env gdata = Ret ts -> In t ts -> recorded_tab t.
Proof.
  unfold process_leaf, forEach.
  destruct (prop "editors" gdata) as [[| | | |editors|]|]; try discriminate.
  intros Hts Ht.
  apply (forEach_from_In _ editors 0%nat ts Hts) in Ht
    as (i & x & ys & _ & Hx & Hy).
  destruct (editor_callback_shape env gdata _ x _ ys Hx)
    as [->|(t0 & -> & _ & Hrec)]; [destruct Hy|].
  destruct Hy as [<-|[]]. exact Hrec.
Qed.

Lemma open_files_recorded (env : Env) (ws : workspace) (t : tab) :
  In t (getOpenFiles env ws) -> recorded_tab t.
Proof.
  intros Ht.
  destruct (getOpenFiles_tab env ws t Ht)
    as (value & editorState & data & ts & _ & _ & _ & Hts & Heq).
  rewrite Heq in Ht.
  destruct (processGridData_tab env data ts t Hts Ht)
    as (gdata & ys & _ & Hys & Hin).
  exact (process_leaf_recorded env gdata ys t Hys Hin).
Qed.

(** X5.  What [getOpenFiles] reports of a tab agrees with its kind: a file
    tab has a truthy path and no metadata, a terminal tab has metadata and a
    path that starts with [Terminal: ]; no tab carries selections yet. *)
Theorem open_tabs_are_files_or_terminals (env : Env) (ws : workspace) :
  Forall recorded_tab (getOpenFiles env ws).
Proof.
  apply Forall_forall. intros t. apply open_files_recorded.
Qed.

(** ** The active file *)

Lemma find_active_step (env : Env) (activeGroup : jsval) (group : json)
  (rest : list json) :
  group <> JNull ->
  find_active env activeGroup (group :: rest)
  = if is_active_leaf activeGroup group
    then active_editor_path env group
    else find_active env activeGroup rest.
Proof.
  intros Hnull. cbn [find_active]. unfold is_active_leaf.
  destruct group; try reflexivity. now destruct Hnull.
Qed.

Lemma is_active_leaf_not_null (activeGroup : jsval) (group : json) :
  is_active_leaf activeGroup group = true -> group <> JNull.
Proof. intros H ->. discriminate. Qed.

(** X6.  The active file is read from the first group of the grid that is a
    leaf with the id of the active group: what that group shows is the
    answer, and no group after it is looked at. *)
Theorem active_file_read_from_first_matching_leaf (env : Env)
  (activeGroup : jsval) (before after : list json) (group : json) :
  (forall g, In g before -> g <> JNull /\ is_active_leaf activeGroup g = false) ->
  is_active_leaf activeGroup group = true ->
  find_active env activeGroup (before ++ group :: after)
  = active_editor_path env group.
Proof.
  intros Hbefore Hgroup.
  induction before as [|g before IH].
  - cbn [app].
    rewrite (find_active_step env _ _ _ (is_active_leaf_not_null _ _ Hgroup)).
    now rewrite Hgroup.
  - cbn [app]. destruct (Hbefore g (or_introl eq_refl)) as (Hnull & Hno).
    rewrite (find_active_step env _ _ _ Hnull), Hno.
    apply IH. intros g' Hg'. apply Hbefore. now right.
Qed.

(** X6 at a grid of three entries: another group, the active group, and a
    [null] that is never reached. *)
Lemma active_file_read_from_first_matching_leaf_witness :
  find_active Selected.host (Some (JNum 1))
    ([Demo.leaf Scenario.nested_group] ++ Demo.leaf Selected.group :: [JNull])
  = active_editor_path Selected.host (Demo.leaf Selected.group)
  /\ active_editor_path Selected.host (Demo.leaf Selected.group)
     = Ret (JStr "/repo/src/a.js").
Proof.
  split; [|reflexivity].
  apply (active_file_read_from_first_matching_leaf Selected.host
           (Some (JNum 1)) [Demo.leaf Scenario.nested_group] [JNull]
           (Demo.leaf Selected.group)).
  - intros g [<-|[]]. split; [discriminate | reflexivity].
  - reflexivity.
Defined.

Lemma string_of_nat_injective (i k : nat) :
  string_of_nat i = string_of_nat k -> i = k.
Proof.
  unfold string_of_nat. intros H.
  apply (f_equal parseInt) in H.
  rewrite !parseInt_number in H by lia. lia.
Qed.

Lemma find_in_seq (f : nat -> bool) (k : nat) :
  f k = true ->
  (forall i, (i < k)%nat -> f i = false) ->
  forall (len start : nat),
  (start <= k < start + len)%nat ->
  find f (seq start len) = Some k.
Proof.
  intros Hk Hbefore. induction len as [|len IH]; intros start Hrange; [lia|].
  cbn [seq find].
  destruct (Nat.eq_dec start k) as [->|Hne]; [now rewrite Hk|].
  rewrite Hbefore by lia. apply IH. lia.
Qed.

Lemma array_index_self (k len : nat) :
  (k < len)%nat -> array_index (string_of_nat k) len = Some k.
Proof.
  intros Hk. unfold array_index.
  apply find_in_seq; [apply String.eqb_refl | | lia].
  intros i Hi. apply String.eqb_neq. intros H.
  apply string_of_nat_injective in H. lia.
Qed.

(** X7.  Within the active group the file shown is the most recently used
    editor: the editor at the index that heads [mru], when it is a file
    editor whose stored value names a path. *)
Theorem active_file_is_most_recently_used (env : Env) (group gdata : json)
  (k : nat) (others editors : list json) (editor : json)
  (value fsPath : string) (doc resource : json) :
  prop "data" group = Some gdata ->
  prop "mru" gdata = Some (JArr (JNum (Z.of_nat k) :: others)) ->
  prop "editors" gdata = Some (JArr editors) ->
  nth_error editors k = Some editor ->
  prop "id" editor = Some (JStr fileEditorInput) ->
  prop "value" editor = Some (JStr value) ->
  value <> "" ->
  JSON_parse env value = Ret doc ->
  prop "resourceJSON" doc = Some resource ->
  prop "fsPath" resource = Some (JStr fsPath) ->
  fsPath <> "" ->
  active_editor_path env group = Ret (JStr fsPath).
Proof.
  intros Hd Hmru Hed Hnth Hid Hval Hvalue Hparse Hres Hfs Hpath.
  assert (k < List.length editors)%nat as Hk
    by (apply nth_error_Some; congruence).
  unfold active_editor_path. rewrite Hd.
  assert (dot (Some gdata) "mru" = Ret (prop "mru" gdata)) as ->
    by (destruct gdata; try reflexivity; discriminate).
  assert (dot (Some gdata) "editors" = Ret (prop "editors" gdata)) as ->
    by (destruct gdata; try reflexivity; discriminate).
  cbn [bind]. rewrite Hmru, Hed.
  replace (qindex (or_else (Some (JArr (JNum (Z.of_nat k) :: others)))
                           (Some (JArr []))) "0")
    with (Some (JNum (Z.of_nat k))) by reflexivity.
  replace (template (Some (JNum (Z.of_nat k)))) with (string_of_nat k)
    by reflexivity.
  assert (qindex (Some (JArr editors)) (string_of_nat k) = Some editor) as ->.
  { cbn [qindex index_get]. now rewrite (array_index_self k _ Hk). }
  assert (truthy (Some editor) = true) as ->
    by (destruct editor; try reflexivity; discriminate).
  rewrite Hid, Hval.
  replace (strict_eq (Some (JStr fileEditorInput)) (Some (JStr fileEditorInput)))
    with true by reflexivity.
  assert (truthy (Some (JStr value)) = true) as ->.
  { cbn [truthy]. destruct (String.eqb_spec value ""); [contradiction|reflexivity]. }
  cbn [negb andb strict_eq template to_string]. rewrite Hparse. cbn [bind].
  assert (dot (Some doc) "resourceJSON" = Ret (Some resource)) as ->
    by (destruct doc; try discriminate; cbn [dot]; now rewrite Hres).
  cbn [bind].
  assert (qdot (Some resource) "fsPath" = Some (JStr fsPath)) as ->
    by (destruct resource; try discriminate; exact Hfs).
  unfold or_null, or_else. cbn [truthy].
  destruct (String.eqb_spec fsPath ""); [contradiction|reflexivity].
Qed.

(** X7 at the group of the selection scenario, whose [mru] is headed by 1:
    [a.js], the editor at index 1. *)
Lemma active_file_is_most_recently_used_witness :
  active_editor_path Selected.host (Demo.leaf Selected.group)
  = Ret (JStr "/repo/src/a.js").
Proof.
  apply (active_file_is_most_recently_used Selected.host
           (Demo.leaf Selected.group) (JObj Selected.group) 1 [JNum 0]
           [Demo.file_editor "<README.md>"; Demo.file_editor "<a.js>";
            Demo.terminal_editor "<zsh>"]
           (Demo.file_editor "<a.js>") "<a.js>" "/repo/src/a.js"
           (Demo.file_value "/repo/src/a.js")
           (JObj [("fsPath", JStr "/repo/src/a.js")]));
    try reflexivity; discriminate.
Defined.

(** ** Selections and their content *)

Lemma entry_selections_shape (env : Env) (entry : json)
  (out : list selection) (s : selection) :
  entry_selections env entry = Ret out -> In s out ->
  ranges s <> [] /\ content s = None.
Proof.
  unfold entry_selections.
  destruct (destructure2 entry) as [fs|]; cbn [bind]; [|discriminate].
  destruct (fst fs) as [[| | |filePath| |]|]; try discriminate.
  destruct (entry_values (snd fs)) as [states|]; cbn [bind]; [|discriminate].
  destruct (for_of (state_ranges env) states) as [rs|]; cbn [bind];
    [|discriminate].
  destruct rs as [|r rs]; cbn; intros [= <-]; [intros []|].
  intros [<-|[]]. cbn. split; [discriminate|reflexivity].
Qed.

Lemma getSelections_shape (env : Env) (ws : workspace) (s : selection) :
  In s (getSelections env ws) -> ranges s <> [] /\ content s = None.
Proof.
  unfold getSelections.
  destruct (queryDatabase env (stateDbPath ws) selection_query) as [value|];
    [|intros []].
  unfold selections_of.
  destruct (JSON_parse env value) as [viewState|]; cbn [bind catch];
    [|intros []].
  destruct (dot (Some viewState) "textEditorViewState") as [states|];
    cbn [bind catch]; [|intros []].
  destruct (or_else states (Some (JArr []))) as [entries|]; [|intros []].
  destruct (iterate entries) as [es|]; cbn [bind catch]; [|intros []].
  destruct (for_of (entry_selections env) es) as [out|] eqn:Hout;
    cbn [catch]; [|intros []].
  intros Hs.
  apply (for_of_In _ es out Hout) in Hs as (entry & ys & _ & Hentry & Hin).
  exact (entry_selections_shape env entry ys s Hentry Hin).
Qed.

(** X8.  [getSelections] reports a file only with at least one range, and
    never with content: a file whose editors hold plain cursors is left out. *)
Theorem reported_selections_have_ranges (env : Env) (ws : workspace) :
  Forall (fun s => ranges s <> [] /\ content s = None) (getSelections env ws).
Proof.
  apply Forall_forall. intros s. apply getSelections_shape.
Qed.

Lemma range_content_text (lines : list string) (sl sc el ec : Z) :
  0 <= sl -> 0 <= sc -> 0 <= el -> 0 <= ec ->
  range_content lines (range_text sl sc el ec)
  = if (trim (selected_text lines (sl - 1) (sc - 1) (el - 1) (ec - 1)) =? "")%string
    then []
    else [ {| ContentItem.range := range_text sl sc el ec;
              ContentItem.content :=
                selected_text lines (sl - 1) (sc - 1) (el - 1) (ec - 1);
              ContentItem.lineCount := Z.abs (el - sl) + 1 |} ].
Proof.
  intros Hsl Hsc Hel Hec. unfold range_content.
  rewrite match_range_text by assumption.
  rewrite !parseInt_number by assumption.
  destruct (Z.eqb_spec sl el) as [<-|Hne].
  - replace (sl - 1 - (sl - 1)) with (sl - sl) by lia. reflexivity.
  - rewrite parseInt_number by assumption.
    replace (el - 1 - (sl - 1)) with (el - sl) by lia. reflexivity.
Qed.

(** X9.  What [getSelections] writes, [extractSelectedContent] reads back:
    the range string of two positions whose lines and columns are numbers
    from 0 to below 2^53 is parsed into the same four numbers, each made
    0-based. *)
Theorem written_ranges_are_read_back (lines : list string) (a p : json)
  (sl sc el ec : Z) :
  prop "lineNumber" a = Some (JNum sl) -> prop "column" a = Some (JNum sc) ->
  prop "lineNumber" p = Some (JNum el) -> prop "column" p = Some (JNum ec) ->
  0 <= sl < 2 ^ 53 -> 0 <= sc < 2 ^ 53 ->
  0 <= el < 2 ^ 53 -> 0 <= ec < 2 ^ 53 ->
  range_content lines (range_string a p)
  = if (trim (selected_text lines (sl - 1) (sc - 1) (el - 1) (ec - 1)) =? "")%string
    then []
    else [ {| ContentItem.range := range_string a p;
              ContentItem.content :=
                selected_text lines (sl - 1) (sc - 1) (el - 1) (ec - 1);
              ContentItem.lineCount := Z.abs (el - sl) + 1 |} ].
Proof.
  intros Hal Hac Hpl Hpc Hsl Hsc Hel Hec.
  rewrite (range_string_numbers a p sl sc el ec Hal Hac Hpl Hpc).
  apply range_content_text; lia.
Qed.

(** X9 at the positions (1,7) and (2,3) over the two lines of [a.js]. *)
Lemma written_ranges_are_read_back_witness :
  range_content (split_lines Selected.a_js)
    (range_string (Cursors.position 1 7) (Cursors.position 2 3))
  = [ {| ContentItem.range := "L1:C7-L2:C3";
         ContentItem.content := "a = 1;" ++ newline ++ "con";
         ContentItem.lineCount := 2 |} ].
Proof.
  apply (written_ranges_are_read_back (split_lines Selected.a_js)
           (Cursors.position 1 7) (Cursors.position 2 3) 1 7 2 3);
    try reflexivity; split; (lia || reflexivity).
Defined.

Lemma range_content_item (lines : list string) (range : string)
  (item : ContentItem.t) :
  In item (range_content lines range) ->
  ContentItem.range item = range
  /\ trim (ContentItem.content item) <> ""
  /\ 1 <= ContentItem.lineCount item.
Proof.
  unfold range_content.
  destruct (match_range range) as [[[[m1 m2] m3] m4]|]; [|intros []].
  cbv zeta.
  destruct (String.eqb_spec (trim (selected_text lines (parseInt m1 - 1)
    (parseInt m2 - 1)
    match m3 with Some d => parseInt d - 1 | None => parseInt m1 - 1 end
    (parseInt m4 - 1))) "") as [|Hne]; [intros []|].
  intros [<-|[]]. cbn. split; [reflexivity|]. split; [exact Hne|lia].
Qed.

Lemma range_content_at_most_one (lines : list string) (range : string) :
  (List.length (range_content lines range) <= 1)%nat.
Proof.
  unfold range_content.
  destruct (match_range range) as [[[[m1 m2] m3] m4]|]; [|simpl; lia].
  cbv zeta. destruct (_ =? _)%string; simpl; lia.
Qed.

(** X11.  Every item [extractSelectedContent] returns stands for one of the
    ranges it was given, holds text that is not blank and counts at least one
    line; a range gives at most one item. *)
Theorem content_items_are_well_formed (env : Env) (filePath : string)
  (ranges : list string) (items : list ContentItem.t) :
  extractSelectedContent env filePath ranges = Some items ->
  (List.length items <= List.length ranges)%nat
  /\ forall item, In item items ->
       In (ContentItem.range item) ranges
       /\ trim (ContentItem.content item) <> ""
       /\ 1 <= ContentItem.lineCount item.
Proof.
  unfold extractSelectedContent.
  destruct (existsSync env filePath); cbn [negb]; [|discriminate].
  destruct (readFileSync env filePath) as [content|e]; cbn [bind catch];
    [|discriminate].
  intros [= <-]. split.
  - induction ranges as [|r ranges IH]; [simpl; lia|].
    cbn [flat_map]. rewrite length_app.
    pose proof (range_content_at_most_one (split_lines content) r).
    simpl. lia.
  - intros item Hin. apply in_flat_map in Hin as (r & Hr & Hitem).
    destruct (range_content_item _ _ _ Hitem) as (-> & Htext & Hcount).
    now split.
Qed.

(** X11 at the two lines of [a.js], for a range and a string that is none. *)
Lemma content_items_are_well_formed_witness :
  extractSelectedContent Selected.host "/repo/src/a.js"
    ["L1:C7-L2:C3"; "no range"]
  = Some [ {| ContentItem.range := "L1:C7-L2:C3";
              ContentItem.content := "a = 1;" ++ newline ++ "con";
              ContentItem.lineCount := 2 |} ]
  /\ (1 <= 2)%nat
  /\ forall item,
       In item [ {| ContentItem.range := "L1:C7-L2:C3";
                    ContentItem.content := "a = 1;" ++ newline ++ "con";
                    ContentItem.lineCount := 2 |} ] ->
       In (ContentItem.range item) ["L1:C7-L2:C3"; "no range"]
       /\ trim (ContentItem.content item) <> ""
       /\ 1 <= ContentItem.lineCount item.
Proof.
  split; [reflexivity|].
  apply (content_items_are_well_formed Selected.host "/repo/src/a.js"
           ["L1:C7-L2:C3"; "no range"]
           [ {| ContentItem.range := "L1:C7-L2:C3";
                ContentItem.content := "a = 1;" ++ newline ++ "con";
                ContentItem.lineCount := 2 |} ]).
  reflexivity.
Defined.

Lemma multi_line_loop_outside (lines : list string) (s0 sc0 e0 ec0 : Z) :
  forall (count : nat) (i : Z) (acc : string),
  Z.of_nat (List.length lines) <= i ->
  multi_line_loop lines s0 sc0 e0 ec0 count i acc = acc.
Proof.
  induction count as [|count IH]; intros i acc Hi; [reflexivity|].
  cbn [multi_line_loop]. rewrite IH by lia.
  unfold multi_line_step, line_at.
  destruct (Z.ltb_spec i 0); [reflexivity|].
  assert (nth_error lines (Z.to_nat i) = None) as ->
    by (apply nth_error_None; lia).
  reflexivity.
Qed.

Lemma selected_text_outside (lines : list string) (s0 sc0 e0 ec0 : Z) :
  Z.of_nat (List.length lines) <= s0 ->
  Z.of_nat (List.length lines) <= e0 ->
  selected_text lines s0 sc0 e0 ec0 = "".
Proof.
  intros Hs He. unfold selected_text.
  destruct (s0 =? e0).
  - unfold line_at. destruct (Z.ltb_spec s0 0); [reflexivity|].
    assert (nth_error lines (Z.to_nat s0) = None) as ->
      by (apply nth_error_None; lia).
    reflexivity.
  - apply multi_line_loop_outside. lia.
Qed.

(** X12.  A range that lies beyond the last line of the file, its numbers
    below 2^53, gives no item: the answer is the empty list, not [null] and
    not an error. *)
Theorem range_beyond_last_line_gives_nothing (env : Env)
  (filePath content : string) (sl sc el ec : Z) :
  existsSync env filePath = true ->
  readFileSync env filePath = Ret content ->
  Z.of_nat (List.length (split_lines content)) < sl < 2 ^ 53 ->
  Z.of_nat (List.length (split_lines content)) < el < 2 ^ 53 ->
  0 <= sc < 2 ^ 53 -> 0 <= ec < 2 ^ 53 ->
  extractSelectedContent env filePath [range_text sl sc el ec] = Some [].
Proof.
  intros Hex Hread Hsl Hel Hsc Hec.
  unfold extractSelectedContent. rewrite Hex, Hread. cbn [negb bind catch flat_map].
  rewrite range_content_text by lia.
  rewrite selected_text_outside by lia. reflexivity.
Qed.

(** X12 at the two lines of [a.js] and a range on lines 5 to 6. *)
Lemma range_beyond_last_line_gives_nothing_witness :
  extractSelectedContent Selected.host "/repo/src/a.js" ["L5:C1-L6:C4"]
  = Some [].
Proof.
  apply (range_beyond_last_line_gives_nothing Selected.host "/repo/src/a.js"
           Selected.a_js 5 1 6 4);
    try reflexivity; split; (lia || reflexivity).
Defined.

(** ** Workspaces *)

Lemma workspace_of_dir_shape (env : Env) (dir : string) :
  workspace_of_dir env dir = []
  \/ exists ws,
       workspace_of_dir env dir = [ws]
       /\ id ws = dir
       /\ folder ws <> ""
       /\ stateDbPath ws
          = path_join env (path_join env (VSCODE_STORAGE env) dir) "state.vscdb"
       /\ existsSync env (stateDbPath ws) = true
       /\ existsSync env
            (path_join env (path_join env (VSCODE_STORAGE env) dir)
               "workspace.json") = true.
Proof.
  unfold workspace_of_dir.
  destruct (existsSync env (path_join env _ "workspace.json")) eqn:Hjson;
    [|now left].
  destruct (existsSync env (path_join env _ "state.vscdb")) eqn:Hdb;
    [|now left].
  cbn [andb].
  destruct (readFileSync env _) as [text|]; cbn [bind catch]; [|now left].
  destruct (JSON_parse env text) as [doc|]; cbn [bind catch]; [|now left].
  destruct (dot (Some doc) "folder") as [f|]; cbn [bind catch]; [|now left].
  destruct f as [[| | |uri| |]|]; cbn [catch]; try now left.
  destruct (String.eqb_spec (replace_first "file://" "" uri) "") as [|Hne];
    cbn [catch]; [now left|].
  right. eexists. split; [reflexivity|]. cbn [id folder stateDbPath].
  repeat split; assumption.
Qed.

Lemma flat_map_workspaces (env : Env) (dirs : list string) :
  map id (flat_map (workspace_of_dir env) dirs)
  = filter (fun dir => match workspace_of_dir env dir with
                       | [] => false
                       | _ => true
                       end) dirs.
Proof.
  induction dirs as [|dir dirs IH]; [reflexivity|].
  cbn [flat_map filter]. rewrite map_app, IH.
  destruct (workspace_of_dir_shape env dir) as [->|(ws & -> & <- & _)];
    reflexivity.
Qed.

(** X13.  [loadWorkspaces] keeps the order of the storage directory and
    takes at most one workspace from each entry; a workspace it loads has a
    folder that is not empty and a state database that exists, beside a
    [workspace.json], in the directory its id names. *)
Theorem loaded_workspaces_are_complete (env : Env)
  (workspaces : list workspace) :
  loadWorkspaces env = Ret workspaces ->
  exists dirs keep,
    readdirSync env (VSCODE_STORAGE env) = Ret dirs
    /\ map id workspaces = filter keep dirs
    /\ forall ws, In ws workspaces ->
         folder ws <> ""
         /\ stateDbPath ws
            = path_join env (path_join env (VSCODE_STORAGE env) (id ws))
                "state.vscdb"
         /\ existsSync env (stateDbPath ws) = true
         /\ existsSync env
              (path_join env (path_join env (VSCODE_STORAGE env) (id ws))
                 "workspace.json") = true.
Proof.
  unfold loadWorkspaces.
  destruct (readdirSync env (VSCODE_STORAGE env)) as [dirs|]; cbn [bind];
    [|discriminate].
  intros [= <-]. exists dirs. eexists. split; [reflexivity|].
  split; [apply flat_map_workspaces|].
  intros ws Hin. apply in_flat_map in Hin as (dir & _ & Hin).
  destruct (workspace_of_dir_shape env dir)
    as [Hnone|(ws' & Hone & <- & Hfolder & Hdb & Hex & Hjson)];
    rewrite ?Hnone, ?Hone in Hin; [destruct Hin|].
  destruct Hin as [<-|[]]. now repeat split.
Qed.

(** X13 at a storage directory of two entries, the first without a
    [workspace.json]. *)
Lemma loaded_workspaces_are_complete_witness :
  loadWorkspaces Selected.host = Ret [Demo.repo]
  /\ exists dirs keep,
       readdirSync Selected.host (VSCODE_STORAGE Selected.host) = Ret dirs
       /\ map id [Demo.repo] = filter keep dirs
       /\ forall ws, In ws [Demo.repo] ->
            folder ws <> ""
            /\ stateDbPath ws
               = path_join Selected.host
                   (path_join Selected.host (VSCODE_STORAGE Selected.host)
                      (id ws))
                   "state.vscdb"
            /\ existsSync Selected.host (stateDbPath ws) = true
            /\ existsSync Selected.host
                 (path_join Selected.host
                    (path_join Selected.host (VSCODE_STORAGE Selected.host)
                       (id ws))
                    "workspace.json") = true.
Proof.
  split; [reflexivity|].
  apply (loaded_workspaces_are_complete Selected.host [Demo.repo]).
  reflexivity.
Defined.

Lemma getRawContext_found (env : Env) (workspaces : list workspace)
  (filePath : string) (options : RawOptions.t) (ws : workspace) :
  findWorkspaceByFile env workspaces filePath = Some ws ->
  exists context,
    getRawContext env workspaces filePath options = Ret context
    /\ Context.workspace context = (id ws, folder ws)
    /\ Context.openFiles context
       = map (attach_selections (getSelections env ws)) (getOpenFiles env ws)
    /\ Context.pinnedFiles context
       = filter pinned (Context.openFiles context)
    /\ Context.activeFile context = getActiveFile env ws
    /\ Context.selections context
       = let selections :=
           if RawOptions.includeContent options
           then map (attach_content env) (getSelections env ws)
           else getSelections env ws in
         if RawOptions.allSelections options then
           filter (fun s =>
                     existsb (fun f => strict_eq (Some (path f))
                                                 (Some (JStr (file s))))
                             (Context.openFiles context))
                  selections
         else if truthy (Some (getActiveFile env ws)) then
           filter (fun s => strict_eq (Some (JStr (file s)))
                                      (Some (getActiveFile env ws)))
                  selections
         else [].
Proof.
  intros Hfind. unfold getRawContext. rewrite Hfind.
  eexists. split; [reflexivity|]. cbn. repeat split.
Qed.

(** ** The context *)

(** X15.  The selections of a context follow the scope that was asked for:
    by default each is on the active file, and there is none when no file is
    active; with [allSelections] each is on the path of an open tab. *)
Theorem reported_selections_follow_the_scope (env : Env)
  (workspaces : list workspace) (filePath : string) (options : RawOptions.t)
  (context : Context.t) :
  getRawContext env workspaces filePath options = Ret context ->
  (RawOptions.allSelections options = false ->
   forall s, In s (Context.selections context) ->
     Context.activeFile context = JStr (file s))
  /\ (RawOptions.allSelections options = true ->
      forall s, In s (Context.selections context) ->
        exists f, In f (Context.openFiles context) /\ path f = JStr (file s)).
Proof.
  intros Hctx.
  destruct (findWorkspaceByFile env workspaces filePath) as [ws|] eqn:Hfind;
    [|unfold getRawContext in Hctx; rewrite Hfind in Hctx; discriminate].
  destruct (getRawContext_found env workspaces filePath options ws Hfind)
    as (context' & Hctx' & _ & _ & _ & Hactive & Hsel).
  rewrite Hctx in Hctx'. injection Hctx' as <-.
  rewrite Hsel, Hactive. cbv zeta. split; intros Hall; rewrite Hall; intros s Hs.
  - destruct (truthy (Some (getActiveFile env ws))); [|destruct Hs].
    apply filter_In in Hs as (_ & Heq).
    destruct (getActiveFile env ws); try discriminate.
    cbn in Heq. apply String.eqb_eq in Heq. now subst.
  - apply filter_In in Hs as (_ & Hex).
    apply existsb_exists in Hex as (f & Hf & Heq).
    exists f. split; [exact Hf|].
    destruct (path f); try discriminate.
    cbn in Heq. apply String.eqb_eq in Heq. now subst.
Qed.

(** X15 in the selection scenario, where [a.js] is active: of the two files
    with a selection only [a.js] is reported. *)
Lemma reported_selections_follow_the_scope_witness :
  (exists context,
     getRawContext Selected.host [Demo.repo] "/repo/src/c.js"
       Selected.default_options = Ret context
     /\ map file (Context.selections context) = ["/repo/src/a.js"]
     /\ (RawOptions.allSelections Selected.default_options = false ->
         forall s, In s (Context.selections context) ->
           Context.activeFile context = JStr (file s)))
  /\ (exists context,
        getRawContext Selected.host [Demo.repo] "/repo/src/c.js"
          Selected.all_options = Ret context
        /\ map file (Context.selections context)
           = ["/repo/src/a.js"; "/repo/README.md"]).
Proof.
  split.
  - eexists. split; [reflexivity|]. split; [reflexivity|].
    apply (reported_selections_follow_the_scope Selected.host [Demo.repo]
             "/repo/src/c.js" Selected.default_options).
    reflexivity.
  - eexists. split; reflexivity.
Defined.

Lemma attach_content_keeps (env : Env) (s : selection) :
  file (attach_content env s) = file s
  /\ ranges (attach_content env s) = ranges s.
Proof.
  unfold attach_content. now destruct (extractSelectedContent env _ _).
Qed.

(** X16.  Content is attached when it is asked for and the file can be
    read: with [includeContent] every selection of the context holds what
    [extractSelectedContent] gives for its file and ranges, without it none
    holds content; either way file and ranges are those [getSelections]
    read. *)
Theorem reported_selections_hold_extracted_content (env : Env)
  (workspaces : list workspace) (filePath : string) (options : RawOptions.t)
  (ws : workspace) (context : Context.t) :
  findWorkspaceByFile env workspaces filePath = Some ws ->
  getRawContext env workspaces filePath options = Ret context ->
  forall s, In s (Context.selections context) ->
    (exists s0, In s0 (getSelections env ws)
                /\ file s = file s0 /\ ranges s = ranges s0)
    /\ content s
       = if RawOptions.includeContent options
         then extractSelectedContent env (file s) (ranges s)
         else None.
Proof.
  intros Hfind Hctx s Hs.
  destruct (getRawContext_found env workspaces filePath options ws Hfind)
    as (context' & Hctx' & _ & _ & _ & _ & Hsel).
  rewrite Hctx in Hctx'. injection Hctx' as <-.
  rewrite Hsel in Hs. cbv zeta in Hs.
  assert (In s (if RawOptions.includeContent options
                then map (attach_content env) (getSelections env ws)
                else getSelections env ws)) as Hin.
  { destruct (RawOptions.allSelections options).
    - now apply filter_In in Hs as (Hs & _).
    - destruct (truthy _); [|destruct Hs].
      now apply filter_In in Hs as (Hs & _). }
  clear Hs. destruct (RawOptions.includeContent options).
  - apply in_map_iff in Hin as (s0 & <- & Hs0).
    destruct (attach_content_keeps env s0) as (Hfile & Hranges).
    split; [exists s0; now repeat split|].
    rewrite Hfile, Hranges. unfold attach_content.
    destruct (extractSelectedContent env (file s0) (ranges s0)) as [c|];
      [reflexivity|].
    apply (getSelections_shape env ws s0 Hs0).
  - split; [exists s; now repeat split|].
    apply (getSelections_shape env ws s Hin).
Qed.

(** X16 in the selection scenario: the selection in [a.js] with the text it
    covers. *)
Lemma reported_selections_hold_extracted_content_witness :
  exists context,
    getRawContext Selected.host [Demo.repo] "/repo/src/c.js"
      Selected.default_options = Ret context
    /\ map content (Context.selections context)
       = [ Some [ {| ContentItem.range := "L1:C7-L2:C3";
                     ContentItem.content := "a = 1;" ++ newline ++ "con";
                     ContentItem.lineCount := 2 |} ] ]
    /\ forall s, In s (Context.selections context) ->
         (exists s0, In s0 (getSelections Selected.host Demo.repo)
                     /\ file s = file s0 /\ ranges s = ranges s0)
         /\ content s
            = if RawOptions.includeContent Selected.default_options
              then extractSelectedContent Selected.host (file s) (ranges s)
              else None.
Proof.
  eexists. split; [reflexivity|]. split; [reflexivity|].
  apply (reported_selections_hold_extracted_content Selected.host [Demo.repo]
           "/repo/src/c.js" Selected.default_options Demo.repo);
    reflexivity.
Defined.

Lemma attach_selections_keeps (sels : list selection) (f : tab) :
  path (attach_selections sels f) = path f
  /\ type (attach_selections sels f) = type f
  /\ pinned (attach_selections sels f) = pinned f
  /\ index (attach_selections sels f) = index f.
Proof.
  unfold attach_selections. destruct (type f) eqn:Hty; cbn; auto.
Qed.

(** X17.  The tabs of a context are the tabs [getOpenFiles] read, in order,
    with their paths, kinds and pins.  A file tab carries the ranges
    [getSelections] read for its path, whatever the scope of the reported
    selections and whichever file is active: it carries some exactly when a
    selection was read on its path.  A terminal carries none. *)
Theorem tabs_carry_the_ranges_of_their_path (env : Env)
  (workspaces : list workspace) (filePath : string) (options : RawOptions.t)
  (ws : workspace) (context : Context.t) :
  findWorkspaceByFile env workspaces filePath = Some ws ->
  getRawContext env workspaces filePath options = Ret context ->
  map path (Context.openFiles context) = map path (getOpenFiles env ws)
  /\ map type (Context.openFiles context) = map type (getOpenFiles env ws)
  /\ map pinned (Context.openFiles context) = map pinned (getOpenFiles env ws)
  /\ forall f, In f (Context.openFiles context) ->
       match type f with
       | terminal_tab => selections f = None
       | file_tab =>
           exists rs,
             selections f = Some rs
             /\ (rs <> [] <->
                 exists s, In s (getSelections env ws)
                           /\ path f = JStr (file s))
             /\ forall r, In r rs ->
                  exists s, In s (getSelections env ws)
                            /\ path f = JStr (file s) /\ In r (ranges s)
       end.
Proof.
  intros Hfind Hctx.
  destruct (getRawContext_found env workspaces filePath options ws Hfind)
    as (context' & Hctx' & _ & Hopen & _).
  rewrite Hctx in Hctx'. injection Hctx' as <-.
  rewrite Hopen, !map_map.
  split; [|split; [|split]];
    try (apply map_ext; intros f; apply attach_selections_keeps).
  intros f Hf. apply in_map_iff in Hf as (f0 & <- & Hf0).
  pose proof (open_files_recorded env ws f0 Hf0) as (Hnone & _).
  unfold attach_selections. destruct (type f0) eqn:Hty; [|now rewrite Hty].
  cbn [type selections path]. eexists. split; [reflexivity|].
  destruct (find _ (getSelections env ws)) as [s|] eqn:Hfound.
  - apply find_some in Hfound as (Hs & Heq).
    assert (path f0 = JStr (file s)) as Hpath.
    { destruct (path f0); try discriminate.
      cbn in Heq. apply String.eqb_eq in Heq. now subst. }
    split.
    + split; [intros _; now exists s|].
      intros _. apply (getSelections_shape env ws s Hs).
    + intros r Hr. now exists s.
  - split; [|intros r []].
    split; [intros H; now destruct H|].
    intros (s & Hs & Hpath).
    apply (find_none _ _ Hfound) in Hs. rewrite Hpath in Hs. cbn in Hs.
    now rewrite String.eqb_refl in Hs.
Qed.

(** X17 in the selection scenario: [README.md] is not the active file, yet
    its tab carries the range selected in it. *)
Lemma tabs_carry_the_ranges_of_their_path_witness :
  exists context,
    getRawContext Selected.host [Demo.repo] "/repo/src/c.js"
      Selected.default_options = Ret context
    /\ map selections (Context.openFiles context)
       = [Some ["L1:C1-6"]; Some ["L1:C7-L2:C3"]; None]
    /\ map path (Context.openFiles context)
       = map path (getOpenFiles Selected.host Demo.repo)
    /\ map type (Context.openFiles context)
       = map type (getOpenFiles Selected.host Demo.repo)
    /\ map pinned (Context.openFiles context)
       = map pinned (getOpenFiles Selected.host Demo.repo)
    /\ forall f, In f (Context.openFiles context) ->
         match type f with
         | terminal_tab => selections f = None
         | file_tab =>
             exists rs,
               selections f = Some rs
               /\ (rs <> [] <->
                   exists s, In s (getSelections Selected.host Demo.repo)
                             /\ path f = JStr (file s))
               /\ forall r, In r rs ->
                    exists s, In s (getSelections Selected.host Demo.repo)
                              /\ path f = JStr (file s) /\ In r (ranges s)
         end.
Proof.
  eexists. split; [reflexivity|]. split; [reflexivity|].
  apply (tabs_carry_the_ranges_of_their_path Selected.host [Demo.repo]
           "/repo/src/c.js" Selected.default_options Demo.repo);
    reflexivity.
Defined.


Lemma filter_commutes {A : Type} (f g : A -> bool) (l : list A) :
  filter f (filter g l) = filter g (filter f l).
Proof.
  induction l as [|x l IH]; [reflexivity|].
  cbn [filter]. destruct (f x) eqn:Hf, (g x) eqn:Hg; cbn [filter];
    rewrite ?Hf, ?Hg, IH; reflexivity.
Qed.

(** X18.  What [raw] lists as pinned is what it lists as open, cut down to
    the pinned tabs: with or without terminals, the pinned tabs shown are the
    pinned ones among the open tabs shown, in the same order, so the pinned
    count never exceeds the open count. *)
Theorem shown_pinned_tabs_are_shown_open_tabs (env : Env)
  (workspaces : list workspace) (filePath : string) (options : RawOptions.t)
  (format : FormatOptions.t) (context : Context.t) :
  getRawContext env workspaces filePath options = Ret context ->
  LLMFormatter.shown format (Context.pinnedFiles context)
  = filter pinned (LLMFormatter.shown format (Context.openFiles context))
  /\ (List.length (LLMFormatter.shown format (Context.pinnedFiles context))
      <= List.length (LLMFormatter.shown format (Context.openFiles context)))%nat.
Proof.
  intros Hctx.
  destruct (findWorkspaceByFile env workspaces filePath) as [ws|] eqn:Hfind;
    [|unfold getRawContext in Hctx; rewrite Hfind in Hctx; discriminate].
  destruct (getRawContext_found env workspaces filePath options ws Hfind)
    as (context' & Hctx' & _ & _ & Hpinned & _).
  rewrite Hctx in Hctx'. injection Hctx' as <-.
  assert (LLMFormatter.shown format (Context.pinnedFiles context)
          = filter pinned
              (LLMFormatter.shown format (Context.openFiles context))) as Heq.
  { rewrite Hpinned. unfold LLMFormatter.shown.
    destruct (FormatOptions.includeTerminals format); [reflexivity|].
    apply filter_commutes. }
  split; [exact Heq|]. rewrite Heq. apply filter_length_le.
Qed.

(** X18 in the selection scenario, terminals left out: one pinned tab of
    two. *)
Lemma shown_pinned_tabs_are_shown_open_tabs_witness :
  exists context,
    getRawContext Selected.host [Demo.repo] "/repo/src/c.js"
      Selected.default_options = Ret context
    /\ map path (LLMFormatter.shown Rendered.defaults
                   (Context.pinnedFiles context))
       = [JStr "/repo/README.md"]
    /\ LLMFormatter.shown Rendered.defaults (Context.pinnedFiles context)
       = filter pinned
           (LLMFormatter.shown Rendered.defaults (Context.openFiles context))
    /\ (List.length
          (LLMFormatter.shown Rendered.defaults (Context.pinnedFiles context))
        <= List.length
             (LLMFormatter.shown Rendered.defaults
                (Context.openFiles context)))%nat.
Proof.
  eexists. split; [reflexivity|]. split; [reflexivity|].
  apply (shown_pinned_tabs_are_shown_open_tabs Selected.host [Demo.repo]
           "/repo/src/c.js" Selected.default_options Rendered.defaults).
  reflexivity.
Defined.

(** ** The selection section of the raw format *)

Lemma eqb_same_length (a b : string) :
  (a =? b)%string = true -> String.length a = String.length b.
Proof. intros H. apply String.eqb_eq in H. now subst. Qed.

Lemma longer_than_marker (a b : string) :
  (String.length ("SELECTIONS: none" ++ newline) < String.length a)%nat ->
  negb (a ++ b =? "")%string
  && negb (a ++ b =? "SELECTIONS: none" ++ newline)%string = true.
Proof.
  intros Hlen.
  destruct (a ++ b =? "")%string eqn:H1.
  { apply eqb_same_length in H1. rewrite length_app_str in H1.
    cbn in Hlen, H1. lia. }
  destruct (a ++ b =? "SELECTIONS: none" ++ newline)%string eqn:H2.
  { apply eqb_same_length in H2. rewrite length_app_str in H2.
    cbn in Hlen, H2. lia. }
  reflexivity.
Qed.

(** X19.  [raw] prints the selection section exactly when there is a
    selection: the text of a list that is not empty is never taken for the
    marker of the empty list, in either format, as long as colouring does not
    shorten a text. *)
Theorem selection_section_shown_iff_selected (env : Env) (data : Context.t)
  (options : FormatOptions.t) :
  (forall st text,
     (String.length text <= String.length (chalk env st text))%nat) ->
  LLMFormatter.selections_section env data options
  = match Context.selections data with
    | [] => ""
    | _ => LLMFormatter.selections env (Context.selections data) options
           ++ newline
    end.
Proof.
  intros Hchalk. unfold LLMFormatter.selections_section.
  destruct (Context.selections data) as [|sel rest]; [reflexivity|].
  unfold LLMFormatter.selections.
  cbn [LLMFormatter.selection_entries_from].
  unfold LLMFormatter.selection_entry.
  destruct (FormatOptions.legacyFormat options); [reflexivity|].
  rewrite !app_assoc_str.
  rewrite longer_than_marker; [reflexivity|].
  eapply Nat.lt_le_trans; [|apply Hchalk].
  rewrite length_app_str. cbn. lia.
Qed.

(** X19 for a host without colours and one selection without content. *)
Lemma selection_section_shown_iff_selected_witness :
  LLMFormatter.selections_section (Rendered.disk "")
    {| Context.workspace := ("w1", "/repo");
       Context.openFiles := [];
       Context.pinnedFiles := [];
       Context.selections :=
         [ {| file := "/repo/README.md"; ranges := ["L1:C1-6"];
              content := None |} ];
       Context.activeFile := JStr "/repo/README.md" |}
    Rendered.defaults
  = "The user selected the following lines from /repo/README.md:"
    ++ newline ++ "L1:C1-6" ++ newline ++ newline.
Proof.
  rewrite (selection_section_shown_iff_selected (Rendered.disk "") _
             Rendered.defaults); [reflexivity|].
  intros st text. apply Nat.le_refl.
Defined.

(** ** The language of a file *)

Section Extensions.

Variable sep : ascii.

Lemma split_nonempty (s : string) : split sep s <> [].
Proof.
  destruct s as [|c s]; cbn [split]; [discriminate|].
  destruct (c =? sep)%char; [discriminate|].
  destruct (split sep s); discriminate.
Qed.

Lemma split_app_sep (a b : string) :
  split sep (a ++ String sep b) = (split sep a ++ split sep b)%list.
Proof.
  induction a as [|c a IH]; cbn [append split].
  - now rewrite Ascii.eqb_refl.
  - destruct (c =? sep)%char; [now rewrite IH|].
    rewrite IH. pose proof (split_nonempty a) as Hne.
    destruct (split sep a); [contradiction|reflexivity].
Qed.

Lemma split_no_sep (s : string) : includes sep s = false -> split sep s = [s].
Proof.
  induction s as [|c s IH]; cbn [includes split]; [reflexivity|].
  destruct (c =? sep)%char; [discriminate|].
  cbn [orb]. intros H. now rewrite (IH H).
Qed.

Lemma last_app_nonempty (l1 l2 : list string) (d : string) :
  l2 <> [] -> last (l1 ++ l2)%list d = last l2 d.
Proof.
  intros Hne. induction l1 as [|x l1 IH]; [reflexivity|].
  cbn [app]. rewrite <- IH. cbn [last].
  destruct (l1 ++ l2)%list eqn:Happ; [|reflexivity].
  apply app_eq_nil in Happ as (_ & ->). contradiction.
Qed.

Lemma last_segment (base ext : string) :
  includes sep ext = false ->
  last (split sep (base ++ String sep ext)) "" = ext.
Proof.
  intros Hno. rewrite split_app_sep, (split_no_sep ext Hno).
  now rewrite last_app_nonempty.
Qed.

End Extensions.

Lemma lower_idempotent (c : ascii) : lower (lower c) = lower c.
Proof. destruct c as [[] [] [] [] [] [] [] []]; reflexivity. Qed.

Lemma lower_keeps_dot (c : ascii) :
  (lower c =? ".")%char = (c =? ".")%char.
Proof. destruct c as [[] [] [] [] [] [] [] []]; reflexivity. Qed.

Lemma toLowerCase_idempotent (s : string) :
  toLowerCase (toLowerCase s) = toLowerCase s.
Proof.
  induction s as [|c s IH]; cbn [toLowerCase]; [reflexivity|].
  now rewrite lower_idempotent, IH.
Qed.

Lemma toLowerCase_keeps_dots (s : string) :
  includes "." (toLowerCase s) = includes "." s.
Proof.
  induction s as [|c s IH]; cbn [toLowerCase includes]; [reflexivity|].
  now rewrite lower_keeps_dot, IH.
Qed.

(** X20.  The language of a file is decided by what follows the last dot of
    its path, read without regard to case: the directories and the base name
    play no part. *)
Theorem language_depends_on_extension_only (env : Env) (base ext : string) :
  includes "." ext = false ->
  LLMFormatter.getFileLanguage env (base ++ "." ++ ext)
  = LLMFormatter.getFileLanguage env (toLowerCase ext).
Proof.
  intros Hno. unfold LLMFormatter.getFileLanguage.
  change ("." ++ ext) with (String "." ext).
  rewrite (last_segment "." base ext Hno).
  rewrite (split_no_sep "." (toLowerCase ext))
    by now rewrite toLowerCase_keeps_dots.
  cbn [last]. now rewrite toLowerCase_idempotent.
Qed.

(** X20 at a path with a dot in a directory name and an upper-case
    extension. *)
Lemma language_depends_on_extension_only_witness :
  LLMFormatter.getFileLanguage Selected.host ("/repo/v1.2/Main" ++ "." ++ "JS")
  = LLMFormatter.getFileLanguage Selected.host (toLowerCase "JS")
  /\ LLMFormatter.getFileLanguage Selected.host "/repo/v1.2/Main.JS"
     = "javascript".
Proof.
  split; [|reflexivity].
  apply (language_depends_on_extension_only Selected.host "/repo/v1.2/Main"
           "JS").
  reflexivity.
Defined.

(** ** The state store *)

Lemma trim_end_idempotent (s : string) : trim_end (trim_end s) = trim_end s.
Proof.
  induction s as [|c s IH]; [reflexivity|].
  cbn [trim_end]. destruct (trim_end s) as [|d t] eqn:Ht.
  - destruct (is_space c) eqn:Hc; [reflexivity|].
    cbn [trim_end]. now rewrite Hc.
  - cbn [trim_end] in *. rewrite IH. reflexivity.
Qed.

Lemma trim_start_head (s : string) :
  match trim_start s with
  | EmptyString => True
  | String c _ => is_space c = false
  end.
Proof.
  induction s as [|c s IH]; cbn [trim_start]; [exact I|].
  destruct (is_space c) eqn:Hc; [exact IH|exact Hc].
Qed.

Lemma trim_start_trim_end (s : string) :
  match s with
  | EmptyString => True
  | String c _ => is_space c = false
  end ->
  trim_start (trim_end s) = trim_end s.
Proof.
  destruct s as [|c s]; [reflexivity|]. intros Hc.
  cbn [trim_end]. destruct (trim_end s).
  - rewrite Hc. cbn [trim_start]. now rewrite Hc.
  - cbn [trim_start]. now rewrite Hc.
Qed.

Lemma trim_idempotent (s : string) : trim (trim s) = trim s.
Proof.
  unfold trim.
  rewrite (trim_start_trim_end (trim_start s) (trim_start_head s)).
  apply trim_end_idempotent.
Qed.

(** X21.  A value read from the state store is the trimmed output of the
    query command: it is never empty and carries no white space at either
    end. *)
Theorem stored_value_is_trimmed (env : Env) (dbPath query value : string) :
  queryDatabase env dbPath query = Some value ->
  value <> ""
  /\ trim value = value
  /\ exists output,
       execSync env (sqlite3_command dbPath query) = Ret output
       /\ value = trim output.
Proof.
  unfold queryDatabase.
  destruct (execSync env (sqlite3_command dbPath query)) as [output|];
    cbn [bind catch]; [|discriminate].
  destruct (String.eqb_spec (trim output) "") as [|Hne]; [discriminate|].
  intros [= <-]. split; [exact Hne|]. split; [apply trim_idempotent|].
  now exists output.
Qed.

(** X21 at the selection store of the selection scenario, whose answer ends
    in a line break. *)
Lemma stored_value_is_trimmed_witness :
  "<views>" <> ""
  /\ trim "<views>" = "<views>"
  /\ exists output,
       execSync Selected.host
         (sqlite3_command (stateDbPath Demo.repo) selection_query)
       = Ret output
       /\ "<views>" = trim output.
Proof.
  apply (stored_value_is_trimmed Selected.host (stateDbPath Demo.repo)
           selection_query "<views>").
  reflexivity.
Defined.

(** ** The shorthand flags *)

Section Shorthands.

Variable cwd : string.

Lemma command_names (command full : string) :
  assoc command Shorthand.commandMap = Some full ->
  In full ["raw"; "open"; "pinned"; "selections"; "workspace"].
Proof.
  unfold Shorthand.commandMap. cbn [assoc].
  repeat (destruct (_ =? command)%string;
          [intros [= <-]; cbn; tauto|]).
  discriminate.
Qed.

Lemma handleShorthands_command (a0 a1 full : string) (rest : list string) :
  In full ["raw"; "open"; "pinned"; "selections"; "workspace"] ->
  Shorthand.handleShorthands cwd (a0 :: a1 :: full :: rest)
  = a0 :: a1 :: full :: rest.
Proof.
  intros [<-|[<-|[<-|[<-|[<-|[]]]]]]; reflexivity.
Qed.

(** X22.  Expanding shorthands twice is expanding them once: a command line
    that [handleShorthands] has rewritten is left as it is by another
    pass. *)
Theorem handleShorthands_idempotent (args : list string) :
  Shorthand.handleShorthands cwd (Shorthand.handleShorthands cwd args)
  = Shorthand.handleShorthands cwd args.
Proof.
  destruct args as [|a0 [|a1 [|firstArg rest]]]; try reflexivity.
  destruct (Shorthand.handleShorthands cwd (a0 :: a1 :: firstArg :: rest))
    as [|b0 bs] eqn:Hout.
  - reflexivity.
  - revert Hout. cbn [Shorthand.handleShorthands].
    destruct (_ || _ || _) eqn:Hguard.
    { intros [= <- <-]. cbn [Shorthand.handleShorthands].
      now rewrite Hguard. }
    destruct (_ && _) eqn:Hc.
    { intros [= <- <-]. reflexivity. }
    destruct (Shorthand.shorthand_match firstArg) as [[command modifiers]|]
      eqn:Hmatch.
    2:{ intros [= <- <-]. cbn [Shorthand.handleShorthands].
        now rewrite Hguard, Hc, Hmatch. }
    destruct (assoc command Shorthand.commandMap) as [full|] eqn:Hfull.
    2:{ intros [= <- <-]. cbn [Shorthand.handleShorthands].
        now rewrite Hguard, Hc, Hmatch, Hfull. }
    apply command_names in Hfull.
    intros [= <- <-].
    destruct (includes "c" modifiers); [reflexivity|].
    destruct (includes "t" modifiers); [reflexivity|].
    cbn [app]. now apply handleShorthands_command.
Qed.

Lemma shorthand_not_untouched (letter : ascii) (modifiers : string) :
  Shorthand.is_command_letter letter = true ->
  (String "-" (String letter modifiers) =? "")%string
  || negb (startsWith (String "-" (String letter modifiers)) "-")
  || existsb (String.eqb (String "-" (String letter modifiers)))
       Shorthand.untouched = false
  /\ (String "-" (String letter modifiers) =? "-c")%string = false.
Proof.
  destruct letter as [[] [] [] [] [] [] [] []]; try discriminate;
    intros _; split; reflexivity.
Qed.

(** X23.  A shorthand is a dash, a command letter and any run of the
    modifiers [c] and [t]: it becomes [--content] if a [c] occurs,
    [--terminals] if a [t] occurs, the full name of the command, and the path
    argument or the working directory; the arguments after the path are
    kept.  The order of the modifiers and their repetition play no part. *)
Theorem shorthand_expansion (a0 a1 : string) (letter : ascii)
  (modifiers full : string) (rest : list string) :
  assoc (String letter "") Shorthand.commandMap = Some full ->
  Shorthand.all_modifiers modifiers = true ->
  Shorthand.handleShorthands cwd
    (a0 :: a1 :: String "-" (String letter modifiers) :: rest)
  = (a0 :: a1
     :: (if includes "c" modifiers then ["--content"] else [])
     ++ (if includes "t" modifiers then ["--terminals"] else [])
     ++ [full; Shorthand.path_argument cwd rest]
     ++ skipn 1 rest)%list.
Proof.
  intros Hfull Hmods.
  assert (Shorthand.is_command_letter letter = true) as Hletter.
  { revert Hfull. unfold Shorthand.commandMap. cbn [assoc].
    repeat match goal with
           | |- context [(?a =? ?b)%string] =>
               destruct (String.eqb_spec a b) as [[= <-]|_];
               [intros _; reflexivity|]
           end.
    discriminate. }
  destruct (shorthand_not_untouched letter modifiers Hletter)
    as (Hguard & Hc).
  cbn [Shorthand.handleShorthands]. rewrite Hguard, Hc. cbn [andb].
  unfold Shorthand.shorthand_match.
  rewrite Hletter, Hmods. cbn [Ascii.eqb Bool.eqb andb]. now rewrite Hfull.
Qed.

End Shorthands.

(** X23 at [-sct] and [-stcc], followed by a path and an option. *)
Lemma shorthand_expansion_witness :
  Shorthand.handleShorthands "/cwd" ["node"; "vctx"; "-sct"; "f.js"; "--json"]
  = ["node"; "vctx"; "--content"; "--terminals"; "selections"; "f.js"; "--json"]
  /\ Shorthand.handleShorthands "/cwd"
       ["node"; "vctx"; "-stcc"; "f.js"; "--json"]
     = ["node"; "vctx"; "--content"; "--terminals"; "selections"; "f.js";
        "--json"].
Proof.
  split.
  - apply (shorthand_expansion "/cwd" "node" "vctx" "s" "ct" "selections"
             ["f.js"; "--json"]); reflexivity.
  - reflexivity.
Defined.


